(** * SchoolCBT: the proctoring monitor, the exam session and the result submitter

    A shallow embedding of the student side of the repository:

    - [student/exam-integrity.js]: the [IntegrityModule] singleton.  The
      file holds two revisions of the module, 1.0.0 and 1.2.0; both are
      embedded ([IntegrityV1] and [Integrity]);
    - [student/sheets-submitter.js]: the [SheetsSubmitter] singleton;
    - [student/script.js]: the session state, scoring and submission.

    Conventions.  JavaScript numbers that the code only uses as integers
    (counts, marks, milliseconds) are [Z]; the percentage, which the code
    computes with a division, is a binary64 [float].  Every clock reading
    ([Date.now()], [new Date()]) and every [Math.random()] draw is an input
    of the operation that makes it.  Module-level mutable variables are
    fields of a record that is passed through every operation, and what
    an operation does to the outside (alerts, calls of subscribers, timers,
    fullscreen requests, network requests) is appended to a chronological
    list; of the console output only the error log of the auto-submit loop
    is kept.  A JavaScript exception is a
    [Completion] value: [Threw] leaves a function at once and skips the
    rest of its body, unless a [try] surrounds the call. *)

From Stdlib Require Import ZArith QArith Qround Floats Ascii String.
From stdpp Require Import gmap strings list fin_maps pretty.

Set Warnings "-register-all,-inexact-float".
Open Scope Z_scope.

(** ** JavaScript primitives used by the three scripts *)

Module JS.

(** How a call ends: normally, or with an exception carrying a message. *)
Inductive Completion :=
| Returned
| Threw (err : string).

(** [x || d] on a number that may be unset: [undefined], [null] and [0]
    are falsy, every other number (negative ones too) is truthy. *)
Definition orDefault (x : option Z) (d : Z) : Z :=
  match x with
  | Some v => if v =? 0 then d else v
  | None => d
  end.

(** The double nearest to an integer (exact below 2^53). *)
Definition Z2float (n : Z) : float :=
  match n with
  | Z0 => 0%float
  | Zpos _ => PrimFloat.of_uint63 (Uint63.of_Z n)
  | Zneg p => PrimFloat.opp (PrimFloat.of_uint63 (Uint63.of_Z (Zpos p)))
  end.

(** [Math.round]: the nearest integer, ties towards +infinity; zeros,
    infinities and NaN are returned unchanged, and a negative argument
    that rounds to zero gives -0. *)
Definition Math_round (x : float) : float :=
  match Prim2SF x with
  | S754_finite s m e =>
      if 0 <=? e then x
      else
        let d := 2 ^ (- e) in
        let q := Zpos m / d in
        let r := Zpos m mod d in
        if s then PrimFloat.opp (Z2float (if 2 * r <=? d then q else q + 1))
        else Z2float (if 2 * r <? d then q else q + 1)
  | _ => x
  end.

(** [Math.ceil(a / b)] for integers [a] and [b > 0]. *)
Definition ceilDiv (a b : Z) : Z := - ((- a) / b).

(** [n.toString()] for an integer. *)
Definition toString (n : Z) : string := pretty n.

(** [s.padStart(2, '0')]. *)
Definition padStart2 (s : string) : string :=
  match String.length s with
  | O => "00" +:+ s
  | S O => "0" +:+ s
  | _ => s
  end.

(** [s.charAt(i)]: the one-character string at index [i], or the empty
    string when [i] is out of range. *)
Definition charAt (s : string) (i : Z) : string :=
  if i <? 0 then ""
  else match String.get (Z.to_nat i) s with
       | Some c => String c ""
       | None => ""
       end.

(** [Math.floor(r * n)] for a draw [r] of [Math.random()]. *)
Definition floorScaled (r : Q) (n : Z) : Z := Qfloor (r * inject_Z n).

(** White space removed by [String.prototype.trim], for code units below
    256: TAB, LF, VT, FF, CR, SPACE and NO-BREAK SPACE. *)
Definition isWhiteSpace (c : ascii) : bool :=
  let n := N_of_ascii c in
  ((9 <=? n) && (n <=? 13) || (n =? 32) || (n =? 160))%N.

Fixpoint trimStart (s : string) : string :=
  match s with
  | EmptyString => EmptyString
  | String c rest => if isWhiteSpace c then trimStart rest else s
  end.

Definition trim (s : string) : string :=
  String.rev (trimStart (String.rev (trimStart s))).

(** Values produced by [JSON.parse]. *)
Inductive Json :=
| JNull
| JBool (b : bool)
| JNum (q : Q)
| JStr (s : string)
| JArr (items : list Json)
| JObj (fields : list (string * Json)).

Fixpoint assoc (k : string) (fields : list (string * Json)) : option Json :=
  match fields with
  | [] => None
  | (k', v) :: rest => if String.eqb k k' then Some v else assoc k rest
  end.

(** [v.k] on a value that is neither [null] nor [undefined]; [None] is
    [undefined].  Only own fields of objects are found: the keys read by
    the scripts ([exam], [examId], [student], [name]) are not properties of
    arrays, strings, numbers or booleans. *)
Definition getProp (v : Json) (k : string) : option Json :=
  match v with
  | JObj fields => assoc k fields
  | _ => None
  end.

(** Truthiness; [None] is [undefined]. *)
Definition truthy (v : option Json) : bool :=
  match v with
  | None | Some JNull => false
  | Some (JBool b) => b
  | Some (JNum q) => negb (Qeq_bool q 0)
  | Some (JStr s) => negb (String.eqb s "")
  | Some (JArr _) | Some (JObj _) => true
  end.

(** A plain object, such as [{}] or what [JSON.parse] gives for an
    object, is modelled by the map of its own properties.  Reading a key it
    does not own goes on to [Object.prototype], whose members carry the
    names below (ECMAScript, with the additions every browser has); they
    are functions, or for [__proto__] the prototype object itself. *)
Definition objectPrototype : list string :=
  ["constructor"; "__defineGetter__"; "__defineSetter__"; "hasOwnProperty";
   "__lookupGetter__"; "__lookupSetter__"; "isPrototypeOf";
   "propertyIsEnumerable"; "toString"; "valueOf"; "__proto__";
   "toLocaleString"].

Definition inherits (k : string) : bool := existsb (String.eqb k) objectPrototype.

(** [obj[k] = v] for a string [v]: an own property is written or
    created, except that the setter behind [__proto__] ignores a value
    that is neither an object nor [null], so that nothing is stored unless
    the object already owns a property of that name (as an object from
    [JSON.parse] can). *)
Definition objectSet {V : Type} (k : string) (v : V) (own : gmap string V)
    : gmap string V :=
  if String.eqb k "__proto__" then
    match own !! k with
    | Some _ => <[k := v]> own
    | None => own
    end
  else <[k := v]> own.

End JS.

(** ** [IntegrityModule], revision 1.2.0 *)

Module Integrity.
Import JS.

Inductive ViolationType := tab_switch | window_blur | fullscreen_exit.

Definition isFullscreenExit (ty : ViolationType) : bool :=
  match ty with fullscreen_exit => true | _ => false end.

(** [violationEntry]; [timestamp] is what [new Date()] gives when the
    entry is built. *)
Record ViolationEntry := { type : ViolationType; timestamp : Z }.

(** [containerElement]: the module only asks it for one of the four
    request-fullscreen methods. *)
Inductive Element := WithRequestFullscreen | WithoutRequestFullscreen.

Record Config := {
  containerElement : Element;
  autoSubmitOnViolation : bool;
  violationThreshold : Z;
  enableWarnings : bool;
  strictMode : bool
}.

(** The argument of [init]: any subset of the configuration fields. *)
Record ConfigPatch := {
  containerElement' : option Element;
  autoSubmitOnViolation' : option bool;
  violationThreshold' : option Z;
  enableWarnings' : option bool;
  strictMode' : option bool
}.

Record State := {
  violations : Z;
  violationLog : list ViolationEntry;
  isActive : bool;
  lastViolationTime : Z;
  isReentering : bool;
  isSubmitting : bool
}.

(** A subscriber is what it does when called: [onViolation] subscribers
    receive [(entry, count, max)], [onAutoSubmit] subscribers nothing. *)
Definition ViolationCallback : Type := ViolationEntry -> Z -> Z -> Completion.
Definition AutoSubmitCallback : Type := Completion.

Record Callbacks := {
  onViolation : list ViolationCallback;
  onAutoSubmit : list AutoSubmitCallback
}.

(** The text shown by [_showWarning]: termination once [count >= max], a
    numbered warning with the remaining tolerance before. *)
Inductive Message :=
| Terminated (ty : ViolationType)
| Warning (ty : ViolationType) (count remaining : Z).

Inductive Effect :=
| Alert (msg : Message)
| CallViolation (idx : nat) (entry : ViolationEntry) (count max : Z)
| CallAutoSubmit (idx : nat)
| ConsoleError (err : string)
| SetTimeout (delay : Z)
| RequestFullscreen
| Uncaught (err : string).

(** The module's private variables, the timers and promises it has started
    and not yet seen finish, and what it has done to the outside so far. *)
Record World := {
  config : Config;
  state : State;
  callbacks : Callbacks;
  listening : bool;
  pendingTimeouts : nat;
  pendingRequests : nat;
  effects : list Effect
}.

Definition defaultConfig : Config :=
  {| containerElement := WithRequestFullscreen;
     autoSubmitOnViolation := false;
     violationThreshold := 3;
     enableWarnings := true;
     strictMode := false |}.

Definition loaded : World :=
  {| config := defaultConfig;
     state := {| violations := 0; violationLog := []; isActive := false;
                 lastViolationTime := 0; isReentering := false;
                 isSubmitting := false |};
     callbacks := {| onViolation := []; onAutoSubmit := [] |};
     listening := false;
     pendingTimeouts := 0;
     pendingRequests := 0;
     effects := [] |}.

Definition withState (s : State) (w : World) : World :=
  {| config := config w; state := s; callbacks := callbacks w;
     listening := listening w; pendingTimeouts := pendingTimeouts w;
     pendingRequests := pendingRequests w; effects := effects w |}.

Definition emit (es : list Effect) (w : World) : World :=
  {| config := config w; state := state w; callbacks := callbacks w;
     listening := listening w; pendingTimeouts := pendingTimeouts w;
     pendingRequests := pendingRequests w; effects := effects w ++ es |}.

Definition withReentering (b : bool) (s : State) : State :=
  {| violations := violations s; violationLog := violationLog s;
     isActive := isActive s; lastViolationTime := lastViolationTime s;
     isReentering := b; isSubmitting := isSubmitting s |}.

Definition _showWarning (ty : ViolationType) (count max : Z) (w : World) : World :=
  if negb (enableWarnings (config w)) then w
  else
    let remaining := max - count in
    emit [Alert (if max <=? count then Terminated ty
                 else Warning ty count remaining)] w.

Definition _enforceFullscreen (w : World) : World :=
  if isReentering (state w) || isSubmitting (state w) then w
  else
    let w1 := withState (withReentering true (state w)) w in
    {| config := config w1; state := state w1; callbacks := callbacks w1;
       listening := listening w1;
       pendingTimeouts := S (pendingTimeouts w1);
       pendingRequests := pendingRequests w1;
       effects := effects w1 ++ [SetTimeout 200] |}.

(** The function given to [setTimeout] by [_enforceFullscreen]. *)
Definition reentryTimeout (w : World) : World :=
  if isActive (state w) && negb (isSubmitting (state w)) then
    match containerElement (config w) with
    | WithRequestFullscreen =>
        {| config := config w; state := state w; callbacks := callbacks w;
           listening := listening w; pendingTimeouts := pendingTimeouts w;
           pendingRequests := S (pendingRequests w);
           effects := effects w ++ [RequestFullscreen] |}
    | WithoutRequestFullscreen => withState (withReentering false (state w)) w
    end
  else withState (withReentering false (state w)) w.

(** The [then] and the [catch] attached to the re-entry request. *)
Definition requestSettled (ok : bool) (w : World) : World :=
  withState (withReentering false (state w)) w.

(** [_callbacks.onAutoSubmit.forEach(cb => { try { cb() } catch ... })]. *)
Fixpoint notifyAutoSubmit (cbs : list AutoSubmitCallback) (idx : nat) : list Effect :=
  match cbs with
  | [] => []
  | cb :: rest =>
      CallAutoSubmit idx ::
      match cb with
      | Returned => notifyAutoSubmit rest (S idx)
      | Threw err => ConsoleError err :: notifyAutoSubmit rest (S idx)
      end
  end.

Definition _triggerAutoSubmit (w : World) : World :=
  let s := state w in
  if negb (isActive s) || isSubmitting s then w
  else
    let s1 := {| violations := violations s; violationLog := violationLog s;
                 isActive := false; lastViolationTime := lastViolationTime s;
                 isReentering := isReentering s; isSubmitting := true |} in
    emit (notifyAutoSubmit (onAutoSubmit (callbacks w)) 0) (withState s1 w).

(** [_callbacks.onViolation.forEach(cb => cb(entry, count, max))]: no
    [try] here, so the first subscriber that throws ends the loop. *)
Fixpoint notifyViolation (cbs : list ViolationCallback) (idx : nat)
    (entry : ViolationEntry) (count max : Z) : list Effect * Completion :=
  match cbs with
  | [] => ([], Returned)
  | cb :: rest =>
      match cb entry count max with
      | Returned =>
          let '(es, c) := notifyViolation rest (S idx) entry count max in
          (CallViolation idx entry count max :: es, c)
      | Threw err => ([CallViolation idx entry count max], Threw err)
      end
  end.

(** The call reads the clock twice: [now] is what [Date.now()] returns
    for the debounce test, [stamp] what [new Date()] returns afterwards
    for the entry. *)
Definition _logViolation (ty : ViolationType) (now stamp : Z) (w : World)
    : World * Completion :=
  let s := state w in
  if negb (isActive s) || isSubmitting s then (w, Returned)
  else if isReentering s && isFullscreenExit ty then (w, Returned)
  else if now - lastViolationTime s <? 1000 then (w, Returned)
  else
    let count := violations s + 1 in
    let violationEntry := {| type := ty; timestamp := stamp |} in
    let s1 := {| violations := count;
                 violationLog := violationLog s ++ [violationEntry];
                 isActive := isActive s; lastViolationTime := now;
                 isReentering := isReentering s;
                 isSubmitting := isSubmitting s |} in
    let max := violationThreshold (config w) in
    let thresholdExceeded := max <=? count in
    let w2 := _showWarning ty count max (withState s1 w) in
    let '(es, c) := notifyViolation (onViolation (callbacks w2)) 0
                      violationEntry count max in
    let w3 := emit es w2 in
    match c with
    | Threw err => (w3, Threw err)
    | Returned =>
        let w4 := if isFullscreenExit ty && negb thresholdExceeded
                  then _enforceFullscreen w3 else w3 in
        let w5 := if autoSubmitOnViolation (config w4) && thresholdExceeded
                  then _triggerAutoSubmit w4 else w4 in
        (w5, Returned)
    end.

(** The three listeners installed by [_initListeners]. *)
Definition visibilityChange (hidden : bool) (now stamp : Z) (w : World)
    : World * Completion :=
  if hidden && negb (isSubmitting (state w))
  then _logViolation tab_switch now stamp w
  else (w, Returned).

Definition blur (hidden : bool) (now stamp : Z) (w : World)
    : World * Completion :=
  if negb hidden && negb (isSubmitting (state w))
  then _logViolation window_blur now stamp w
  else (w, Returned).

Definition fullscreenChange (isInFullscreen : bool) (now stamp : Z) (w : World)
    : World * Completion :=
  let s := state w in
  if negb isInFullscreen && isActive s && negb (isReentering s)
     && negb (isSubmitting s)
  then _logViolation fullscreen_exit now stamp w
  else if isInFullscreen && isReentering s
  then (withState (withReentering false s) w, Returned)
  else (w, Returned).

(** Public API. *)
Definition destroy (w : World) : World :=
  let s := state w in
  {| config := config w;
     state := {| violations := violations s; violationLog := violationLog s;
                 isActive := false; lastViolationTime := lastViolationTime s;
                 isReentering := isReentering s;
                 isSubmitting := isSubmitting s |};
     callbacks := {| onViolation := []; onAutoSubmit := [] |};
     listening := false;
     pendingTimeouts := pendingTimeouts w;
     pendingRequests := pendingRequests w;
     effects := effects w |}.

Definition mergeConfig (c : Config) (p : ConfigPatch) : Config :=
  {| containerElement := default (containerElement c) (containerElement' p);
     autoSubmitOnViolation :=
       default (autoSubmitOnViolation c) (autoSubmitOnViolation' p);
     violationThreshold := default (violationThreshold c) (violationThreshold' p);
     enableWarnings := default (enableWarnings c) (enableWarnings' p);
     strictMode := default (strictMode c) (strictMode' p) |}.

Definition init (p : ConfigPatch) (w : World) : World :=
  let w1 := destroy w in
  {| config := mergeConfig (config w) p;
     state := {| violations := 0; violationLog := []; isActive := true;
                 lastViolationTime := 0; isReentering := false;
                 isSubmitting := false |};
     callbacks := callbacks w1;
     listening := true;
     pendingTimeouts := pendingTimeouts w1;
     pendingRequests := pendingRequests w1;
     effects := effects w1 |}.

(** [{ count, log }], the log being a copy. *)
Definition getViolations (w : World) : Z * list ViolationEntry :=
  (violations (state w), violationLog (state w)).

Definition registerViolation (cb : ViolationCallback) (w : World) : World :=
  {| config := config w; state := state w;
     callbacks := {| onViolation := onViolation (callbacks w) ++ [cb];
                     onAutoSubmit := onAutoSubmit (callbacks w) |};
     listening := listening w; pendingTimeouts := pendingTimeouts w;
     pendingRequests := pendingRequests w; effects := effects w |}.

Definition registerAutoSubmit (cb : AutoSubmitCallback) (w : World) : World :=
  {| config := config w; state := state w;
     callbacks := {| onViolation := onViolation (callbacks w);
                     onAutoSubmit := onAutoSubmit (callbacks w) ++ [cb] |};
     listening := listening w; pendingTimeouts := pendingTimeouts w;
     pendingRequests := pendingRequests w; effects := effects w |}.

Definition setStrictMode (isStrict : bool) (w : World) : World :=
  {| config := {| containerElement := containerElement (config w);
                  autoSubmitOnViolation := autoSubmitOnViolation (config w);
                  violationThreshold := violationThreshold (config w);
                  enableWarnings := enableWarnings (config w);
                  strictMode := isStrict |};
     state := state w; callbacks := callbacks w;
     listening := listening w; pendingTimeouts := pendingTimeouts w;
     pendingRequests := pendingRequests w; effects := effects w |}.

Definition triggerViolation (ty : ViolationType) (now stamp : Z) (w : World)
    : World * Completion :=
  _logViolation ty now stamp w.

(** [requestFullscreen()]: the container is asked for fullscreen whatever
    the state of the module.  The [catch] attached to the request only
    writes to the console, which is left out as for the re-entry request. *)
Definition requestFullscreen (w : World) : World :=
  match containerElement (config w) with
  | WithRequestFullscreen => emit [RequestFullscreen] w
  | WithoutRequestFullscreen => w
  end.

(** What can happen to a module between [init] and the next [init]: the
    browser delivers one of the three raw signals (only while the
    listeners are installed), a pending timer or request finishes, or the
    page calls the public API.  [now] is the value [Date.now()] returns
    during the handler and [stamp] the value of [new Date()] read after
    it. *)
Inductive Event :=
| VisibilityChange (hidden : bool) (now stamp : Z)
| Blur (hidden : bool) (now stamp : Z)
| FullscreenChange (isInFullscreen : bool) (now stamp : Z)
| TriggerViolation (ty : ViolationType) (now stamp : Z)
| ReentryTimeout
| RequestSettled (ok : bool)
| OnViolation (cb : ViolationCallback)
| OnAutoSubmit (cb : AutoSubmitCallback)
| SetStrictMode (isStrict : bool)
| Destroy
| RequestFullscreenCall.

(** An exception that leaves a listener is reported by the browser and
    the page goes on. *)
Definition settle (r : World * Completion) : World :=
  match r with
  | (w, Returned) => w
  | (w, Threw err) => emit [Uncaught err] w
  end.

Definition step (ev : Event) (w : World) : World :=
  match ev with
  | VisibilityChange hidden now stamp =>
      if listening w then settle (visibilityChange hidden now stamp w) else w
  | Blur hidden now stamp =>
      if listening w then settle (blur hidden now stamp w) else w
  | FullscreenChange isInFullscreen now stamp =>
      if listening w then settle (fullscreenChange isInFullscreen now stamp w)
      else w
  | TriggerViolation ty now stamp => settle (triggerViolation ty now stamp w)
  | ReentryTimeout =>
      match pendingTimeouts w with
      | O => w
      | S n =>
          reentryTimeout
            {| config := config w; state := state w; callbacks := callbacks w;
               listening := listening w; pendingTimeouts := n;
               pendingRequests := pendingRequests w; effects := effects w |}
      end
  | RequestSettled ok =>
      match pendingRequests w with
      | O => w
      | S n =>
          requestSettled ok
            {| config := config w; state := state w; callbacks := callbacks w;
               listening := listening w; pendingTimeouts := pendingTimeouts w;
               pendingRequests := n; effects := effects w |}
      end
  | OnViolation cb => registerViolation cb w
  | OnAutoSubmit cb => registerAutoSubmit cb w
  | SetStrictMode isStrict => setStrictMode isStrict w
  | Destroy => destroy w
  | RequestFullscreenCall => requestFullscreen w
  end.

Definition run (evs : list Event) (w : World) : World :=
  fold_left (fun w ev => step ev w) evs w.

(** The raw signals and their arrival times, as [Date.now()] gives
    them, and the stamps read afterwards. *)
Definition signalTime (ev : Event) : option Z :=
  match ev with
  | VisibilityChange _ now _ | Blur _ now _ | FullscreenChange _ now _
  | TriggerViolation _ now _ => Some now
  | _ => None
  end.

Definition signalStamp (ev : Event) : option Z :=
  match ev with
  | VisibilityChange _ _ stamp | Blur _ _ stamp | FullscreenChange _ _ stamp
  | TriggerViolation _ _ stamp => Some stamp
  | _ => None
  end.

(** How often the [idx]-th auto-submit subscriber has been called. *)
Definition isAutoSubmitCall (idx : nat) (e : Effect) : bool :=
  match e with
  | CallAutoSubmit i => Nat.eqb i idx
  | _ => false
  end.

Definition autoSubmitCalls (idx : nat) (es : list Effect) : nat :=
  length (List.filter (isAutoSubmitCall idx) es).

Definition isViolationCall (idx : nat) (e : Effect) : bool :=
  match e with
  | CallViolation i _ _ _ => Nat.eqb i idx
  | _ => false
  end.

(** How often the [idx]-th violation subscriber has been called. *)
Definition violationCalls (idx : nat) (es : list Effect) : nat :=
  length (List.filter (isViolationCall idx) es).

Definition isRequest (e : Effect) : bool :=
  match e with
  | RequestFullscreen => true
  | _ => false
  end.

(** How many fullscreen requests the module has issued. *)
Definition reentryRequests (es : list Effect) : nat :=
  length (List.filter isRequest es).

End Integrity.

(** ** [IntegrityModule], revision 1.0.0

    The older revision kept in the same file: no warnings, no re-entry,
    no [isSubmitting] flag, a 500 ms debounce, and no [try] around either
    subscriber loop. *)

Module IntegrityV1.
Import JS.
Export Integrity (ViolationType, tab_switch, window_blur, fullscreen_exit,
  ViolationEntry, Config, Callbacks, Effect).

Record State := {
  violations : Z;
  violationLog : list ViolationEntry;
  isActive : bool;
  lastViolationTime : Z
}.

Record World := {
  config : Config;
  state : State;
  callbacks : Callbacks;
  listening : bool;
  effects : list Effect
}.

Definition withState (s : State) (w : World) : World :=
  {| config := config w; state := s; callbacks := callbacks w;
     listening := listening w; effects := effects w |}.

Definition emit (es : list Effect) (w : World) : World :=
  {| config := config w; state := state w; callbacks := callbacks w;
     listening := listening w; effects := effects w ++ es |}.

(** [_callbacks.onAutoSubmit.forEach(cb => cb())]. *)
Fixpoint notifyAutoSubmit (cbs : list Integrity.AutoSubmitCallback) (idx : nat)
    : list Effect * Completion :=
  match cbs with
  | [] => ([], Returned)
  | cb :: rest =>
      match cb with
      | Returned =>
          let '(es, c) := notifyAutoSubmit rest (S idx) in
          (Integrity.CallAutoSubmit idx :: es, c)
      | Threw err => ([Integrity.CallAutoSubmit idx], Threw err)
      end
  end.

Definition _triggerAutoSubmit (w : World) : World * Completion :=
  if negb (isActive (state w)) then (w, Returned)
  else
    let '(es, c) := notifyAutoSubmit (Integrity.onAutoSubmit (callbacks w)) 0 in
    let w1 := emit es w in
    match c with
    | Threw err => (w1, Threw err)
    | Returned =>
        let s := state w1 in
        (withState {| violations := violations s;
                      violationLog := violationLog s;
                      isActive := false;
                      lastViolationTime := lastViolationTime s |} w1,
         Returned)
    end.

Definition _logViolation (ty : ViolationType) (now stamp : Z) (w : World)
    : World * Completion :=
  let s := state w in
  if negb (isActive s) then (w, Returned)
  else if now - lastViolationTime s <? 500 then (w, Returned)
  else
    let count := violations s + 1 in
    let violationEntry := Integrity.Build_ViolationEntry ty stamp in
    let s1 := {| violations := count;
                 violationLog := violationLog s ++ [violationEntry];
                 isActive := isActive s; lastViolationTime := now |} in
    let max := Integrity.violationThreshold (config w) in
    let '(es, c) := Integrity.notifyViolation
                      (Integrity.onViolation (callbacks w)) 0
                      violationEntry count max in
    let w1 := emit es (withState s1 w) in
    match c with
    | Threw err => (w1, Threw err)
    | Returned =>
        if Integrity.autoSubmitOnViolation (config w1) && (max <=? count)
        then _triggerAutoSubmit w1 else (w1, Returned)
    end.

Definition visibilityChange (hidden : bool) (now stamp : Z) (w : World)
    : World * Completion :=
  if hidden then _logViolation tab_switch now stamp w else (w, Returned).

Definition blur (hidden : bool) (now stamp : Z) (w : World)
    : World * Completion :=
  if negb hidden then _logViolation window_blur now stamp w else (w, Returned).

(** Both branches of the strict-mode test log the violation. *)
Definition fullscreenChange (isInFullscreen : bool) (now stamp : Z) (w : World)
    : World * Completion :=
  if negb isInFullscreen then
    if Integrity.strictMode (config w)
    then _logViolation fullscreen_exit now stamp w
    else _logViolation fullscreen_exit now stamp w
  else (w, Returned).

Definition destroy (w : World) : World :=
  let s := state w in
  {| config := config w;
     state := {| violations := violations s; violationLog := violationLog s;
                 isActive := false; lastViolationTime := lastViolationTime s |};
     callbacks := Integrity.Build_Callbacks [] [];
     listening := false;
     effects := effects w |}.

Definition init (p : Integrity.ConfigPatch) (w : World) : World :=
  let w1 := destroy w in
  {| config := Integrity.mergeConfig (config w) p;
     state := {| violations := 0; violationLog := []; isActive := true;
                 lastViolationTime := 0 |};
     callbacks := callbacks w1;
     listening := true;
     effects := effects w1 |}.

Definition loaded : World :=
  {| config := Integrity.defaultConfig;
     state := {| violations := 0; violationLog := []; isActive := false;
                 lastViolationTime := 0 |};
     callbacks := Integrity.Build_Callbacks [] [];
     listening := false;
     effects := [] |}.

(** The raw signals of this revision. *)
Inductive Event :=
| VisibilityChange (hidden : bool) (now stamp : Z)
| Blur (hidden : bool) (now stamp : Z)
| FullscreenChange (isInFullscreen : bool) (now stamp : Z).

Definition settle (r : World * Completion) : World :=
  match r with
  | (w, Returned) => w
  | (w, Threw err) => emit [Integrity.Uncaught err] w
  end.

Definition step (ev : Event) (w : World) : World :=
  if negb (listening w) then w
  else match ev with
       | VisibilityChange hidden now stamp =>
           settle (visibilityChange hidden now stamp w)
       | Blur hidden now stamp => settle (blur hidden now stamp w)
       | FullscreenChange isInFullscreen now stamp =>
           settle (fullscreenChange isInFullscreen now stamp w)
       end.

Definition run (evs : list Event) (w : World) : World :=
  fold_left (fun w ev => step ev w) evs w.

Definition signalTime (ev : Event) : Z :=
  match ev with
  | VisibilityChange _ now _ | Blur _ now _ | FullscreenChange _ now _ => now
  end.

End IntegrityV1.

(** ** The exam and result documents *)

Inductive OptionKey := A | B | C | D.

Definition OptionKey_eqb (x y : OptionKey) : bool :=
  match x, y with
  | A, A | B, B | C, C | D, D => true
  | _, _ => false
  end.

(** The value of [state.answers[id] || null]: the option stored under
    the id, a member that the answers object inherits from
    [Object.prototype] under that name, or [null]. *)
Inductive Selected :=
| Chosen (o : OptionKey)
| Inherited (member : string)
| Null.

(** A [Date] object, as far as the scripts read it: the epoch time, the
    local year, the month (from 0) and the day of the month. *)
Record Clock := { epochMs : Z; fullYear : Z; month : Z; date : Z }.

Module Question.
Record t := {
  questionId : string;
  questionText : string;
  correctAnswer : OptionKey;
  marks : option Z
}.
End Question.

Module Metadata.
Record t := { title : string; subject : string; term : string; academicYear : string }.
End Metadata.

Module Settings.
Record t := {
  duration : option Z;
  passMark : option Z;
  autoSubmitOnViolation : option bool;
  violationThreshold : option Z;
  strictMode : option bool;
  webhookUrl : option string;
  showResults : bool
}.
End Settings.

Module Exam.
Record t := {
  examId : string;
  metadata : Metadata.t;
  settings : Settings.t;
  questions : list Question.t
}.
End Exam.

Module Student.
Record t := { name : string; seatNumber : string; class : string; subject : string }.
End Student.

Module Timing.
Record t := { startedAt : option Z; submittedAt : option Z; durationAllowed : Z }.
End Timing.

Module Result.
Record answer := {
  questionId : string;
  selectedOption : Selected;
  isCorrect : bool;
  marksAwarded : Z
}.
Record student := { fullName : string; registrationNumber : string; class : string }.
Record exam := {
  examId : string;
  title : string;
  subject : string;
  term : string;
  academicYear : string
}.
Record scoring := {
  totalQuestions : Z;
  attemptedQuestions : Z;
  correctAnswers : Z;
  wrongAnswers : Z;
  unansweredQuestions : Z;
  totalMarks : Z;
  obtainedMarks : Z;
  percentage : float;
  passed : bool
}.
Record timing := {
  startedAt : option Z;
  submittedAt : option Z;
  durationAllowed : Z;
  durationUsed : Z
}.
Record submission := { type : string; clientTimestamp : Z }.
Record integrity := {
  violations : Z;
  violationLog : list Integrity.ViolationEntry
}.
Record t := {
  submissionId : string;
  version : string;
  student_ : student;
  exam_ : exam;
  answers : list answer;
  scoring_ : scoring;
  timing_ : timing;
  submission_ : submission;
  integrity_ : integrity
}.
End Result.

(** ** [SheetsSubmitter] *)

Module Sheets.
Import JS.

Record Config := { webhookUrl : string; maxRetries : Z; retryDelay : Z }.

Definition defaultConfig : Config :=
  {| webhookUrl := ""; maxRetries := 3; retryDelay := 2000 |}.

Definition configure (url : option string) (retries : option Z) (c : Config)
    : Config :=
  {| webhookUrl := match url with
                   | Some u => if String.eqb u "" then webhookUrl c else u
                   | None => webhookUrl c
                   end;
     maxRetries := default (maxRetries c) retries;
     retryDelay := retryDelay c |}.

Definition chars : string := "ABCDEFGHIJKLMNOPQRSTUVWXYZ0123456789".

(** The loop [for (i = 0; i < 6; i++) randomPart += chars.charAt(...)];
    [random i] is the draw of iteration [i]. *)
Fixpoint randomChars (n i : nat) (random : nat -> Q) (randomPart : string)
    : string :=
  match n with
  | O => randomPart
  | S n' =>
      randomChars n' (S i) random
        (randomPart +:+
         charAt chars (floorScaled (random i) (Z.of_nat (String.length chars))))
  end.

Definition generateSubmissionId (now : Clock) (random : nat -> Q) : string :=
  let datePart :=
    toString (fullYear now) +:+ padStart2 (toString (month now + 1))
    +:+ padStart2 (toString (date now)) in
  let randomPart := randomChars 6 0 random "" in
  "SUB-" +:+ datePart +:+ "-" +:+ randomPart.

(** How one [fetch] ends: the promise is fulfilled (with [no-cors] the
    response cannot be read), or it is rejected with a value whose
    [message], if it has one, is given. *)
Inductive FetchOutcome :=
| Fulfilled
| Rejected (message : option string).

Record Response := {
  success : bool;
  submissionId : string;
  timestamp : Z;
  error : option string
}.

Inductive Effect :=
| Fetch (attempt : Z) (url body : string)
| ConsoleWarn (attempt : Z)
| Delay (ms : Z).

Section Submit.

(** [JSON.stringify] on a result document. *)
Variable stringify : Result.t -> string.

(** The retry loop, [n] iterations from [attempt] on; [fetch a] is how
    the request of attempt [a] ends.  [inl] is the early [return] of a
    fulfilled request, [inr] the value of [lastError] when the loop ends. *)
Fixpoint attempts (n : nat) (attempt : Z) (c : Config) (resultData : Result.t)
    (fetch : Z -> FetchOutcome) (lastError : option (option string))
    : list Effect * (unit + option (option string)) :=
  match n with
  | O => ([], inr lastError)
  | S n' =>
      let call := Fetch attempt (webhookUrl c) (stringify resultData) in
      match fetch attempt with
      | Fulfilled => ([call], inl tt)
      | Rejected message =>
          let wait := if attempt <? maxRetries c then [Delay (retryDelay c)]
                      else [] in
          let '(es, r) := attempts n' (attempt + 1) c resultData fetch
                            (Some message) in
          (call :: ConsoleWarn attempt :: wait ++ es, r)
      end
  end.

(** [lastError?.message || 'Unknown error']. *)
Definition errorMessage (lastError : option (option string)) : string :=
  match lastError with
  | Some (Some m) => if String.eqb m "" then "Unknown error" else m
  | _ => "Unknown error"
  end.

(** [submit]: the value the returned promise resolves with, and what the
    function did; [now] is the clock when the response object is built. *)
Definition submit (c : Config) (resultData : Result.t)
    (fetch : Z -> FetchOutcome) (now : Z) : list Effect * Response :=
  if String.eqb (webhookUrl c) "" then
    ([], {| success := false;
            submissionId := Result.submissionId resultData;
            timestamp := now;
            error := Some "Webhook URL not configured. Results saved locally only." |})
  else
    match attempts (Z.to_nat (maxRetries c)) 1 c resultData fetch None with
    | (es, inl _) =>
        (es, {| success := true;
                submissionId := Result.submissionId resultData;
                timestamp := now;
                error := None |})
    | (es, inr lastError) =>
        (es, {| success := false;
                submissionId := Result.submissionId resultData;
                timestamp := now;
                error := Some ("Network error after " +:+ toString (maxRetries c)
                               +:+ " attempts: " +:+ errorMessage lastError) |})
    end.

End Submit.

End Sheets.

(** ** [script.js]: the session, scoring and submission *)

Module Script.
Import JS.

(** [state]; [answers] holds the own properties of the plain object
    [state.answers]. *)
Record State := {
  student : Student.t;
  exam : option Exam.t;
  currentQIndex : Z;
  answers : gmap string OptionKey;
  timeLeft : Z;
  timerId : option Z;
  isSubmitted : bool;
  timing : Timing.t
}.

Definition STORAGE_KEY : string := "school_cbt_active_session".

(** The part of the page the modelled functions write to.  [resumeDom]
    says whether the three elements of the resume alert exist;
    [resumeClick] is the payload the resume button would hand to
    [resumeExam], if a handler is installed. *)
Record Dom := {
  modalHidden : bool;
  loginActive : bool;
  examActive : bool;
  resultActive : bool;
  resName : string;
  resSubject : string;
  resTotal : Z;
  resScore : string;
  resumeDom : bool;
  resumeAlertHidden : bool;
  resumeClick : option Json
}.

(** [BuildResult] marks the evaluation of the object literal that builds
    [resultObject]; [SheetsSubmit] is the call of [SheetsSubmitter.submit];
    [Network] is what that call does once it runs. *)
Inductive Effect :=
| BuildResult (resultObject : Result.t)
| SheetsSubmit (resultObject : Result.t)
| Network (e : Sheets.Effect).

(** [state], [localStorage], the two optional modules ([None] when
    [typeof] gives ['undefined']), whether the interval of [timerId] is
    running, the page, the promises of [SheetsSubmitter.submit] that have
    not settled, and what was done so far. *)
Record World := {
  state : State;
  localStorage : gmap string string;
  integrity : option Integrity.World;
  sheets : option Sheets.Config;
  ticking : bool;
  dom : Dom;
  inFlight : list Result.t;
  effects : list Effect
}.

Definition clearActiveState (storage : gmap string string) : gmap string string :=
  delete STORAGE_KEY storage.

(** The counters updated inside [questions.map]. *)
Record Tally := {
  score : Z;
  totalObtainable : Z;
  correctCount : Z;
  wrongCount : Z;
  unansweredCount : Z
}.

Definition noTally : Tally :=
  {| score := 0; totalObtainable := 0; correctCount := 0; wrongCount := 0;
     unansweredCount := 0 |}.

(** [q.marks || 1]. *)
Definition marksOf (q : Question.t) : Z := orDefault (Question.marks q) 1.

(** [state.answers[id] || null] on the plain object [state.answers]: an
    own property wins; otherwise a name of [Object.prototype] gives the
    inherited member, which is truthy; otherwise the read is [undefined]
    and the value [null]. *)
Definition selectedFor (answers : gmap string OptionKey) (id : string)
    : Selected :=
  match answers !! id with
  | Some o => Chosen o
  | None => if inherits id then Inherited id else Null
  end.

(** [selected === q.correctAnswer]: only a stored option can be the
    correct one. *)
Definition isCorrectFor (selected : Selected) (q : Question.t) : bool :=
  match selected with
  | Chosen o => OptionKey_eqb o (Question.correctAnswer q)
  | _ => false
  end.

(** The body of the function given to [questions.map]. *)
Definition grade (answers : gmap string OptionKey) (q : Question.t) (t : Tally)
    : Tally * Result.answer :=
  let selected := selectedFor answers (Question.questionId q) in
  let marks := marksOf q in
  let total := totalObtainable t + marks in
  let isCorrect := isCorrectFor selected q in
  let marksAwarded := if isCorrect then marks else 0 in
  let t' :=
    match selected with
    | Null =>
        {| score := score t; totalObtainable := total;
           correctCount := correctCount t; wrongCount := wrongCount t;
           unansweredCount := unansweredCount t + 1 |}
    | _ =>
        if isCorrect then
          {| score := score t + marks; totalObtainable := total;
             correctCount := correctCount t + 1; wrongCount := wrongCount t;
             unansweredCount := unansweredCount t |}
        else
          {| score := score t; totalObtainable := total;
             correctCount := correctCount t; wrongCount := wrongCount t + 1;
             unansweredCount := unansweredCount t |}
    end in
  (t', {| Result.questionId := Question.questionId q;
          Result.selectedOption := selected;
          Result.isCorrect := isCorrect;
          Result.marksAwarded := marksAwarded |}).

Fixpoint gradeAll (answers : gmap string OptionKey) (qs : list Question.t)
    (t : Tally) : Tally * list Result.answer :=
  match qs with
  | [] => (t, [])
  | q :: rest =>
      let '(t1, a) := grade answers q t in
      let '(t2, others) := gradeAll answers rest t1 in
      (t2, a :: others)
  end.

(** [totalObtainable > 0 ? Math.round((score / totalObtainable) * 10000) / 100 : 0]. *)
Definition percentageOf (score totalObtainable : Z) : float :=
  if 0 <? totalObtainable then
    PrimFloat.div
      (Math_round
         (PrimFloat.mul (PrimFloat.div (Z2float score) (Z2float totalObtainable))
            10000%float))
      100%float
  else 0%float.

(** [percentage >= passMark], with [passMark = settings.passMark || 50]. *)
Definition passedWith (percentage : float) (settings : Settings.t) : bool :=
  PrimFloat.leb (Z2float (orDefault (Settings.passMark settings) 50)) percentage.

(** The scoring part of [submitExam]: the answers array and the
    [scoring] section of the result. *)
Definition computeScoring (e : Exam.t) (answers : gmap string OptionKey)
    : list Result.answer * Result.scoring :=
  let '(t, answersArray) := gradeAll answers (Exam.questions e) noTally in
  let percentage := percentageOf (score t) (totalObtainable t) in
  let n := Z.of_nat (length (Exam.questions e)) in
  (answersArray,
   {| Result.totalQuestions := n;
      Result.attemptedQuestions := n - unansweredCount t;
      Result.correctAnswers := correctCount t;
      Result.wrongAnswers := wrongCount t;
      Result.unansweredQuestions := unansweredCount t;
      Result.totalMarks := totalObtainable t;
      Result.obtainedMarks := score t;
      Result.percentage := percentage;
      Result.passed := passedWith percentage (Exam.settings e) |}).

Definition finalSubmissionType (isAuto : bool) (submissionType : string) : string :=
  if isAuto && String.eqb submissionType "manual" then "auto-timeout"
  else submissionType.

(** [submitExam(isAuto, submissionType)].  [now] is the clock during the
    call and [random] the draws used for the submission id.  With no exam
    loaded, reading [state.exam.questions] throws. *)
Definition submitExam (now : Clock) (random : nat -> Q) (isAuto : bool)
    (submissionType : string) (w : World) : World * Completion :=
  let s := state w in
  if isSubmitted s then (w, Returned)
  else
    let timing1 :=
      {| Timing.startedAt := Timing.startedAt (timing s);
         Timing.submittedAt := Some (epochMs now);
         Timing.durationAllowed := Timing.durationAllowed (timing s) |} in
    let s1 :=
      {| student := student s; exam := exam s; currentQIndex := currentQIndex s;
         answers := answers s; timeLeft := timeLeft s; timerId := timerId s;
         isSubmitted := true; timing := timing1 |} in
    let storage1 := clearActiveState (localStorage w) in
    let d := dom w in
    let dom1 :=
      {| modalHidden := true; loginActive := loginActive d;
         examActive := examActive d; resultActive := resultActive d;
         resName := resName d; resSubject := resSubject d;
         resTotal := resTotal d; resScore := resScore d;
         resumeDom := resumeDom d; resumeAlertHidden := resumeAlertHidden d;
         resumeClick := resumeClick d |} in
    match exam s with
    | None =>
        ({| state := s1; localStorage := storage1; integrity := integrity w;
            sheets := sheets w; ticking := false; dom := dom1;
            inFlight := inFlight w; effects := effects w |},
         Threw "TypeError: state.exam is null")
    | Some e =>
        let '(answersArray, scoring) := computeScoring e (answers s) in
        let durationUsed :=
          ceilDiv (Timing.durationAllowed timing1 * 60 - timeLeft s) 60 in
        let integrityData :=
          match integrity w with
          | Some m =>
              let '(count, log) := Integrity.getViolations m in
              {| Result.violations := count; Result.violationLog := log |}
          | None => {| Result.violations := 0; Result.violationLog := [] |}
          end in
        let integrity1 := Integrity.destroy <$> integrity w in
        let resultObject :=
          {| Result.submissionId :=
               match sheets w with
               | Some _ => Sheets.generateSubmissionId now random
               | None => "SUB-" +:+ toString (epochMs now)
               end;
             Result.version := "1.0.0";
             Result.student_ :=
               {| Result.fullName := Student.name (student s);
                  Result.registrationNumber := Student.seatNumber (student s);
                  Result.class := Student.class (student s) |};
             Result.exam_ :=
               {| Result.examId := Exam.examId e;
                  Result.title := Metadata.title (Exam.metadata e);
                  Result.subject := Metadata.subject (Exam.metadata e);
                  Result.term := Metadata.term (Exam.metadata e);
                  Result.academicYear := Metadata.academicYear (Exam.metadata e) |};
             Result.answers := answersArray;
             Result.scoring_ := scoring;
             Result.timing_ :=
               {| Result.startedAt := Timing.startedAt timing1;
                  Result.submittedAt := Timing.submittedAt timing1;
                  Result.durationAllowed := Timing.durationAllowed timing1;
                  Result.durationUsed := durationUsed |};
             Result.submission_ :=
               {| Result.type := finalSubmissionType isAuto submissionType;
                  Result.clientTimestamp := epochMs now |};
             Result.integrity_ := integrityData |} in
        let sent :=
          match sheets w with
          | Some _ => [SheetsSubmit resultObject]
          | None => []
          end in
        let dom2 :=
          {| modalHidden := true; loginActive := loginActive d;
             examActive := false; resultActive := true;
             resName := Student.name (student s);
             resSubject := Student.subject (student s);
             resTotal := Z.of_nat (length (Exam.questions e));
             resScore :=
               if Settings.showResults (Exam.settings e)
               then toString (Result.obtainedMarks scoring) +:+ " / "
                    +:+ toString (Result.totalMarks scoring)
               else "Submitted (Hidden)";
             resumeDom := resumeDom d; resumeAlertHidden := resumeAlertHidden d;
             resumeClick := resumeClick d |} in
        ({| state := s1; localStorage := storage1; integrity := integrity1;
            sheets := sheets w; ticking := false; dom := dom2;
            inFlight := inFlight w ++ match sheets w with
                                      | Some _ => [resultObject]
                                      | None => []
                                      end;
            effects := effects w ++ BuildResult resultObject :: sent |},
         Returned)
    end.

Section Platform.

(** [JSON.stringify] on a result document, and [JSON.parse] ([None] when
    it throws a [SyntaxError]). *)
Variable stringify : Result.t -> string.
Variable parse : string -> option Json.

(** The [then] handler attached to [SheetsSubmitter.submit(resultObject)]. *)
Definition onSubmitResolved (resultObject : Result.t)
    (response : Sheets.Response) (w : World) : World :=
  if negb (Sheets.success response) then
    {| state := state w;
       localStorage :=
         <["exam_result_" +:+ Result.submissionId resultObject
             := stringify resultObject]> (localStorage w);
       integrity := integrity w; sheets := sheets w; ticking := ticking w;
       dom := dom w; inFlight := inFlight w; effects := effects w |}
  else w.

(** The oldest pending [SheetsSubmitter.submit] runs to its end: [fetch]
    tells how each request ends and [now] is the clock at the end. *)
Definition submissionSettles (fetch : Z -> Sheets.FetchOutcome) (now : Z)
    (w : World) : World :=
  match inFlight w, sheets w with
  | resultObject :: rest, Some c =>
      let '(es, response) := Sheets.submit stringify c resultObject fetch now in
      onSubmitResolved resultObject response
        {| state := state w; localStorage := localStorage w;
           integrity := integrity w; sheets := sheets w; ticking := ticking w;
           dom := dom w; inFlight := rest;
           effects := effects w ++ (Network <$> es) |}
  | _, _ => w
  end.

(** The validity test of [initResumeDetection], conjunct by conjunct. *)
Definition isValidSession (parsed : Json) : bool :=
  if negb (truthy (Some parsed)) then false
  else if negb (truthy (getProp parsed "exam")) then false
  else if negb (truthy (getProp parsed "exam" ≫= fun ex => getProp ex "examId"))
  then false
  else if negb (truthy (getProp parsed "student")) then false
  else match getProp parsed "student" ≫= fun st => getProp st "name" with
       | Some (JStr n) => (0 <? String.length (trim n))%nat
       | _ => false
       end.

Definition withStorage (storage : gmap string string) (w : World) : World :=
  {| state := state w; localStorage := storage; integrity := integrity w;
     sheets := sheets w; ticking := ticking w; dom := dom w;
     inFlight := inFlight w; effects := effects w |}.

(** [initResumeDetection]: an absent or empty stored string is left
    alone; a valid snapshot is offered for resumption when the alert's
    elements exist; anything else is removed from the storage. *)
Definition initResumeDetection (w : World) : World :=
  match localStorage w !! STORAGE_KEY with
  | None => w
  | Some saved =>
      if String.eqb saved "" then w
      else
        match parse saved with
        | None => withStorage (clearActiveState (localStorage w)) w
        | Some parsed =>
            if isValidSession parsed then
              if resumeDom (dom w) then
                let d := dom w in
                {| state := state w; localStorage := localStorage w;
                   integrity := integrity w; sheets := sheets w;
                   ticking := ticking w;
                   dom :=
                     {| modalHidden := modalHidden d;
                        loginActive := loginActive d;
                        examActive := examActive d;
                        resultActive := resultActive d;
                        resName := resName d; resSubject := resSubject d;
                        resTotal := resTotal d; resScore := resScore d;
                        resumeDom := resumeDom d;
                        resumeAlertHidden := false;
                        resumeClick := Some parsed |};
                   inFlight := inFlight w; effects := effects w |}
              else w
            else withStorage (clearActiveState (localStorage w)) w
        end
  end.

End Platform.

(** How many result documents were built, and how many handed to
    [SheetsSubmitter.submit]. *)
Definition isBuild (e : Effect) : bool :=
  match e with BuildResult _ => true | _ => false end.

Definition isSheetsSubmit (e : Effect) : bool :=
  match e with SheetsSubmit _ => true | _ => false end.

Definition resultsBuilt (w : World) : nat :=
  length (List.filter isBuild (effects w)).

Definition sinkCalls (w : World) : nat :=
  length (List.filter isSheetsSubmit (effects w)).

End Script.

(** ** [script.js]: starting, persisting, navigating and timing a session

    The functions below write the session state, the storage, the timer
    and the two screens' activity; what they draw (header, palette,
    question view, counters) is not part of [Script.Dom] and is left out. *)

Module Snapshot.
(** [dataToSave], the object written by [saveActiveState]. *)
Record t := {
  student : Student.t;
  exam : Exam.t;
  currentQIndex : Z;
  answers : gmap string OptionKey;
  timeLeft : Z;
  timing : Timing.t
}.
End Snapshot.

Module Session.
Import JS Script.

(** [x || false] on a flag that may be unset. *)
Definition orFalse (x : option bool) : bool :=
  match x with
  | Some b => b
  | None => false
  end.

Definition withState (s : State) (w : World) : World :=
  {| state := s; localStorage := localStorage w; integrity := integrity w;
     sheets := sheets w; ticking := ticking w; dom := dom w;
     inFlight := inFlight w; effects := effects w |}.

Definition withTicking (b : bool) (w : World) : World :=
  {| state := state w; localStorage := localStorage w; integrity := integrity w;
     sheets := sheets w; ticking := b; dom := dom w;
     inFlight := inFlight w; effects := effects w |}.

Definition withIntegrity (m : option Integrity.World) (w : World) : World :=
  {| state := state w; localStorage := localStorage w; integrity := m;
     sheets := sheets w; ticking := ticking w; dom := dom w;
     inFlight := inFlight w; effects := effects w |}.

Definition withModal (hidden : bool) (w : World) : World :=
  let d := dom w in
  {| state := state w; localStorage := localStorage w; integrity := integrity w;
     sheets := sheets w; ticking := ticking w;
     dom := {| modalHidden := hidden; loginActive := loginActive d;
               examActive := examActive d; resultActive := resultActive d;
               resName := resName d; resSubject := resSubject d;
               resTotal := resTotal d; resScore := resScore d;
               resumeDom := resumeDom d;
               resumeAlertHidden := resumeAlertHidden d;
               resumeClick := resumeClick d |};
     inFlight := inFlight w; effects := effects w |}.

(** The login screen gives way to the exam screen. *)
Definition showExamScreen (w : World) : World :=
  let d := dom w in
  {| state := state w; localStorage := localStorage w; integrity := integrity w;
     sheets := sheets w; ticking := ticking w;
     dom := {| modalHidden := modalHidden d; loginActive := false;
               examActive := true; resultActive := resultActive d;
               resName := resName d; resSubject := resSubject d;
               resTotal := resTotal d; resScore := resScore d;
               resumeDom := resumeDom d;
               resumeAlertHidden := resumeAlertHidden d;
               resumeClick := resumeClick d |};
     inFlight := inFlight w; effects := effects w |}.

Definition withTimeLeft (t : Z) (s : State) : State :=
  {| student := student s; exam := exam s; currentQIndex := currentQIndex s;
     answers := answers s; timeLeft := t; timerId := timerId s;
     isSubmitted := isSubmitted s; timing := timing s |}.

Definition withCurrentQIndex (i : Z) (s : State) : State :=
  {| student := student s; exam := exam s; currentQIndex := i;
     answers := answers s; timeLeft := timeLeft s; timerId := timerId s;
     isSubmitted := isSubmitted s; timing := timing s |}.

Definition withAnswers (a : gmap string OptionKey) (s : State) : State :=
  {| student := student s; exam := exam s; currentQIndex := currentQIndex s;
     answers := a; timeLeft := timeLeft s; timerId := timerId s;
     isSubmitted := isSubmitted s; timing := timing s |}.

Definition withTimerId (id : Z) (s : State) : State :=
  {| student := student s; exam := exam s; currentQIndex := currentQIndex s;
     answers := answers s; timeLeft := timeLeft s; timerId := Some id;
     isSubmitted := isSubmitted s; timing := timing s |}.

(** The object literal of [saveActiveState], for a state whose exam is [e]. *)
Definition dataToSave (s : State) (e : Exam.t) : Snapshot.t :=
  {| Snapshot.student := student s; Snapshot.exam := e;
     Snapshot.currentQIndex := currentQIndex s;
     Snapshot.answers := answers s; Snapshot.timeLeft := timeLeft s;
     Snapshot.timing := timing s |}.

(** [total - answered] of [updateStats] and [promptSubmit], where
    [answered] is the number of keys of [state.answers]. *)
Definition unansweredShown (s : State) (e : Exam.t) : Z :=
  Z.of_nat (length (Exam.questions e)) - Z.of_nat (size (answers s)).

(** The configuration handed to [IntegrityModule.init] by [startExam] and
    [resumeExam]. *)
Definition integrityPatch (settings : Settings.t) : Integrity.ConfigPatch :=
  {| Integrity.containerElement' := None;
     Integrity.autoSubmitOnViolation' :=
       Some (orFalse (Settings.autoSubmitOnViolation settings));
     Integrity.violationThreshold' :=
       Some (orDefault (Settings.violationThreshold settings) 3);
     Integrity.enableWarnings' := None;
     Integrity.strictMode' := Some (orFalse (Settings.strictMode settings)) |}.

(** The subscriber [() => submitExam(true, 'auto-violation')] as the
    module sees it: a function that returns.  What it does to the session
    is in [signal] below. *)
Definition autoSubmitSubscriber : Integrity.AutoSubmitCallback := Returned.

(** [IntegrityModule.init({...}); IntegrityModule.onAutoSubmit(...)]. *)
Definition armIntegrity (settings : Settings.t) (w : World) : World :=
  withIntegrity
    ((fun m => Integrity.registerAutoSubmit autoSubmitSubscriber
                 (Integrity.init (integrityPatch settings) m))
     <$> integrity w) w.

(** [state.timerId = setInterval(..., 1000)]; [handle] is the id the
    platform gives the interval. *)
Definition startTimer (handle : Z) (w : World) : World :=
  withTicking true (withState (withTimerId handle (state w)) w).

(** The text [updateTimerDisplay] writes into the timer: minutes and
    seconds of [state.timeLeft], each padded to two characters. *)
Definition timerText (timeLeft : Z) : string :=
  padStart2 (toString (timeLeft / 60)) +:+ ":"
  +:+ padStart2 (toString (Z.rem timeLeft 60)).

(** The result documents built so far, oldest first. *)
Definition builtResults (w : World) : list Result.t :=
  omap (fun e => match e with
                 | BuildResult resultObject => Some resultObject
                 | _ => None
                 end) (effects w).

Section Persistence.

(** [JSON.stringify] on a snapshot and on a result. *)
Variable stringify : Snapshot.t -> string.
Variable stringifyResult : Result.t -> string.

Definition saveActiveState (w : World) : World :=
  match exam (state w) with
  | None => w
  | Some e =>
      if isSubmitted (state w) then w
      else withStorage
             (<[STORAGE_KEY := stringify (dataToSave (state w) e)]>
                (localStorage w)) w
  end.

(** [loadQuestion(index)]: an index outside the exam is ignored; reading
    the number of questions throws when no exam is loaded. *)
Definition loadQuestion (index : Z) (w : World) : World * Completion :=
  if index <? 0 then (w, Returned)
  else
    match exam (state w) with
    | None => (w, Threw "TypeError: state.exam is null")
    | Some e =>
        if Z.of_nat (length (Exam.questions e)) <=? index then (w, Returned)
        else (saveActiveState (withState (withCurrentQIndex index (state w)) w),
              Returned)
    end.

(** [selectOption(qId, optKey)]; the answer is stored by the assignment
    [state.answers[qId] = optKey]. *)
Definition selectOption (qId : string) (optKey : OptionKey) (w : World)
    : World * Completion :=
  if isSubmitted (state w) then (w, Returned)
  else
    let w1 := withState (withAnswers (objectSet qId optKey (answers (state w)))
                           (state w)) w in
    match exam (state w1) with
    | None => (w1, Threw "TypeError: state.exam is null")
    | Some _ =>
        match loadQuestion (currentQIndex (state w1)) w1 with
        | (w2, Threw err) => (w2, Threw err)
        | (w2, Returned) => (saveActiveState w2, Returned)
        end
    end.

(** [promptSubmit]: the counts are read from the exam, then the modal is
    shown. *)
Definition promptSubmit (w : World) : World * Completion :=
  match exam (state w) with
  | None => (w, Threw "TypeError: state.exam is null")
  | Some _ => (withModal false w, Returned)
  end.

(** The function given to [setInterval] by [startTimer]; it runs only
    while the interval exists.  [timeLeft % 5] is the remainder with the
    sign of [timeLeft]. *)
Definition tick (now : Clock) (random : nat -> Q) (w : World)
    : World * Completion :=
  if negb (ticking w) then (w, Returned)
  else
    let w1 := withState (withTimeLeft (timeLeft (state w) - 1) (state w)) w in
    let w2 := if Z.rem (timeLeft (state w1)) 5 =? 0 then saveActiveState w1
              else w1 in
    if timeLeft (state w2) <=? 0
    then submitExam now random true "manual" (withTicking false w2)
    else (w2, Returned).

(** [startExam(examData)]; [now] is the clock of the call. *)
Definition startExam (examData : Exam.t) (handle : Z) (now : Clock) (w : World)
    : World * Completion :=
  let s := state w in
  let duration := orDefault (Settings.duration (Exam.settings examData)) 30 in
  let s1 :=
    {| student :=
         {| Student.name := Student.name (student s);
            Student.seatNumber := Student.seatNumber (student s);
            Student.class := Student.class (student s);
            Student.subject := Metadata.subject (Exam.metadata examData) |};
       exam := Some examData; currentQIndex := 0; answers := ∅;
       timeLeft := duration * 60; timerId := timerId s;
       isSubmitted := isSubmitted s;
       timing := {| Timing.startedAt := Some (epochMs now);
                    Timing.submittedAt := Timing.submittedAt (timing s);
                    Timing.durationAllowed := duration |} |} in
  let w1 := armIntegrity (Exam.settings examData) (withState s1 w) in
  let w2 :=
    match sheets w1, Settings.webhookUrl (Exam.settings examData) with
    | Some c, Some url =>
        if String.eqb url "" then w1
        else {| state := state w1; localStorage := localStorage w1;
                integrity := integrity w1;
                sheets := Some (Sheets.configure (Some url) None c);
                ticking := ticking w1; dom := dom w1;
                inFlight := inFlight w1; effects := effects w1 |}
    | _, _ => w1
    end in
  match loadQuestion 0 w2 with
  | (w3, Threw err) => (w3, Threw err)
  | (w3, Returned) =>
      (saveActiveState (showExamScreen (startTimer handle w3)), Returned)
  end.

(** [resumeExam(savedState)], on the snapshot the stored payload denotes.
    The submitter is not configured here. *)
Definition resumeExam (savedState : Snapshot.t) (handle : Z) (w : World)
    : World * Completion :=
  let s := state w in
  let s1 :=
    {| student := Snapshot.student savedState;
       exam := Some (Snapshot.exam savedState);
       currentQIndex := Snapshot.currentQIndex savedState;
       answers := Snapshot.answers savedState;
       timeLeft := Snapshot.timeLeft savedState; timerId := timerId s;
       isSubmitted := isSubmitted s;
       timing := Snapshot.timing savedState |} in
  match loadQuestion (currentQIndex s1) (withState s1 w) with
  | (w1, Threw err) => (w1, Threw err)
  | (w1, Returned) =>
      (showExamScreen
         (armIntegrity (Exam.settings (Snapshot.exam savedState))
            (startTimer handle w1)),
       Returned)
  end.

(** A step of the monitor inside the session.  The monitor runs first;
    when it has called the subscriber registered by [startExam] or
    [resumeExam] (the first one after [init]), the subscriber's body,
    [submitExam(true, 'auto-violation')], runs on the session, seeing the
    monitor as [_triggerAutoSubmit] left it; an exception of the body is
    caught and logged by the monitor's loop. *)
Definition signal (ev : Integrity.Event) (now : Clock) (random : nat -> Q)
    (w : World) : World * Completion :=
  match integrity w with
  | None => (w, Returned)
  | Some m =>
      let m' := Integrity.step ev m in
      let w1 := withIntegrity (Some m') w in
      if (Integrity.autoSubmitCalls 0 (Integrity.effects m)
          <? Integrity.autoSubmitCalls 0 (Integrity.effects m'))%nat
      then
        match submitExam now random true "auto-violation" w1 with
        | (w2, Returned) => (w2, Returned)
        | (w2, Threw err) =>
            (withIntegrity
               (Integrity.emit [Integrity.ConsoleError err] <$> integrity w2) w2,
             Returned)
        end
      else (w1, Returned)
  end.

(** What can happen to a session: a second passes, the student answers,
    navigates, opens or cancels the submit dialog or confirms it, the
    monitor sees an event, or a pending delivery ends. *)
Inductive Action :=
| Tick (now : Clock) (random : nat -> Q)
| Select (qId : string) (optKey : OptionKey)
| Load (index : Z)
| Prev
| Next
| Prompt
| Cancel
| Confirm (now : Clock) (random : nat -> Q)
| Signal (ev : Integrity.Event) (now : Clock) (random : nat -> Q)
| Settle (fetch : Z -> Sheets.FetchOutcome) (now : Z).

(** An exception that leaves a handler is reported by the browser; the
    state stays as the handler left it. *)
Definition act (a : Action) (w : World) : World :=
  match a with
  | Tick now random => (tick now random w).1
  | Select qId optKey => (selectOption qId optKey w).1
  | Load index => (loadQuestion index w).1
  | Prev => (loadQuestion (currentQIndex (state w) - 1) w).1
  | Next => (loadQuestion (currentQIndex (state w) + 1) w).1
  | Prompt => (promptSubmit w).1
  | Cancel => withModal true w
  | Confirm now random => (submitExam now random false "manual" w).1
  | Signal ev now random => (signal ev now random w).1
  | Settle fetch now => submissionSettles stringifyResult fetch now w
  end.

Definition acts (l : list Action) (w : World) : World :=
  fold_left (fun w a => act a w) l w.

End Persistence.

End Session.

(** ** Notions used to state the properties *)

Module Spec.
Import JS.

Definition sumZ (l : list Z) : Z := foldr Z.add 0 l.

(** The percentage as the specification words it:
    round(obtainedMarks / totalMarks x 10000) / 100. *)
Definition roundedPercentage (obtainedMarks totalMarks : Z) : float :=
  PrimFloat.div
    (Math_round
       (PrimFloat.mul (PrimFloat.div (Z2float obtainedMarks) (Z2float totalMarks))
          10000%float))
    100%float.

(** A question counts as unanswered when nothing is stored under its id
    and the id is not the name of a member of [Object.prototype]; with
    such a name and nothing stored, the inherited member stands in for
    the answer. *)
Definition unanswered (answers : gmap string OptionKey) (q : Question.t) : bool :=
  match answers !! Question.questionId q with
  | None => negb (JS.inherits (Question.questionId q))
  | Some _ => false
  end.

Definition inheritedOnly (answers : gmap string OptionKey) (q : Question.t)
    : bool :=
  match answers !! Question.questionId q with
  | None => JS.inherits (Question.questionId q)
  | Some _ => false
  end.

(** The recording rule of revision 1.2.0: the module is active and not
    submitting, a fullscreen exit does not arrive during re-entry, and at
    least 1000 ms have passed since the last recorded violation. *)
Definition records (ty : Integrity.ViolationType) (now : Z) (w : Integrity.World)
    : bool :=
  let s := Integrity.state w in
  Integrity.isActive s && negb (Integrity.isSubmitting s)
  && negb (Integrity.isReentering s && Integrity.isFullscreenExit ty)
  && negb (now - Integrity.lastViolationTime s <? 1000).

(** A step of the monitor recorded a violation. *)
Definition recorded (w w' : Integrity.World) : Prop :=
  Integrity.violations (Integrity.state w')
  <> Integrity.violations (Integrity.state w).

(** A step left the count and the ledger as they were. *)
Definition ledgerUnchanged (w w' : Integrity.World) : Prop :=
  Integrity.violations (Integrity.state w')
  = Integrity.violations (Integrity.state w)
  /\ Integrity.violationLog (Integrity.state w')
     = Integrity.violationLog (Integrity.state w).

(** What the page's own calls of [requestFullscreen()] among [evs] ask
    of a container [el]: one request per call when the container has the
    method. *)
Definition isFullscreenCall (ev : Integrity.Event) : bool :=
  match ev with
  | Integrity.RequestFullscreenCall => true
  | _ => false
  end.

Definition pageRequests (el : Integrity.Element) (evs : list Integrity.Event)
    : list Integrity.Effect :=
  match el with
  | Integrity.WithRequestFullscreen =>
      (fun _ => Integrity.RequestFullscreen) <$> List.filter isFullscreenCall evs
  | Integrity.WithoutRequestFullscreen => []
  end.

(** The same two notions for revision 1.0.0. *)
Definition recordedV1 (w w' : IntegrityV1.World) : Prop :=
  IntegrityV1.violations (IntegrityV1.state w')
  <> IntegrityV1.violations (IntegrityV1.state w).

Definition ledgerUnchangedV1 (w w' : IntegrityV1.World) : Prop :=
  IntegrityV1.violations (IntegrityV1.state w')
  = IntegrityV1.violations (IntegrityV1.state w)
  /\ IntegrityV1.violationLog (IntegrityV1.state w')
     = IntegrityV1.violationLog (IntegrityV1.state w).

(** The decimal digit [d], and numbers written with two and four digits. *)
Definition digit (d : Z) : ascii := ascii_of_nat (48 + Z.to_nat d).

Definition twoDigits (k : Z) : string :=
  String (digit (k / 10)) (String (digit (k mod 10)) "").

Definition fourDigits (y : Z) : string :=
  String (digit (y / 1000))
    (String (digit (y / 100 mod 10))
       (String (digit (y / 10 mod 10)) (String (digit (y mod 10)) ""))).

(** The date of a clock as YYYYMMDD. *)
Definition yyyymmdd (now : Clock) : string :=
  fourDigits (fullYear now) +:+ twoDigits (month now + 1) +:+ twoDigits (date now).

Definition isDigit (c : ascii) : bool :=
  let n := nat_of_ascii c in (48 <=? n)%nat && (n <=? 57)%nat.

Definition isUpperOrDigit (c : ascii) : bool :=
  let n := nat_of_ascii c in
  ((65 <=? n)%nat && (n <=? 90)%nat) || isDigit c.

Definition allChars (p : ascii -> bool) (s : string) : bool :=
  forallb p (list_ascii_of_string s).

(** A [Math.random()] draw lies in [0, 1). *)
Definition unitDraw (r : Q) : Prop := (0 <= r)%Q /\ (r < 1)%Q.


Definition isFetch (e : Sheets.Effect) : bool :=
  match e with
  | Sheets.Fetch _ _ _ => true
  | _ => false
  end.

(** How many requests [SheetsSubmitter.submit] has sent. *)
Definition fetchCount (es : list Sheets.Effect) : nat :=
  length (List.filter isFetch es).

(** A parsed snapshot has an exam id: [exam.examId] exists and is truthy. *)
Definition hasExamId (parsed : JS.Json) : bool :=
  JS.truthy (JS.getProp parsed "exam" ≫= fun ex => JS.getProp ex "examId").

(** A parsed snapshot has a student name: [student.name] is a string
    that is not empty after trimming. *)
Definition hasStudentName (parsed : JS.Json) : bool :=
  match JS.getProp parsed "student" ≫= fun st => JS.getProp st "name" with
  | Some (JS.JStr n) => negb (String.eqb (JS.trim n) "")
  | _ => false
  end.

(** No [onViolation] subscriber throws. *)
Definition subscribersReturn (cbs : list Integrity.ViolationCallback) : Prop :=
  forall cb, In cb cbs -> forall entry count max, cb entry count max = Returned.

(** Each entry of a ledger is stamped at least [gap] ms after the one
    before it, the first at least [gap] ms after [prev]. *)
Fixpoint wellSpaced (gap prev : Z) (log : list Integrity.ViolationEntry)
    : Prop :=
  match log with
  | [] => True
  | entry :: rest =>
      prev + gap <= Integrity.timestamp entry
      /\ wellSpaced gap (Integrity.timestamp entry) rest
  end.

(** The stamp of a signal is read at or after the [Date.now()] reading
    of its call, and at most [delta] ms later. *)
Definition stampedWithin (delta : Z) (ev : Integrity.Event) : Prop :=
  match Integrity.signalTime ev, Integrity.signalStamp ev with
  | Some now, Some stamp => now <= stamp <= now + delta
  | _, _ => True
  end.

(** The stamp of the last entry of a ledger, [prev] for the empty one. *)
Definition lastTimeFrom (prev : Z) (log : list Integrity.ViolationEntry) : Z :=
  fold_left (fun _ entry => Integrity.timestamp entry) log prev.

Definition isAlert (e : Integrity.Effect) : bool :=
  match e with
  | Integrity.Alert _ => true
  | _ => false
  end.

(** How many warnings the monitor has shown. *)
Definition alertCount (es : list Integrity.Effect) : nat :=
  length (List.filter isAlert es).

Definition isDelay (e : Sheets.Effect) : bool :=
  match e with
  | Sheets.Delay _ => true
  | _ => false
  end.

(** How many times [SheetsSubmitter.submit] has waited before a retry. *)
Definition delayCount (es : list Sheets.Effect) : nat :=
  length (List.filter isDelay es).

(** The number a string of decimal digits denotes. *)
Definition digitValue (c : ascii) : Z := Z.of_nat (nat_of_ascii c) - 48.

Definition readDecimal (s : string) : Z :=
  fold_left (fun acc c => acc * 10 + digitValue c) (list_ascii_of_string s) 0.

(** The stored snapshot may lag behind the countdown: it shows [d] more
    seconds than are left, where no multiple of 5 lies between. *)
Definition lagOk (timeLeft d : Z) : Prop :=
  0 <= d /\ d + timeLeft mod 5 <= 5 /\ (timeLeft mod 5 = 0 -> d = 0).

(** A running session whose stored snapshot is the session state, except
    that its countdown may be ahead by a lag [d]. *)
Definition persisted (stringify : Snapshot.t -> string) (w : Script.World)
    : Prop :=
  exists (e : Exam.t) (d : Z),
    Script.exam (Script.state w) = Some e
    /\ Script.isSubmitted (Script.state w) = false
    /\ 0 < Script.timeLeft (Script.state w)
    /\ lagOk (Script.timeLeft (Script.state w)) d
    /\ Script.localStorage w !! Script.STORAGE_KEY
       = Some (stringify
                 (Session.dataToSave
                    (Session.withTimeLeft (Script.timeLeft (Script.state w) + d)
                       (Script.state w)) e)).

(** A parsed payload carries the student name and the exam id of a
    snapshot. *)
Definition carries (parsed : JS.Json) (snap : Snapshot.t) : Prop :=
  (JS.getProp parsed "student" ≫= fun st => JS.getProp st "name")
  = Some (JS.JStr (Student.name (Snapshot.student snap)))
  /\ (JS.getProp parsed "exam" ≫= fun ex => JS.getProp ex "examId")
     = Some (JS.JStr (Exam.examId (Snapshot.exam snap))).

(** A timer text of the form [MM:SS] that reads back as [timeLeft]
    seconds, the seconds part below 60. *)
Definition readsBackAs (text : string) (timeLeft : Z) : bool :=
  (String.length text =? 5)%nat
  && String.eqb (String.substring 2 1 text) ":"
  && (readDecimal (String.substring 3 2 text) <? 60)
  && (readDecimal (String.substring 0 2 text) * 60
      + readDecimal (String.substring 3 2 text) =? timeLeft).

(** The events that register a subscriber. *)
Definition isRegistration (ev : Integrity.Event) : bool :=
  match ev with
  | Integrity.OnViolation _ | Integrity.OnAutoSubmit _ => true
  | _ => false
  end.

(** A run of timer callbacks, one per reading of the clock. *)
Definition ticks (cs : list (Clock * (nat -> Q))) : list Session.Action :=
  (fun c => Session.Tick c.1 c.2) <$> cs.

(** The current question index points into the exam. *)
Definition indexInRange (w : Script.World) : Prop :=
  exists e : Exam.t,
    Script.exam (Script.state w) = Some e
    /\ 0 <= Script.currentQIndex (Script.state w)
       < Z.of_nat (length (Exam.questions e)).

End Spec.

(** ** Concrete sessions used by the examples below *)

Module Scenario.
Import JS.

Definition question (id : string) (correct : OptionKey) (marks : option Z)
    : Question.t :=
  {| Question.questionId := id; Question.questionText := "";
     Question.correctAnswer := correct; Question.marks := marks |}.

Definition settings (passMark : option Z) : Settings.t :=
  {| Settings.duration := Some 30; Settings.passMark := passMark;
     Settings.autoSubmitOnViolation := Some true;
     Settings.violationThreshold := Some 3; Settings.strictMode := None;
     Settings.webhookUrl := Some "https://sheets.example/hook";
     Settings.showResults := true |}.

Definition examOf (qs : list Question.t) (passMark : option Z) : Exam.t :=
  {| Exam.examId := "EXAM-1";
     Exam.metadata := {| Metadata.title := "Mock"; Metadata.subject := "Maths";
                         Metadata.term := "1"; Metadata.academicYear := "2025" |};
     Exam.settings := settings passMark;
     Exam.questions := qs |}.

(** Two questions worth 5 and 10 marks, pass mark 50; the first answered
    correctly, the second wrongly. *)
Definition examA : Exam.t :=
  examOf [question "Q1" B (Some 5); question "Q2" C (Some 10)] (Some 50).

Definition answersA : gmap string OptionKey := <["Q1" := B]> (<["Q2" := A]> ∅).

(** One question carrying -5 marks, answered correctly. *)
Definition examNegative : Exam.t := examOf [question "Q1" A (Some (-5))] None.

Definition answersNegative : gmap string OptionKey := <["Q1" := A]> ∅.

(** 3 November 2026, and six draws of [Math.random()]. *)
Definition clock : Clock :=
  {| epochMs := 1793664000000; fullYear := 2026; month := 10; date := 3 |}.

Definition draws (i : nat) : Q :=
  match i with
  | 0%nat => 0
  | 1%nat => 1 # 2
  | 2%nat => 35 # 36
  | _ => 1 # 3
  end.

(** A stand-in for [JSON.stringify] on results. *)
Definition stringify (r : Result.t) : string :=
  "{submissionId:" +:+ Result.submissionId r +:+ "}".

(** A stand-in for [JSON.parse] that knows two payloads: a snapshot
    whose student name is blank, and a complete one. *)
Definition blankName : Json :=
  JObj [("student", JObj [("name", JStr "   ")]);
        ("exam", JObj [("examId", JStr "EXAM-1")])].

Definition complete : Json :=
  JObj [("student", JObj [("name", JStr "Ada")]);
        ("exam", JObj [("examId", JStr "EXAM-1")])].

Definition parse (s : string) : option Json :=
  if String.eqb s "blank-name" then Some blankName
  else if String.eqb s "complete" then Some complete
  else None.

Definition page : Script.Dom :=
  {| Script.modalHidden := true; Script.loginActive := true;
     Script.examActive := false; Script.resultActive := false;
     Script.resName := ""; Script.resSubject := ""; Script.resTotal := 0;
     Script.resScore := ""; Script.resumeDom := true;
     Script.resumeAlertHidden := true; Script.resumeClick := None |}.

Definition sheetsConfig : Sheets.Config :=
  {| Sheets.webhookUrl := "https://sheets.example/hook";
     Sheets.maxRetries := 3; Sheets.retryDelay := 2000 |}.

(** The page as loaded, with the given content of the storage. *)
Definition loginPage (storage : gmap string string) : Script.World :=
  {| Script.state :=
       {| Script.student := {| Student.name := ""; Student.seatNumber := "";
                               Student.class := ""; Student.subject := "" |};
          Script.exam := None; Script.currentQIndex := 0; Script.answers := ∅;
          Script.timeLeft := 0; Script.timerId := None;
          Script.isSubmitted := false;
          Script.timing := {| Timing.startedAt := None;
                              Timing.submittedAt := None;
                              Timing.durationAllowed := 0 |} |};
     Script.localStorage := storage;
     Script.integrity := Some Integrity.loaded;
     Script.sheets := Some Sheets.defaultConfig;
     Script.ticking := false;
     Script.dom := page;
     Script.inFlight := [];
     Script.effects := [] |}.

(** A monitor initialised by [init] with the given threshold and with
    auto-submission on; no warnings, to keep the effects short. *)
Definition monitor (threshold : Z) : Integrity.World :=
  Integrity.init
    {| Integrity.containerElement' := None;
       Integrity.autoSubmitOnViolation' := Some true;
       Integrity.violationThreshold' := Some threshold;
       Integrity.enableWarnings' := Some false;
       Integrity.strictMode' := None |}
    Integrity.loaded.

Definition throwing : Integrity.ViolationCallback :=
  fun _ _ _ => Threw "subscriber failed".

Definition quiet : Integrity.ViolationCallback := fun _ _ _ => Returned.

(** The same for revision 1.0.0. *)
Definition monitorV1 (threshold : Z) : IntegrityV1.World :=
  IntegrityV1.init
    {| Integrity.containerElement' := None;
       Integrity.autoSubmitOnViolation' := Some true;
       Integrity.violationThreshold' := Some threshold;
       Integrity.enableWarnings' := Some false;
       Integrity.strictMode' := None |}
    IntegrityV1.loaded.

(** A running session on [examA] with the answers of [answersA]. *)
Definition session : Script.World :=
  {| Script.state :=
       {| Script.student := {| Student.name := "Ada"; Student.seatNumber := "17";
                               Student.class := "JSS1";
                               Student.subject := "Maths" |};
          Script.exam := Some examA; Script.currentQIndex := 1;
          Script.answers := answersA;
          Script.timeLeft := 600; Script.timerId := Some 1;
          Script.isSubmitted := false;
          Script.timing := {| Timing.startedAt := Some 1793663000000;
                              Timing.submittedAt := None;
                              Timing.durationAllowed := 30 |} |};
     Script.localStorage := <[Script.STORAGE_KEY := "complete"]> ∅;
     Script.integrity := Some (monitor 3);
     Script.sheets := Some sheetsConfig;
     Script.ticking := true;
     Script.dom := page;
     Script.inFlight := [];
     Script.effects := [] |}.

(** Every request fails with the same message. *)
Definition offline (attempt : Z) : Sheets.FetchOutcome :=
  Sheets.Rejected (Some "Failed to fetch").

(** The result of [examA] with [answersA], submitted by hand. *)
Definition resultA : Result.t :=
  {| Result.submissionId := "SUB-20261103-AS9MMM";
     Result.version := "1.0.0";
     Result.student_ := {| Result.fullName := "Ada";
                           Result.registrationNumber := "17";
                           Result.class := "JSS1" |};
     Result.exam_ := {| Result.examId := "EXAM-1"; Result.title := "Mock";
                        Result.subject := "Maths"; Result.term := "1";
                        Result.academicYear := "2025" |};
     Result.answers := (Script.computeScoring examA answersA).1;
     Result.scoring_ := (Script.computeScoring examA answersA).2;
     Result.timing_ := {| Result.startedAt := Some 1793663000000;
                          Result.submittedAt := Some 1793664000000;
                          Result.durationAllowed := 30;
                          Result.durationUsed := 20 |};
     Result.submission_ := {| Result.type := "manual";
                              Result.clientTimestamp := 1793664000000 |};
     Result.integrity_ := {| Result.violations := 0; Result.violationLog := [] |} |}.

(** The first request fails, the second goes through. *)
Definition flaky (attempt : Z) : Sheets.FetchOutcome :=
  if attempt <? 2 then Sheets.Rejected (Some "Failed to fetch")
  else Sheets.Fulfilled.

(** A stand-in for [JSON.stringify] on snapshots: the countdown and the
    student name. *)
Definition stringifySnapshot (snap : Snapshot.t) : string :=
  "{timeLeft:" +:+ toString (Snapshot.timeLeft snap) +:+ ",name:"
  +:+ Student.name (Snapshot.student snap) +:+ "}".

End Scenario.

(** * Properties *)

(** ** Scoring *)

Section Scoring.
Import JS Script.

Variable answers : gmap string OptionKey.

Ltac grade_cases :=
  unfold grade, selectedFor; simpl; repeat case_match; simpl in *;
  try lia; try done.

Lemma gradeAll_cons q qs t :
  gradeAll answers (q :: qs) t
  = ((gradeAll answers qs (grade answers q t).1).1,
     (grade answers q t).2 :: (gradeAll answers qs (grade answers q t).1).2).
Proof.
  cbn [gradeAll]. destruct (grade answers q t) as [t1 a]. cbn [fst snd].
  by destruct (gradeAll answers qs t1).
Qed.

Lemma gradeAll_answers qs t :
  (gradeAll answers qs t).2 = (fun q => (grade answers q noTally).2) <$> qs.
Proof.
  revert t. induction qs as [|q qs IH]; intros t; [done|].
  rewrite gradeAll_cons, fmap_cons. simpl. by rewrite IH.
Qed.

Lemma sumZ_cons x l : Spec.sumZ (x :: l) = x + Spec.sumZ l.
Proof. reflexivity. Qed.

Lemma gradeAll_totalObtainable qs t :
  totalObtainable (gradeAll answers qs t).1
  = totalObtainable t + Spec.sumZ (marksOf <$> qs).
Proof.
  revert t. induction qs as [|q qs IH]; intros t; [simpl; lia|].
  rewrite gradeAll_cons, fmap_cons, sumZ_cons. cbn [fst snd]. rewrite IH.
  grade_cases.
Qed.

Lemma gradeAll_score qs t :
  score (gradeAll answers qs t).1
  = score t + Spec.sumZ (Result.marksAwarded <$> (gradeAll answers qs t).2).
Proof.
  revert t. induction qs as [|q qs IH]; intros t; [simpl; lia|].
  rewrite gradeAll_cons. cbn [fst snd]. rewrite fmap_cons, sumZ_cons, IH.
  grade_cases.
Qed.

Lemma gradeAll_unanswered qs t :
  unansweredCount (gradeAll answers qs t).1
  = unansweredCount t
    + Z.of_nat (length (List.filter (Spec.unanswered answers) qs)).
Proof.
  revert t. induction qs as [|q qs IH]; intros t; [simpl; lia|].
  rewrite gradeAll_cons. cbn [fst snd List.filter]. rewrite IH.
  unfold Spec.unanswered. grade_cases.
Qed.

Lemma computeScoring_answers e :
  (computeScoring e answers).1
  = (fun q => (grade answers q noTally).2) <$> Exam.questions e.
Proof.
  unfold computeScoring.
  pose proof (gradeAll_answers (Exam.questions e) noTally) as H.
  destruct (gradeAll answers (Exam.questions e) noTally) as [t arr]. exact H.
Qed.

Lemma computeScoring_scoring e :
  (computeScoring e answers).2
  = let t := (gradeAll answers (Exam.questions e) noTally).1 in
    let n := Z.of_nat (length (Exam.questions e)) in
    {| Result.totalQuestions := n;
       Result.attemptedQuestions := n - unansweredCount t;
       Result.correctAnswers := correctCount t;
       Result.wrongAnswers := wrongCount t;
       Result.unansweredQuestions := unansweredCount t;
       Result.totalMarks := totalObtainable t;
       Result.obtainedMarks := score t;
       Result.percentage := percentageOf (score t) (totalObtainable t);
       Result.passed :=
         passedWith (percentageOf (score t) (totalObtainable t)) (Exam.settings e) |}.
Proof.
  unfold computeScoring.
  destruct (gradeAll answers (Exam.questions e) noTally) as [t arr]. reflexivity.
Qed.

Lemma isCorrectFor_true selected q :
  isCorrectFor selected q = true <-> selected = Chosen (Question.correctAnswer q).
Proof.
  unfold isCorrectFor. destruct selected as [o|member|]; try (split; discriminate).
  destruct o, (Question.correctAnswer q); simpl; split; congruence.
Qed.


End Scoring.

Section ScoringClaims.
Import JS Script.

Lemma float_neq (x y : float) : Prim2SF x <> Prim2SF y -> x <> y.
Proof. intros H E. apply H. by rewrite E. Qed.

Lemma submitExam_returns now random isAuto submissionType w e :
  exam (state w) = Some e ->
  (submitExam now random isAuto submissionType w).2 = Returned.
Proof.
  intros He. unfold submitExam. destruct (isSubmitted (state w)); [done|].
  rewrite He. by destruct (computeScoring e (answers (state w))).
Qed.


(** An unanswered question whose id is the name of a member of
    [Object.prototype] is not counted as unanswered: the inherited member
    is taken for the selection and the question is scored attempted and
    wrong. *)
Lemma inherited_member_is_scored_wrong :
  let e := Scenario.examOf [Scenario.question "constructor" A None] None in
  let sc := (computeScoring e ∅).2 in
  Result.selectedOption <$> (computeScoring e ∅).1 = [Inherited "constructor"]
  /\ Result.unansweredQuestions sc = 0
  /\ Result.attemptedQuestions sc = 1
  /\ Result.wrongAnswers sc = 1.
Proof. repeat split; reflexivity. Qed.



(** C6, as stated, is false: the rounded quotient is used only when the
    total is positive.  With a single question carrying -5 marks and
    answered correctly, both sums are -5, the formula gives 100 and the
    computed percentage is 0. *)
Lemma percentage_is_zero_below_zero_total :
  let sc := (computeScoring Scenario.examNegative Scenario.answersNegative).2 in
  Result.totalMarks sc = -5
  /\ Result.obtainedMarks sc = -5
  /\ Result.percentage sc = 0%float
  /\ Spec.roundedPercentage (-5) (-5) = 100%float
  /\ Result.percentage sc
     <> Spec.roundedPercentage (Result.obtainedMarks sc) (Result.totalMarks sc).
Proof.
  repeat split; try (vm_compute; reflexivity).
  apply float_neq. vm_compute. discriminate.
Qed.

(** C6, amended: the total is the sum of the marks used per question and
    the obtained marks the sum of the marks awarded; the percentage is
    round(obtained / total x 10000) / 100 when the total is positive and 0
    when the total is zero or negative; and an exam of two questions worth
    5 and 10 marks with pass mark 50, the first answered correctly and the
    second wrongly, gives 5 of 15 marks, 33.33 percent, not passed. *)
Theorem percentage_of_result (e : Exam.t) (answers : gmap string OptionKey) :
  let arr := (computeScoring e answers).1 in
  let sc := (computeScoring e answers).2 in
  Result.totalMarks sc = Spec.sumZ (marksOf <$> Exam.questions e)
  /\ Result.obtainedMarks sc = Spec.sumZ (Result.marksAwarded <$> arr)
  /\ (0 < Result.totalMarks sc ->
      Result.percentage sc
      = Spec.roundedPercentage (Result.obtainedMarks sc) (Result.totalMarks sc))
  /\ (Result.totalMarks sc <= 0 -> Result.percentage sc = 0%float)
  /\ (forall (q1 q2 : Question.t) (o : OptionKey),
        Exam.questions e = [q1; q2] ->
        Question.marks q1 = Some 5 ->
        Question.marks q2 = Some 10 ->
        Settings.passMark (Exam.settings e) = Some 50 ->
        answers !! Question.questionId q1 = Some (Question.correctAnswer q1) ->
        answers !! Question.questionId q2 = Some o ->
        o <> Question.correctAnswer q2 ->
        Result.obtainedMarks sc = 5 /\ Result.totalMarks sc = 15
        /\ Result.percentage sc = 33.33%float /\ Result.passed sc = false).
Proof.
  intros arr sc. subst arr sc.
  rewrite computeScoring_scoring. cbn zeta.
  cbn [Result.totalMarks Result.obtainedMarks Result.percentage Result.passed].
  split; [by rewrite gradeAll_totalObtainable|].
  split.
  { rewrite gradeAll_score. simpl. f_equal. f_equal.
    unfold computeScoring.
    by destruct (gradeAll answers (Exam.questions e) noTally). }
  split.
  { intros Hpos. unfold percentageOf, Spec.roundedPercentage.
    destruct (Z.ltb_spec 0 (totalObtainable (gradeAll answers (Exam.questions e) noTally).1));
      [reflexivity|lia]. }
  split.
  { intros Hneg. unfold percentageOf.
    destruct (Z.ltb_spec 0 (totalObtainable (gradeAll answers (Exam.questions e) noTally).1));
      [lia|reflexivity]. }
  intros q1 q2 o Hqs Hm1 Hm2 Hpass Ha1 Ha2 Hwrong.
  assert (Hscore : score (gradeAll answers (Exam.questions e) noTally).1 = 5).
  { assert (E1 : isCorrectFor (Chosen (Question.correctAnswer q1)) q1 = true)
      by by apply isCorrectFor_true.
    assert (E2 : isCorrectFor (Chosen o) q2 = false).
    { destruct (isCorrectFor (Chosen o) q2) eqn:E; [|done].
      apply isCorrectFor_true in E. congruence. }
    rewrite Hqs, !gradeAll_cons. cbn [gradeAll fst snd]. unfold grade, selectedFor.
    rewrite Ha1, Ha2, E1, E2. unfold marksOf. rewrite Hm1. reflexivity. }
  assert (Htotal : totalObtainable (gradeAll answers (Exam.questions e) noTally).1 = 15).
  { rewrite gradeAll_totalObtainable, Hqs. unfold marksOf. cbn.
    rewrite Hm1, Hm2. reflexivity. }
  rewrite Hscore, Htotal. unfold passedWith. rewrite Hpass.
  repeat split; vm_compute; reflexivity.
Qed.

Lemma percentage_of_result_witness :
  let sc := (computeScoring Scenario.examA Scenario.answersA).2 in
  Result.obtainedMarks sc = 5 /\ Result.totalMarks sc = 15
  /\ Result.percentage sc = 33.33%float /\ Result.passed sc = false.
Proof.
  destruct (percentage_of_result Scenario.examA Scenario.answersA)
    as (_ & _ & _ & _ & H).
  apply (H (Scenario.question "Q1" B (Some 5))
           (Scenario.question "Q2" C (Some 10)) A);
    try reflexivity; discriminate.
Defined.

End ScoringClaims.

(** ** The violation monitor, revision 1.2.0 *)

Section Monitor.
Import JS Integrity.

(** What the helpers leave alone. *)
Lemma showWarning_state ty count max w : state (_showWarning ty count max w) = state w.
Proof. unfold _showWarning. by destruct (negb _). Qed.

Lemma showWarning_callbacks ty count max w :
  callbacks (_showWarning ty count max w) = callbacks w.
Proof. unfold _showWarning. by destruct (negb _). Qed.

Lemma showWarning_config ty count max w :
  config (_showWarning ty count max w) = config w.
Proof. unfold _showWarning. by destruct (negb _). Qed.

Lemma enforceFullscreen_ledger w :
  violations (state (_enforceFullscreen w)) = violations (state w)
  /\ violationLog (state (_enforceFullscreen w)) = violationLog (state w)
  /\ lastViolationTime (state (_enforceFullscreen w)) = lastViolationTime (state w)
  /\ isActive (state (_enforceFullscreen w)) = isActive (state w)
  /\ isSubmitting (state (_enforceFullscreen w)) = isSubmitting (state w)
  /\ config (_enforceFullscreen w) = config w
  /\ callbacks (_enforceFullscreen w) = callbacks w.
Proof. unfold _enforceFullscreen. by destruct (_ || _). Qed.

Lemma triggerAutoSubmit_ledger w :
  violations (state (_triggerAutoSubmit w)) = violations (state w)
  /\ violationLog (state (_triggerAutoSubmit w)) = violationLog (state w)
  /\ lastViolationTime (state (_triggerAutoSubmit w)) = lastViolationTime (state w).
Proof. unfold _triggerAutoSubmit. by destruct (_ || _). Qed.

(** The recording rule decides what [_logViolation] does. *)
Lemma logViolation_skips ty now stamp w :
  Spec.records ty now w = false -> _logViolation ty now stamp w = (w, Returned).
Proof.
  unfold Spec.records, _logViolation.
  destruct (isActive (state w)), (isSubmitting (state w)); simpl; try done.
  destruct (isReentering (state w) && isFullscreenExit ty); simpl; try done.
  by destruct (now - lastViolationTime (state w) <? 1000).
Qed.

Lemma logViolation_records ty now stamp w :
  Spec.records ty now w = true ->
  let w' := (_logViolation ty now stamp w).1 in
  violations (state w') = violations (state w) + 1
  /\ violationLog (state w')
     = violationLog (state w) ++ [{| type := ty; timestamp := stamp |}]
  /\ lastViolationTime (state w') = now
  /\ 1000 <= now - lastViolationTime (state w).
Proof.
  unfold Spec.records, _logViolation.
  destruct (isActive (state w)), (isSubmitting (state w)); simpl; try done.
  destruct (isReentering (state w) && isFullscreenExit ty); simpl; try done.
  destruct (Z.ltb_spec (now - lastViolationTime (state w)) 1000); simpl; try done.
  intros _.
  destruct (notifyViolation _ _ _ _ _) as [es [|err]]; simpl.
  2: { rewrite showWarning_state. simpl. repeat split; lia. }
  set (w3 := emit es _).
  assert (Hs : violations (state w3) = violations (state w) + 1
               /\ violationLog (state w3)
                  = violationLog (state w) ++ [{| type := ty; timestamp := stamp |}]
               /\ lastViolationTime (state w3) = now).
  { subst w3. simpl. by rewrite showWarning_state. }
  destruct Hs as (Hv & Hl & Ht).
  set (w4 := if _ && _ then _enforceFullscreen w3 else w3).
  assert (H4 : violations (state w4) = violations (state w3)
               /\ violationLog (state w4) = violationLog (state w3)
               /\ lastViolationTime (state w4) = lastViolationTime (state w3)).
  { subst w4. destruct (_ && _); [|done].
    by destruct (enforceFullscreen_ledger w3) as (? & ? & ? & _). }
  destruct H4 as (Hv4 & Hl4 & Ht4).
  destruct (autoSubmitOnViolation (config w4) && _).
  - pose proof (triggerAutoSubmit_ledger w4) as (-> & -> & ->).
    rewrite Hv4, Hl4, Ht4, Hv, Hl, Ht. repeat split; lia.
  - rewrite Hv4, Hl4, Ht4, Hv, Hl, Ht. repeat split; lia.
Qed.

Lemma settle_state (r : World * Completion) : state (settle r) = state r.1.
Proof. by destruct r as [w [|err]]. Qed.

Lemma settle_effects_returned (r : World * Completion) :
  r.2 = Returned -> settle r = r.1.
Proof. destruct r as [w [|err]]; [done|discriminate]. Qed.

(** Every step either runs [_logViolation] on a signal, or leaves the
    count, the ledger and the time of the last violation alone. *)
Lemma step_ledger_cases ev w :
  (exists ty now stamp, signalTime ev = Some now
     /\ state (step ev w) = state (_logViolation ty now stamp w).1)
  \/ (violations (state (step ev w)) = violations (state w)
      /\ violationLog (state (step ev w)) = violationLog (state w)
      /\ lastViolationTime (state (step ev w)) = lastViolationTime (state w)).
Proof.
  destruct ev as [hidden now stamp|hidden now stamp|inFs now stamp|ty now stamp| |ok|cb|cb|b| |]; simpl.
  - destruct (listening w); [|by right]. unfold visibilityChange.
    destruct (hidden && _); [|by right].
    left. exists tab_switch, now, stamp. by rewrite settle_state.
  - destruct (listening w); [|by right]. unfold blur.
    destruct (negb hidden && _); [|by right].
    left. exists window_blur, now, stamp. by rewrite settle_state.
  - destruct (listening w); [|by right]. unfold fullscreenChange.
    destruct (negb inFs && _ && _ && _).
    + left. exists fullscreen_exit, now, stamp. by rewrite settle_state.
    + right. by destruct (inFs && _).
  - left. exists ty, now, stamp. by rewrite settle_state.
  - right. destruct (pendingTimeouts w); [done|]. unfold reentryTimeout; simpl.
    destruct (isActive (state w) && _); [|done].
    by destruct (containerElement (config w)).
  - right. by destruct (pendingRequests w).
  - by right.
  - by right.
  - by right.
  - by right.
  - right. unfold requestFullscreen. by destruct (containerElement (config w)).
Qed.

(** The time of the last recorded violation never goes back. *)
Lemma step_time_mono ev w :
  lastViolationTime (state w) <= lastViolationTime (state (step ev w)).
Proof.
  destruct (step_ledger_cases ev w) as [(ty & now & stamp & _ & ->)|(_ & _ & ->)]; [|lia].
  destruct (Spec.records ty now w) eqn:E.
  - destruct (logViolation_records ty now stamp w E) as (_ & _ & -> & ?). lia.
  - rewrite (logViolation_skips ty now stamp w E). simpl. lia.
Qed.

Lemma run_time_mono evs w :
  lastViolationTime (state w) <= lastViolationTime (state (run evs w)).
Proof.
  revert w. induction evs as [|ev evs IH]; intros w; simpl; [lia|].
  etransitivity; [apply (step_time_mono ev)|apply IH].
Qed.

(** A step that records takes its time from the signal. *)
Lemma step_recorded_time ev w :
  Spec.recorded w (step ev w) ->
  exists now, signalTime ev = Some now
              /\ lastViolationTime (state (step ev w)) = now.
Proof.
  unfold Spec.recorded.
  destruct (step_ledger_cases ev w) as [(ty & now & stamp & Hev & ->)|(-> & _)]; [|done].
  destruct (Spec.records ty now w) eqn:E.
  - destruct (logViolation_records ty now stamp w E) as (_ & _ & Ht & _). eauto.
  - by rewrite (logViolation_skips ty now stamp w E).
Qed.

(** A signal arriving less than 1000 ms after the last recorded violation
    changes neither the count nor the ledger. *)
Lemma step_debounced ev now w :
  signalTime ev = Some now ->
  now - lastViolationTime (state w) < 1000 ->
  Spec.ledgerUnchanged w (step ev w).
Proof.
  intros Hev Hnow. unfold Spec.ledgerUnchanged.
  destruct (step_ledger_cases ev w)
    as [(ty & now' & stamp & Hev' & ->)|(-> & -> & _)]; [|done].
  assert (now' = now) as -> by congruence.
  assert (E : Spec.records ty now w = false).
  { unfold Spec.records.
    destruct (Z.ltb_spec (now - lastViolationTime (state w)) 1000); [|lia].
    simpl. by rewrite !andb_false_r. }
  by rewrite (logViolation_skips ty now stamp w E).
Qed.

End Monitor.

(** ** The violation monitor, revision 1.0.0 *)

Section MonitorV1.
Import JS.
Import IntegrityV1.

Lemma v1_triggerAutoSubmit_ledger w :
  violations (state (_triggerAutoSubmit w).1) = violations (state w)
  /\ violationLog (state (_triggerAutoSubmit w).1) = violationLog (state w)
  /\ lastViolationTime (state (_triggerAutoSubmit w).1)
     = lastViolationTime (state w).
Proof.
  unfold _triggerAutoSubmit. destruct (negb _); [done|].
  by destruct (notifyAutoSubmit _ _) as [es [|err]].
Qed.

Lemma v1_logViolation_cases ty now stamp w :
  _logViolation ty now stamp w = (w, Returned)
  \/ (500 <= now - lastViolationTime (state w)
      /\ violations (state (_logViolation ty now stamp w).1) = violations (state w) + 1
      /\ lastViolationTime (state (_logViolation ty now stamp w).1) = now).
Proof.
  unfold _logViolation. destruct (negb _); [by left|].
  destruct (Z.ltb_spec (now - lastViolationTime (state w)) 500); [by left|].
  right. split; [lia|].
  destruct (Integrity.notifyViolation _ _ _ _ _) as [es [|err]]; [|done].
  destruct (_ && _); [|done].
  by destruct (v1_triggerAutoSubmit_ledger
                 (emit es (withState
                    {| violations := violations (state w) + 1;
                       violationLog := violationLog (state w)
                                       ++ [Integrity.Build_ViolationEntry ty stamp];
                       isActive := isActive (state w);
                       lastViolationTime := now |} w))) as (-> & _ & ->).
Qed.

Lemma v1_settle_state (r : World * Completion) : state (settle r) = state r.1.
Proof. by destruct r as [w [|err]]. Qed.

Lemma v1_step_cases ev w :
  state (step ev w) = state w
  \/ (500 <= signalTime ev - lastViolationTime (state w)
      /\ violations (state (step ev w)) = violations (state w) + 1
      /\ lastViolationTime (state (step ev w)) = signalTime ev).
Proof.
  unfold step. destruct (negb (listening w)); [by left|].
  destruct ev as [hidden now stamp|hidden now stamp|inFs now stamp];
    rewrite v1_settle_state; simpl.
  - unfold visibilityChange. destruct hidden; [|by left].
    destruct (v1_logViolation_cases tab_switch now stamp w) as [->|?]; [by left|by right].
  - unfold blur. destruct (negb hidden); [|by left].
    destruct (v1_logViolation_cases window_blur now stamp w) as [->|?]; [by left|by right].
  - unfold fullscreenChange. destruct (negb inFs); [|by left].
    destruct (v1_logViolation_cases fullscreen_exit now stamp w) as [->|?];
      destruct (Integrity.strictMode (config w)); try (by left); by right.
Qed.

Lemma v1_step_time_mono ev w :
  lastViolationTime (state w) <= lastViolationTime (state (step ev w)).
Proof.
  destruct (v1_step_cases ev w) as [->|(? & _ & ->)]; lia.
Qed.

Lemma v1_run_time_mono evs w :
  lastViolationTime (state w) <= lastViolationTime (state (run evs w)).
Proof.
  revert w. induction evs as [|ev evs IH]; intros w; simpl; [lia|].
  etransitivity; [apply (v1_step_time_mono ev)|apply IH].
Qed.

End MonitorV1.

(** ** Debouncing *)

Section Debounce.
Import JS.

(** C3, as stated, is false for revision 1.0.0 of the module, whose
    window is 500 ms: a tab switch at 5000 and a window blur at 5600 are
    600 ms apart and both are recorded. *)
Lemma legacy_window_is_500_ms :
  let w0 := Scenario.monitorV1 3 in
  let w1 := IntegrityV1.step (IntegrityV1.VisibilityChange true 5000 5000) w0 in
  let w2 := IntegrityV1.step (IntegrityV1.Blur false 5600 5600) w1 in
  Z.abs (5600 - 5000) < 1000
  /\ Spec.recordedV1 w0 w1 /\ Spec.recordedV1 w1 w2
  /\ IntegrityV1.violations (IntegrityV1.state w2) = 2
  /\ IntegrityV1.violationLog (IntegrityV1.state w2)
     = [ Integrity.Build_ViolationEntry Integrity.tab_switch 5000;
         Integrity.Build_ViolationEntry Integrity.window_blur 5600 ].
Proof.
  repeat split; try reflexivity; vm_compute; discriminate.
Qed.

(** C3, amended: of two raw signals delivered to a monitor less than
    1000 ms apart (revision 1.2.0) or less than 500 ms apart (revision
    1.0.0), whatever happens between them, at most one is recorded: when
    the first is recorded, the second leaves the count and the ledger
    unchanged. *)
Theorem debounce_window :
  (forall (w : Integrity.World) (e1 e2 : Integrity.Event)
          (between : list Integrity.Event) (t1 t2 : Z),
      Integrity.signalTime e1 = Some t1 ->
      Integrity.signalTime e2 = Some t2 ->
      Z.abs (t2 - t1) < 1000 ->
      let w1 := Integrity.step e1 w in
      let w2 := Integrity.run between w1 in
      let w3 := Integrity.step e2 w2 in
      (Spec.recorded w w1 -> Spec.ledgerUnchanged w2 w3)
      /\ ~ (Spec.recorded w w1 /\ Spec.recorded w2 w3))
  /\ (forall (w : IntegrityV1.World) (e1 e2 : IntegrityV1.Event)
             (between : list IntegrityV1.Event),
        Z.abs (IntegrityV1.signalTime e2 - IntegrityV1.signalTime e1) < 500 ->
        let w1 := IntegrityV1.step e1 w in
        let w2 := IntegrityV1.run between w1 in
        let w3 := IntegrityV1.step e2 w2 in
        (Spec.recordedV1 w w1 -> Spec.ledgerUnchangedV1 w2 w3)
        /\ ~ (Spec.recordedV1 w w1 /\ Spec.recordedV1 w2 w3)).
Proof.
  split.
  - intros w e1 e2 between t1 t2 H1 H2 Hclose w1 w2 w3.
    assert (Hfirst : Spec.recorded w w1 -> Spec.ledgerUnchanged w2 w3).
    { intros Hrec.
      destruct (step_recorded_time e1 w Hrec) as (now & Hnow & Ht).
      assert (now = t1) as -> by congruence.
      pose proof (run_time_mono between w1) as Hmono.
      apply (step_debounced e2 t2 w2 H2). fold w1 in Ht. fold w2 in Hmono. lia. }
    split; [exact Hfirst|].
    intros [Hr1 Hr2]. destruct (Hfirst Hr1) as [Hv _]. by apply Hr2.
  - intros w e1 e2 between Hclose w1 w2 w3.
    assert (Hfirst : Spec.recordedV1 w w1 -> Spec.ledgerUnchangedV1 w2 w3).
    { unfold Spec.recordedV1, Spec.ledgerUnchangedV1. intros Hrec.
      destruct (v1_step_cases e1 w) as [E|(_ & _ & Ht)];
        [by fold w1 in E; rewrite E in Hrec|].
      pose proof (v1_run_time_mono between w1) as Hmono.
      fold w1 in Ht. fold w2 in Hmono.
      destruct (v1_step_cases e2 w2) as [E|(Hfar & _)];
        [by fold w3 in E; rewrite E|lia]. }
    split; [exact Hfirst|].
    intros [Hr1 Hr2]. destruct (Hfirst Hr1) as [Hv _]. by apply Hr2.
Qed.

Lemma debounce_window_witness :
  (let w := Scenario.monitor 3 in
   let w1 := Integrity.step (Integrity.VisibilityChange true 5000 5000) w in
   let w2 := Integrity.run [Integrity.SetStrictMode true] w1 in
   let w3 := Integrity.step (Integrity.Blur false 5600 5600) w2 in
   Spec.recorded w w1 /\ Spec.ledgerUnchanged w2 w3)
  /\ (let w := Scenario.monitorV1 3 in
      let w1 := IntegrityV1.step (IntegrityV1.VisibilityChange true 5000 5000) w in
      let w2 := IntegrityV1.run [] w1 in
      let w3 := IntegrityV1.step (IntegrityV1.Blur false 5400 5400) w2 in
      Spec.recordedV1 w w1 /\ Spec.ledgerUnchangedV1 w2 w3).
Proof.
  destruct debounce_window as [H H'].
  split.
  - intros w w1 w2 w3.
    assert (Hrec : Spec.recorded w w1) by (vm_compute; discriminate).
    split; [exact Hrec|].
    apply (H w (Integrity.VisibilityChange true 5000 5000) (Integrity.Blur false 5600 5600)
             [Integrity.SetStrictMode true] 5000 5600 eq_refl eq_refl);
      [reflexivity|exact Hrec].
  - intros w w1 w2 w3.
    assert (Hrec : Spec.recordedV1 w w1) by (vm_compute; discriminate).
    split; [exact Hrec|].
    apply (H' w (IntegrityV1.VisibilityChange true 5000 5000)
              (IntegrityV1.Blur false 5400 5400) []);
      [reflexivity|exact Hrec].
Defined.

End Debounce.

(** ** Subscribers, threshold crossing and the submitting state *)

Section AutoSubmit.
Import JS Integrity.

Lemma autoSubmitCalls_app i es1 es2 :
  autoSubmitCalls i (es1 ++ es2)
  = (autoSubmitCalls i es1 + autoSubmitCalls i es2)%nat.
Proof. unfold autoSubmitCalls. by rewrite List.filter_app, length_app. Qed.

Lemma notifyViolation_no_autosubmit cbs idx entry count max i :
  autoSubmitCalls i (notifyViolation cbs idx entry count max).1 = 0%nat.
Proof.
  revert idx. induction cbs as [|cb cbs IH]; intros idx; simpl; [done|].
  destruct (cb entry count max); [|done].
  specialize (IH (S idx)).
  by destruct (notifyViolation cbs (S idx) entry count max).
Qed.

Lemma notifyViolation_returns cbs idx entry count max :
  Spec.subscribersReturn cbs ->
  (notifyViolation cbs idx entry count max).2 = Returned.
Proof.
  revert idx. induction cbs as [|cb cbs IH]; intros idx Hret; simpl; [done|].
  rewrite (Hret cb (or_introl eq_refl)).
  specialize (IH (S idx) (fun cb' H => Hret cb' (or_intror H))).
  by destruct (notifyViolation cbs (S idx) entry count max).
Qed.

(** Every violation subscriber is called once when none throws. *)
Lemma notifyViolation_calls_none cbs idx entry count max j :
  (j < idx)%nat ->
  violationCalls j (notifyViolation cbs idx entry count max).1 = 0%nat.
Proof.
  revert idx. induction cbs as [|cb cbs IH]; intros idx Hj; simpl; [done|].
  specialize (IH (S idx) ltac:(lia)).
  assert (E : (idx =? j)%nat = false) by (apply Nat.eqb_neq; lia).
  destruct (cb entry count max);
    [destruct (notifyViolation cbs (S idx) entry count max)|];
    unfold violationCalls in *; simpl in *; by rewrite E.
Qed.

Lemma notifyViolation_calls_all cbs idx entry count max i :
  Spec.subscribersReturn cbs ->
  (i < length cbs)%nat ->
  violationCalls (idx + i) (notifyViolation cbs idx entry count max).1 = 1%nat.
Proof.
  revert idx i. induction cbs as [|cb cbs IH]; intros idx i Hret Hi; simpl in *;
    [lia|].
  rewrite (Hret cb (or_introl eq_refl)).
  assert (Hret' : Spec.subscribersReturn cbs)
    by (intros cb' H; apply Hret; by right).
  destruct i as [|i].
  - pose proof (notifyViolation_calls_none cbs (S idx) entry count max (idx + 0)
                  ltac:(lia)) as H0.
    destruct (notifyViolation cbs (S idx) entry count max).
    unfold violationCalls in *; simpl in *.
    replace (idx =? idx + 0)%nat with true by (symmetry; apply Nat.eqb_eq; lia).
    simpl. by rewrite H0.
  - specialize (IH (S idx) i Hret' ltac:(lia)).
    replace (S idx + i)%nat with (idx + S i)%nat in IH by lia.
    destruct (notifyViolation cbs (S idx) entry count max).
    unfold violationCalls in *; simpl in *.
    replace (idx =? idx + S i)%nat with false by (symmetry; apply Nat.eqb_neq; lia).
    exact IH.
Qed.

(** Every auto-submit subscriber is called once, whether or not some of
    them throw. *)
Lemma notifyAutoSubmit_calls_none cbs idx j :
  (j < idx)%nat -> autoSubmitCalls j (notifyAutoSubmit cbs idx) = 0%nat.
Proof.
  revert idx. induction cbs as [|cb cbs IH]; intros idx Hj; simpl; [done|].
  specialize (IH (S idx) ltac:(lia)).
  assert (E : (idx =? j)%nat = false) by (apply Nat.eqb_neq; lia).
  unfold autoSubmitCalls in *; simpl. rewrite E. by destruct cb.
Qed.

Lemma notifyAutoSubmit_calls_all cbs idx i :
  (i < length cbs)%nat ->
  autoSubmitCalls (idx + i) (notifyAutoSubmit cbs idx) = 1%nat.
Proof.
  revert idx i. induction cbs as [|cb cbs IH]; intros idx i Hi; simpl in *; [lia|].
  destruct i as [|i].
  - pose proof (notifyAutoSubmit_calls_none cbs (S idx) (idx + 0) ltac:(lia)) as H0.
    unfold autoSubmitCalls in *; simpl.
    replace (idx =? idx + 0)%nat with true by (symmetry; apply Nat.eqb_eq; lia).
    destruct cb; simpl; by rewrite H0.
  - specialize (IH (S idx) i ltac:(lia)).
    replace (S idx + i)%nat with (idx + S i)%nat in IH by lia.
    unfold autoSubmitCalls in *; simpl.
    replace (idx =? idx + S i)%nat with false by (symmetry; apply Nat.eqb_neq; lia).
    by destruct cb.
Qed.

(** Each subscriber that throws is logged. *)
Lemma notifyAutoSubmit_logs cbs idx err :
  In (Threw err) cbs -> In (ConsoleError err) (notifyAutoSubmit cbs idx).
Proof.
  revert idx. induction cbs as [|cb cbs IH]; intros idx; simpl; [done|].
  intros [->|H]; [right; by left|].
  right. destruct cb; [|right]; by apply IH.
Qed.

(** The auto-submit half of the isolation property: from an active
    module that is not yet submitting, [_triggerAutoSubmit] moves to the
    submitting state, calls each subscriber exactly once and logs every
    exception. *)
Lemma triggerAutoSubmit_isolated w :
  isActive (state w) = true -> isSubmitting (state w) = false ->
  let w' := _triggerAutoSubmit w in
  isSubmitting (state w') = true /\ isActive (state w') = false
  /\ effects w' = effects w ++ notifyAutoSubmit (onAutoSubmit (callbacks w)) 0
  /\ (forall i, (i < length (onAutoSubmit (callbacks w)))%nat ->
        autoSubmitCalls i (effects w') = S (autoSubmitCalls i (effects w)))
  /\ (forall err, In (Threw err) (onAutoSubmit (callbacks w)) ->
        In (ConsoleError err) (effects w')).
Proof.
  intros Ha Hs. unfold _triggerAutoSubmit. rewrite Ha, Hs. simpl.
  repeat split.
  - intros i Hi. rewrite autoSubmitCalls_app.
    pose proof (notifyAutoSubmit_calls_all _ 0 i Hi) as E. simpl in E.
    rewrite E. lia.
  - intros err Hin. apply in_or_app. right. by apply notifyAutoSubmit_logs.
Qed.

Lemma pageRequests_cons el ev evs :
  Spec.pageRequests el (ev :: evs)
  = Spec.pageRequests el [ev] ++ Spec.pageRequests el evs.
Proof.
  unfold Spec.pageRequests. destruct el; [|done]. simpl.
  by destruct (Spec.isFullscreenCall ev).
Qed.

Lemma pageRequests_no_calls el evs i :
  autoSubmitCalls i (Spec.pageRequests el evs) = 0%nat
  /\ violationCalls i (Spec.pageRequests el evs) = 0%nat.
Proof.
  unfold Spec.pageRequests. destruct el; [|done].
  induction (List.filter Spec.isFullscreenCall evs) as [|ev l IH]; [done|].
  simpl. apply IH.
Qed.

(** No step changes the container. *)
Lemma step_container ev w :
  containerElement (config (step ev w)) = containerElement (config w).
Proof.
  assert (Hlog : forall ty now stamp,
             containerElement (config (settle (_logViolation ty now stamp w)))
             = containerElement (config w)).
  { intros ty now stamp. unfold _logViolation.
    destruct (_ || _); [done|]. destruct (_ && _); [done|].
    destruct (_ <? _); [done|].
    destruct (notifyViolation _ _ _ _ _) as [es [|err]]; simpl;
      [|by rewrite showWarning_config].
    set (w3 := emit es _).
    assert (H3 : config w3 = config w)
      by (subst w3; simpl; by rewrite showWarning_config).
    set (w4 := if _ && _ then _enforceFullscreen w3 else w3).
    assert (H4 : config w4 = config w).
    { subst w4. destruct (_ && _); [|done].
      by destruct (enforceFullscreen_ledger w3) as (_ & _ & _ & _ & _ & -> & _). }
    destruct (autoSubmitOnViolation (config w4) && _); cbv [settle];
      [|by rewrite H4].
    unfold _triggerAutoSubmit. destruct (_ || _); [by rewrite H4|].
    change (containerElement (config w4) = containerElement (config w)).
    by rewrite H4. }
  destruct ev as [hidden now stamp|hidden now stamp|inFs now stamp|ty now stamp
                 | |ok|cb|cb|b| |]; simpl.
  - destruct (listening w); [|done]. unfold visibilityChange.
    destruct (hidden && _); [apply Hlog|done].
  - destruct (listening w); [|done]. unfold blur.
    destruct (negb hidden && _); [apply Hlog|done].
  - destruct (listening w); [|done]. unfold fullscreenChange.
    destruct (negb inFs && _ && _ && _); [apply Hlog|].
    by destruct (inFs && _).
  - apply Hlog.
  - destruct (pendingTimeouts w); [done|]. unfold reentryTimeout; simpl.
    destruct (isActive (state w) && _); [|done].
    destruct (containerElement (config w)) eqn:Hel; simpl; by rewrite ?Hel.
  - by destruct (pendingRequests w).
  - done.
  - done.
  - done.
  - done.
  - unfold requestFullscreen.
    destruct (containerElement (config w)) eqn:Hel; simpl; by rewrite ?Hel.
Qed.

(** Once submitting, always submitting: no step records a violation or
    calls a subscriber, and nothing is done to the outside except by the
    page's own calls of [requestFullscreen()]. *)
Lemma submitting_step ev w :
  isSubmitting (state w) = true ->
  isSubmitting (state (step ev w)) = true
  /\ Spec.ledgerUnchanged w (step ev w)
  /\ effects (step ev w)
     = effects w ++ Spec.pageRequests (containerElement (config w)) [ev].
Proof.
  intros Hs. unfold Spec.ledgerUnchanged, Spec.pageRequests.
  destruct ev as [hidden now stamp|hidden now stamp|inFs now stamp|ty now stamp
                 | |ok|cb|cb|b| |]; simpl;
    try (destruct (containerElement (config w)) eqn:Hel; simpl;
         rewrite ?app_nil_r).
  all: try (destruct (listening w); [|done]).
  all: try (unfold visibilityChange; rewrite Hs, andb_false_r; done).
  all: try (unfold blur; rewrite Hs, andb_false_r; done).
  all: try (unfold fullscreenChange; rewrite Hs, andb_false_r;
            by destruct (inFs && _)).
  all: try (unfold triggerViolation, _logViolation; rewrite Hs, orb_true_r; done).
  all: try (destruct (pendingTimeouts w); [done|]; unfold reentryTimeout; simpl;
            rewrite Hs, andb_false_r; done).
  all: try (by destruct (pendingRequests w)).
  all: try done.
  all: unfold requestFullscreen; rewrite Hel; done.
Qed.

Lemma submitting_run evs w :
  isSubmitting (state w) = true ->
  isSubmitting (state (run evs w)) = true
  /\ Spec.ledgerUnchanged w (run evs w)
  /\ effects (run evs w)
     = effects w ++ Spec.pageRequests (containerElement (config w)) evs.
Proof.
  revert w. induction evs as [|ev evs IH]; intros w Hs; simpl.
  { unfold Spec.pageRequests. destruct (containerElement (config w)); simpl;
      by rewrite app_nil_r. }
  destruct (submitting_step ev w Hs) as (Hs1 & [Hv1 Hl1] & He1).
  destruct (IH _ Hs1) as (Hs2 & [Hv2 Hl2] & He2).
  unfold Spec.ledgerUnchanged.
  rewrite Hv2, Hl2, He2, He1, step_container, <- app_assoc.
  by rewrite <- pageRequests_cons.
Qed.

(** Every step is a call of [_logViolation] on the signal's type and
    time, or leaves the count alone. *)
Lemma step_cases ev w :
  (exists ty now stamp, step ev w = settle (_logViolation ty now stamp w))
  \/ violations (state (step ev w)) = violations (state w).
Proof.
  destruct ev as [hidden now stamp|hidden now stamp|inFs now stamp|ty now stamp| |ok|cb|cb|b| |]; simpl.
  - destruct (listening w); [|by right]. unfold visibilityChange.
    destruct (hidden && _); [|by right]. left. by exists tab_switch, now, stamp.
  - destruct (listening w); [|by right]. unfold blur.
    destruct (negb hidden && _); [|by right]. left. by exists window_blur, now, stamp.
  - destruct (listening w); [|by right]. unfold fullscreenChange.
    destruct (negb inFs && _ && _ && _).
    + left. by exists fullscreen_exit, now, stamp.
    + right. by destruct (inFs && _).
  - left. by exists ty, now, stamp.
  - right. destruct (pendingTimeouts w); [done|]. unfold reentryTimeout; simpl.
    destruct (isActive (state w) && _); [|done].
    by destruct (containerElement (config w)).
  - right. by destruct (pendingRequests w).
  - by right.
  - by right.
  - by right.
  - by right.
  - right. unfold requestFullscreen. by destruct (containerElement (config w)).
Qed.

(** What [_logViolation] does when the recorded violation reaches the
    threshold, auto-submission is on and no violation subscriber throws. *)
Lemma logViolation_crossing ty now stamp w :
  Spec.records ty now w = true ->
  autoSubmitOnViolation (config w) = true ->
  Spec.subscribersReturn (onViolation (callbacks w)) ->
  violationThreshold (config w) <= violations (state w) + 1 ->
  let r := _logViolation ty now stamp w in
  r.2 = Returned
  /\ isSubmitting (state r.1) = true /\ isActive (state r.1) = false
  /\ forall i, (i < length (onAutoSubmit (callbacks w)))%nat ->
       autoSubmitCalls i (effects r.1) = S (autoSubmitCalls i (effects w)).
Proof.
  intros Hrec Hauto Hret Hmax.
  unfold Spec.records in Hrec. unfold _logViolation.
  destruct (isActive (state w)) eqn:Ha, (isSubmitting (state w)) eqn:Hs;
    simpl in *; try done.
  destruct (isReentering (state w) && isFullscreenExit ty); simpl in *; try done.
  destruct (now - lastViolationTime (state w) <? 1000); simpl in *; try done.
  rewrite showWarning_callbacks. simpl.
  pose proof (notifyViolation_returns (onViolation (callbacks w)) 0
                {| type := ty; timestamp := stamp |} (violations (state w) + 1)
                (violationThreshold (config w)) Hret) as Hc.
  pose proof (fun i => notifyViolation_no_autosubmit (onViolation (callbacks w)) 0
                {| type := ty; timestamp := stamp |} (violations (state w) + 1)
                (violationThreshold (config w)) i) as Hnone.
  destruct (notifyViolation _ _ _ _ _) as [es c]. simpl in Hc, Hnone. subst c.
  destruct (Z.leb_spec (violationThreshold (config w)) (violations (state w) + 1));
    [|lia].
  rewrite andb_false_r. simpl. rewrite showWarning_config. simpl.
  rewrite Hauto. simpl.
  set (w3 := emit es _).
  assert (Ha3 : isActive (state w3) = true)
    by (subst w3; simpl; by rewrite showWarning_state).
  assert (Hs3 : isSubmitting (state w3) = false)
    by (subst w3; simpl; by rewrite showWarning_state).
  destruct (triggerAutoSubmit_isolated w3 Ha3 Hs3) as (H1 & H2 & _ & H4 & _).
  assert (Hcb : callbacks w3 = callbacks w)
    by (subst w3; simpl; by rewrite showWarning_callbacks).
  rewrite Hcb in H4.
  repeat split; try done.
  intros i Hi. rewrite (H4 i Hi). f_equal.
  subst w3. simpl. rewrite autoSubmitCalls_app, Hnone.
  unfold _showWarning. simpl. destruct (negb (enableWarnings (config w))); simpl.
  - lia.
  - rewrite autoSubmitCalls_app. unfold autoSubmitCalls at 2. simpl. lia.
Qed.

(** With subscribers that return, reaching the threshold fires the
    auto-submit subscribers once each and enters the submitting state. *)
Lemma threshold_crossing_submits (w : World) (ev : Event) :
  autoSubmitOnViolation (config w) = true ->
  Spec.subscribersReturn (onViolation (callbacks w)) ->
  violations (state w) < violationThreshold (config w) ->
  violationThreshold (config w) <= violations (state (step ev w)) ->
  isSubmitting (state (step ev w)) = true
  /\ isActive (state (step ev w)) = false
  /\ forall i, (i < length (onAutoSubmit (callbacks w)))%nat ->
       autoSubmitCalls i (effects (step ev w)) = S (autoSubmitCalls i (effects w)).
Proof.
  intros Hauto Hret Hbelow Hreach.
  destruct (step_cases ev w) as [(ty & now & stamp & E)|E]; [|lia].
  rewrite E in *. rewrite settle_state in Hreach.
  destruct (Spec.records ty now w) eqn:Hrec.
  2: { rewrite (logViolation_skips ty now stamp w Hrec) in Hreach. simpl in Hreach. lia. }
  destruct (logViolation_records ty now stamp w Hrec) as (Hv & _).
  rewrite Hv in Hreach.
  destruct (logViolation_crossing ty now stamp w Hrec Hauto Hret Hreach)
    as (Hc & Hs & Ha & Hcalls).
  rewrite (settle_effects_returned _ Hc). done.
Qed.

End AutoSubmit.

Section MonitorClaims.
Import JS Integrity.

(** With subscribers that return: the step that reaches the threshold
    calls every auto-submit subscriber once, and nothing that happens
    later in the session records a violation or calls them again. *)
Lemma autosubmit_once_then_frozen (w : World) (ev : Event) (later : list Event) :
  autoSubmitOnViolation (config w) = true ->
  Spec.subscribersReturn (onViolation (callbacks w)) ->
  violations (state w) < violationThreshold (config w) ->
  violationThreshold (config w) <= violations (state (step ev w)) ->
  let w1 := step ev w in
  let w2 := run later w1 in
  Spec.ledgerUnchanged w1 w2
  /\ isSubmitting (state w2) = true
  /\ forall i, (i < length (onAutoSubmit (callbacks w)))%nat ->
       autoSubmitCalls i (effects w2) = S (autoSubmitCalls i (effects w)).
Proof.
  intros Hauto Hret Hbelow Hreach w1 w2.
  destruct (threshold_crossing_submits w ev Hauto Hret Hbelow Hreach)
    as (Hs & _ & Hcalls).
  destruct (submitting_run later w1 Hs) as (Hs2 & Hl & He).
  repeat split; try apply Hl; try done.
  intros i Hi. subst w2. rewrite He, autoSubmitCalls_app.
  destruct (pageRequests_no_calls (containerElement (config w1)) later i) as [-> _].
  rewrite Nat.add_0_r. by apply Hcalls.
Qed.

(** C1 fails on the code when a violation subscriber throws.  Threshold 1,
    auto-submission on, one violation subscriber that throws and one
    auto-submit subscriber.  The tab switch at 5000 is recorded and brings
    the count to the threshold, the subscriber's exception leaves
    [_logViolation] before [_triggerAutoSubmit] is reached: the auto-submit
    subscriber is not called, the module is not submitting, and the window
    blur at 7000 is recorded as a second violation. *)
Theorem throwing_subscriber_blocks_autosubmit :
  let w0 := run [OnViolation Scenario.throwing; OnAutoSubmit Returned]
                (Scenario.monitor 1) in
  let w1 := step (VisibilityChange true 5000 5000) w0 in
  let w2 := step (Blur false 7000 7000) w1 in
  autoSubmitOnViolation (config w0) = true
  /\ violationThreshold (config w0) = 1
  /\ violations (state w1) = 1
  /\ autoSubmitCalls 0 (effects w1) = 0%nat
  /\ isSubmitting (state w1) = false
  /\ violations (state w2) = 2
  /\ violationLog (state w2)
     = [ {| type := tab_switch; timestamp := 5000 |};
         {| type := window_blur; timestamp := 7000 |} ]
  /\ autoSubmitCalls 0 (effects w2) = 0%nat.
Proof. repeat split; reflexivity. Qed.

(** C4 fails on the code for violation subscribers: their loop has no
    [try].  Of two violation subscribers the first throws: the exception
    leaves [_logViolation], the second subscriber is never called, and
    although the count has reached the threshold the module neither
    enters the submitting state nor calls the auto-submit subscriber. *)
Theorem violation_subscriber_exception_escapes :
  let w0 := run [OnViolation Scenario.throwing; OnViolation Scenario.quiet;
                 OnAutoSubmit Returned] (Scenario.monitor 1) in
  let r := triggerViolation tab_switch 5000 5000 w0 in
  r.2 = Threw "subscriber failed"
  /\ violationCalls 0 (effects r.1) = 1%nat
  /\ violationCalls 1 (effects r.1) = 0%nat
  /\ violations (state r.1) = 1
  /\ violationThreshold (config r.1) = 1
  /\ isSubmitting (state r.1) = false
  /\ autoSubmitCalls 0 (effects r.1) = 0%nat.
Proof. repeat split; reflexivity. Qed.

(** C7, as stated, is false: re-entry is attempted only if the module is
    still active when the delay ends.  A fullscreen exit at 5000 is
    recorded as violation 1 of 3 and sets the flag; the module is
    destroyed before the timer fires; the timer then clears the flag and
    no fullscreen request is ever issued. *)
Lemma no_reentry_attempt_after_destroy :
  let w0 := Scenario.monitor 3 in
  let w1 := step (FullscreenChange false 5000 5000) w0 in
  let w2 := run [Destroy; ReentryTimeout] w1 in
  violations (state w1) = 1
  /\ violationLog (state w1) = [ {| type := fullscreen_exit; timestamp := 5000 |} ]
  /\ violations (state w1) < violationThreshold (config w1)
  /\ isReentering (state w1) = true
  /\ pendingTimeouts w1 = 1%nat
  /\ pendingTimeouts w2 = 0%nat
  /\ isReentering (state w2) = false
  /\ reentryRequests (effects w2) = 0%nat.
Proof. repeat split; reflexivity. Qed.

(** C7, amended: when a fullscreen exit is recorded with the count below
    the threshold and the violation subscribers return, the module sets
    the re-entering flag and starts a 200 ms timer.  When a timer fires,
    a module that is still active and not submitting requests fullscreen
    (if the element can) and clears the flag when the request succeeds or
    fails; otherwise it clears the flag without a request.  While the
    flag is set, no fullscreen-change signal and no fullscreen-exit
    violation changes the count or the ledger. *)
Theorem fullscreen_reentry (w : World) (now stamp : Z) :
  Spec.records fullscreen_exit now w = true ->
  violations (state w) + 1 < violationThreshold (config w) ->
  (_logViolation fullscreen_exit now stamp w).2 = Returned ->
  let w1 := (_logViolation fullscreen_exit now stamp w).1 in
  (isReentering (state w1) = true
   /\ pendingTimeouts w1 = S (pendingTimeouts w)
   /\ exists es, effects w1 = effects w ++ es ++ [SetTimeout 200])
  /\ (forall w2 : World,
        pendingTimeouts w2 <> 0%nat ->
        let w3 := step ReentryTimeout w2 in
        if isActive (state w2) && negb (isSubmitting (state w2)) then
          match containerElement (config w2) with
          | WithRequestFullscreen =>
              effects w3 = effects w2 ++ [RequestFullscreen]
              /\ pendingRequests w3 = S (pendingRequests w2)
              /\ forall ok, isReentering (state (step (RequestSettled ok) w3)) = false
          | WithoutRequestFullscreen =>
              effects w3 = effects w2 /\ isReentering (state w3) = false
          end
        else effects w3 = effects w2 /\ isReentering (state w3) = false)
  /\ (forall (w2 : World) (isInFullscreen : bool) (now2 stamp2 : Z),
        isReentering (state w2) = true ->
        Spec.ledgerUnchanged w2
          (step (FullscreenChange isInFullscreen now2 stamp2) w2)
        /\ Spec.ledgerUnchanged w2
             (step (TriggerViolation fullscreen_exit now2 stamp2) w2)).
Proof.
  intros Hrec Hbelow Hc w1. split; [|split].
  - subst w1. revert Hc. unfold Spec.records in Hrec. unfold _logViolation.
    destruct (isActive (state w)) eqn:Ha, (isSubmitting (state w)) eqn:Hs;
      simpl in *; try done.
    destruct (isReentering (state w)) eqn:Hr; simpl in *; try done.
    destruct (now - lastViolationTime (state w) <? 1000); simpl in *; try done.
    destruct (notifyViolation _ _ _ _ _) as [es [|err]]; simpl; [|done].
    intros _.
    destruct (Z.leb_spec (violationThreshold (config w)) (violations (state w) + 1));
      [lia|]. simpl.
    unfold _enforceFullscreen. simpl. rewrite showWarning_state. simpl.
    rewrite andb_false_r. simpl.
    repeat split.
    + unfold _showWarning. by destruct (negb _).
    + unfold _showWarning. destruct (negb _); simpl.
      * exists es. by rewrite app_assoc.
      * eexists (_ :: es). rewrite <- !app_assoc. reflexivity.
  - intros w2 Hpending w3. subst w3. simpl.
    destruct (pendingTimeouts w2) as [|n]; [done|].
    unfold reentryTimeout. simpl.
    destruct (isActive (state w2) && negb (isSubmitting (state w2))); [|done].
    destruct (containerElement (config w2)); done.
  - intros w2 inFs now2 stamp2 Hr. unfold Spec.ledgerUnchanged. split.
    + simpl. destruct (listening w2); [|done]. unfold fullscreenChange.
      rewrite Hr. simpl. rewrite !andb_false_r. simpl.
      rewrite andb_true_r. by destruct inFs.
    + simpl. unfold triggerViolation, _logViolation. rewrite Hr. simpl.
      by destruct (negb (isActive (state w2)) || isSubmitting (state w2)).
Qed.

Lemma fullscreen_reentry_witness :
  let w1 := (_logViolation fullscreen_exit 5000 5000 (Scenario.monitor 3)).1 in
  isReentering (state w1) = true
  /\ pendingTimeouts w1 = 1%nat
  /\ exists es, effects w1 = effects (Scenario.monitor 3) ++ es ++ [SetTimeout 200].
Proof.
  apply (fullscreen_reentry (Scenario.monitor 3) 5000 5000);
    [reflexivity | reflexivity | reflexivity].
Defined.

End MonitorClaims.

(** ** Submission ids *)

Section SubmissionId.
Import JS Sheets.

Lemma append_cons c s t : String c s +:+ t = String c (s +:+ t).
Proof. reflexivity. Qed.

Lemma append_nil t : "" +:+ t = t.
Proof. reflexivity. Qed.

Lemma year_toString y : 1000 <= y <= 9999 -> toString y = Spec.fourDigits y.
Proof.
  intros Hy.
  assert (H : forallb (fun y => String.eqb (toString y) (Spec.fourDigits y))
                (seqZ 1000 9000) = true) by (vm_compute; reflexivity).
  rewrite forallb_forall in H. apply String.eqb_eq, H.
  apply list_elem_of_In, elem_of_seqZ. lia.
Qed.

Lemma small_toString k : 0 <= k <= 99 -> padStart2 (toString k) = Spec.twoDigits k.
Proof.
  intros Hk.
  assert (H : forallb (fun k => String.eqb (padStart2 (toString k)) (Spec.twoDigits k))
                (seqZ 0 100) = true) by (vm_compute; reflexivity).
  rewrite forallb_forall in H. apply String.eqb_eq, H.
  apply list_elem_of_In, elem_of_seqZ. lia.
Qed.

Lemma digit_isDigit d : 0 <= d <= 9 -> Spec.isDigit (Spec.digit d) = true.
Proof.
  intros Hd.
  assert (H : forallb (fun d => Spec.isDigit (Spec.digit d)) (seqZ 0 10) = true)
    by (vm_compute; reflexivity).
  rewrite forallb_forall in H. apply H, list_elem_of_In, elem_of_seqZ. lia.
Qed.

Lemma charAt_chars k :
  0 <= k < 36 ->
  exists c, charAt chars k = String c "" /\ Spec.isUpperOrDigit c = true.
Proof.
  intros Hk.
  assert (H : forallb (fun k => match charAt chars k with
                                | String c EmptyString => Spec.isUpperOrDigit c
                                | _ => false
                                end) (seqZ 0 36) = true)
    by (vm_compute; reflexivity).
  rewrite forallb_forall in H.
  specialize (H k ltac:(apply list_elem_of_In, elem_of_seqZ; lia)).
  destruct (charAt chars k) as [|c [|]]; try discriminate. by exists c.
Qed.

Lemma floorScaled_range r : Spec.unitDraw r -> 0 <= floorScaled r 36 < 36.
Proof.
  intros [H0 H1]. unfold floorScaled. split.
  - rewrite <- (Qfloor_Z 0). apply Qfloor_resp_le.
    change (inject_Z 0) with (0 * inject_Z 36)%Q.
    apply Qmult_le_compat_r; [exact H0|done].
  - rewrite Zlt_Qlt. eapply Qle_lt_trans; [apply Qfloor_le|].
    change (inject_Z 36) with (1 * inject_Z 36)%Q at 2.
    apply Qmult_lt_compat_r; [done|exact H1].
Qed.

Lemma random_char (random : nat -> Q) (i : nat) :
  Spec.unitDraw (random i) ->
  exists c, charAt chars (floorScaled (random i) (Z.of_nat (String.length chars)))
            = String c "" /\ Spec.isUpperOrDigit c = true.
Proof. intros H. apply charAt_chars. by apply floorScaled_range. Qed.

(** C10: for a clock whose year has four digits, and draws in [0, 1),
    the submission id is "SUB-", the date as YYYYMMDD (eight decimal
    digits), "-", and six characters among A-Z and 0-9: 19 characters. *)
Theorem submission_id_format (now : Clock) (random : nat -> Q) :
  1000 <= fullYear now <= 9999 ->
  0 <= month now <= 11 ->
  1 <= date now <= 31 ->
  (forall i : nat, Spec.unitDraw (random i)) ->
  exists randomPart : string,
    generateSubmissionId now random
    = "SUB-" +:+ Spec.yyyymmdd now +:+ "-" +:+ randomPart
    /\ String.length (generateSubmissionId now random) = 19%nat
    /\ String.length (Spec.yyyymmdd now) = 8%nat
    /\ Spec.allChars Spec.isDigit (Spec.yyyymmdd now) = true
    /\ String.length randomPart = 6%nat
    /\ Spec.allChars Spec.isUpperOrDigit randomPart = true.
Proof.
  intros Hy Hm Hd Hr. unfold generateSubmissionId.
  rewrite (year_toString _ Hy), (small_toString (month now + 1)) by lia.
  rewrite (small_toString (date now)) by lia.
  cbn [randomChars].
  destruct (random_char random 0 (Hr _)) as (c0 & -> & H0).
  destruct (random_char random 1 (Hr _)) as (c1 & -> & H1).
  destruct (random_char random 2 (Hr _)) as (c2 & -> & H2).
  destruct (random_char random 3 (Hr _)) as (c3 & -> & H3).
  destruct (random_char random 4 (Hr _)) as (c4 & -> & H4).
  destruct (random_char random 5 (Hr _)) as (c5 & -> & H5).
  eexists. split; [reflexivity|].
  split; [reflexivity|]. split; [reflexivity|].
  split.
  - unfold Spec.allChars, Spec.yyyymmdd, Spec.fourDigits, Spec.twoDigits.
    rewrite !append_cons, !append_nil. cbn [list_ascii_of_string forallb].
    rewrite !digit_isDigit; [done|..].
    all: try (split; [apply Z.mod_pos_bound; lia|];
              pose proof (Z.mod_pos_bound (date now) 10 ltac:(lia));
              pose proof (Z.mod_pos_bound (month now + 1) 10 ltac:(lia));
              pose proof (Z.mod_pos_bound (fullYear now) 10 ltac:(lia));
              pose proof (Z.mod_pos_bound (fullYear now / 10) 10 ltac:(lia));
              pose proof (Z.mod_pos_bound (fullYear now / 100) 10 ltac:(lia));
              lia).
    all: split; [apply Z.div_pos; lia|];
         apply Z.lt_succ_r, Z.div_lt_upper_bound; lia.
  - split; [reflexivity|]. unfold Spec.allChars.
    repeat first [rewrite append_nil | rewrite append_cons].
    cbn [list_ascii_of_string forallb].
    by rewrite H0, H1, H2, H3, H4, H5.
Qed.

End SubmissionId.

Lemma submission_id_format_witness :
  exists randomPart : string,
    Sheets.generateSubmissionId Scenario.clock Scenario.draws
    = "SUB-" +:+ Spec.yyyymmdd Scenario.clock +:+ "-" +:+ randomPart
    /\ String.length (Sheets.generateSubmissionId Scenario.clock Scenario.draws)
       = 19%nat
    /\ String.length (Spec.yyyymmdd Scenario.clock) = 8%nat
    /\ Spec.allChars Spec.isDigit (Spec.yyyymmdd Scenario.clock) = true
    /\ String.length randomPart = 6%nat
    /\ Spec.allChars Spec.isUpperOrDigit randomPart = true.
Proof.
  apply (submission_id_format Scenario.clock Scenario.draws);
    [simpl; lia | simpl; lia | simpl; lia |].
  intros i. unfold Spec.unitDraw, Scenario.draws.
  destruct i as [|[|[|i]]]; split; unfold Qle, Qlt; simpl; lia.
Defined.

Example submission_id_example :
  Sheets.generateSubmissionId Scenario.clock Scenario.draws = "SUB-20261103-AS9MMM".
Proof. vm_compute. reflexivity. Qed.

(** ** Submitting a session *)

Section Submission.
Import JS Script.

Lemma built_app (es1 es2 : list Effect) :
  length (List.filter isBuild (es1 ++ es2))
  = (length (List.filter isBuild es1) + length (List.filter isBuild es2))%nat.
Proof. by rewrite List.filter_app, length_app. Qed.

Lemma sent_app (es1 es2 : list Effect) :
  length (List.filter isSheetsSubmit (es1 ++ es2))
  = (length (List.filter isSheetsSubmit es1)
     + length (List.filter isSheetsSubmit es2))%nat.
Proof. by rewrite List.filter_app, length_app. Qed.

(** A call on a submitted session returns at once. *)
Lemma submitExam_submitted now random isAuto submissionType w :
  isSubmitted (state w) = true ->
  submitExam now random isAuto submissionType w = (w, Returned).
Proof. intros H. unfold submitExam. by rewrite H. Qed.

(** C2: on a session with an exam loaded and not yet submitted, the
    first call of [submitExam] returns with the flag set, one result
    built and (when the submitter module is loaded) one call of
    [SheetsSubmitter.submit]; a second call, whatever its arguments,
    changes nothing: the flag has gone from false to true once, one
    result was built and the sink was called once. *)
Theorem submit_twice_submits_once (w : World) (e : Exam.t)
    (now1 now2 : Clock) (random1 random2 : nat -> Q) (isAuto1 isAuto2 : bool)
    (type1 type2 : string) :
  exam (state w) = Some e ->
  isSubmitted (state w) = false ->
  let r1 := submitExam now1 random1 isAuto1 type1 w in
  let r2 := submitExam now2 random2 isAuto2 type2 r1.1 in
  r1.2 = Returned
  /\ isSubmitted (state r1.1) = true
  /\ r2 = (r1.1, Returned)
  /\ resultsBuilt r2.1 = S (resultsBuilt w)
  /\ (forall c, sheets w = Some c -> sinkCalls r2.1 = S (sinkCalls w))
  /\ (sheets w = None -> sinkCalls r2.1 = sinkCalls w).
Proof.
  intros He Hs r1 r2.
  assert (H1 : r1.2 = Returned /\ isSubmitted (state r1.1) = true
               /\ resultsBuilt r1.1 = S (resultsBuilt w)
               /\ (forall c, sheets w = Some c -> sinkCalls r1.1 = S (sinkCalls w))
               /\ (sheets w = None -> sinkCalls r1.1 = sinkCalls w)).
  { subst r1. unfold submitExam. rewrite Hs, He.
    destruct (computeScoring e (answers (state w))) as [arr sc].
    unfold resultsBuilt, sinkCalls. cbn [fst snd state effects isSubmitted].
    rewrite built_app, sent_app.
    repeat split.
    - destruct (sheets w); simpl; lia.
    - intros c ->. simpl. lia.
    - intros ->. simpl. lia. }
  destruct H1 as (Hret & Hflag & Hbuilt & Hsent & Hnone).
  assert (H2 : r2 = (r1.1, Returned)) by by apply submitExam_submitted.
  rewrite H2. done.
Qed.

Lemma submit_twice_submits_once_witness :
  let r1 := submitExam Scenario.clock Scenario.draws true "auto-violation"
              Scenario.session in
  let r2 := submitExam Scenario.clock Scenario.draws false "manual" r1.1 in
  r1.2 = Returned
  /\ isSubmitted (state r1.1) = true
  /\ r2 = (r1.1, Returned)
  /\ resultsBuilt r2.1 = 1%nat
  /\ sinkCalls r2.1 = 1%nat.
Proof.
  destruct (submit_twice_submits_once Scenario.session Scenario.examA
              Scenario.clock Scenario.clock Scenario.draws Scenario.draws
              true false "auto-violation" "manual" eq_refl eq_refl)
    as (H1 & H2 & H3 & H4 & H5 & _).
  split; [exact H1|]. split; [exact H2|]. split; [exact H3|].
  split; [exact H4|]. exact (H5 Scenario.sheetsConfig eq_refl).
Defined.

End Submission.

(** ** Restoring a snapshot *)

Section Restore.
Import JS Script.

Variable parse : string -> option Json.

Lemma length_pos_not_empty s :
  (0 <? String.length s)%nat = negb (String.eqb s "").
Proof. by destruct s. Qed.

(** The validity test accepts only payloads with an exam id and a
    student name. *)
Lemma isValidSession_sound parsed :
  isValidSession parsed = true ->
  Spec.hasExamId parsed = true /\ Spec.hasStudentName parsed = true.
Proof.
  unfold isValidSession, Spec.hasExamId, Spec.hasStudentName.
  destruct (truthy (Some parsed)); simpl; [|done].
  destruct (truthy (getProp parsed "exam")); simpl; [|done].
  destruct (truthy (getProp parsed "exam" ≫= _)); simpl; [|done].
  destruct (truthy (getProp parsed "student")); simpl; [|done].
  destruct (getProp parsed "student" ≫= _) as [[| | |n| |]|]; try done.
  by rewrite length_pos_not_empty.
Qed.

(** An empty stored string is read as "nothing stored". *)
Lemma empty_snapshot_untouched w :
  localStorage w !! STORAGE_KEY = Some "" -> initResumeDetection parse w = w.
Proof. intros H. unfold initResumeDetection. by rewrite H. Qed.

(** C8, amended: a stored payload that is not the empty string and that
    does not parse, or parses to a value without an exam id or without a
    student name that is non-empty after trimming, is rejected: the
    session state and the page are left as they were (nothing is offered
    for resumption) and the snapshot is removed from the storage.  A
    stored empty string is taken for no snapshot: nothing at all changes. *)
Theorem invalid_snapshot_is_discarded (w : World) (saved : string) :
  localStorage w !! STORAGE_KEY = Some saved ->
  saved <> "" ->
  (forall parsed, parse saved = Some parsed ->
     Spec.hasExamId parsed = false \/ Spec.hasStudentName parsed = false) ->
  let w' := initResumeDetection parse w in
  (state w' = state w
   /\ dom w' = dom w
   /\ localStorage w' = delete STORAGE_KEY (localStorage w)
   /\ localStorage w' !! STORAGE_KEY = None)
  /\ (forall w0 : World,
        localStorage w0 !! STORAGE_KEY = Some "" ->
        initResumeDetection parse w0 = w0).
Proof.
  intros Hsaved Hne Hlacks w'. split; [|apply empty_snapshot_untouched].
  subst w'. unfold initResumeDetection.
  rewrite Hsaved.
  destruct (String.eqb_spec saved ""); [done|].
  destruct (parse saved) as [parsed|] eqn:Hp; simpl.
  - destruct (isValidSession parsed) eqn:Hv; simpl.
    + destruct (isValidSession_sound parsed Hv) as [H1 H2].
      destruct (Hlacks parsed eq_refl); congruence.
    + repeat split. unfold clearActiveState. apply lookup_delete_eq.
  - repeat split. unfold clearActiveState. apply lookup_delete_eq.
Qed.

End Restore.

(** C8, as stated, is false for the empty payload: a stored empty string
    has no exam id, yet [initResumeDetection] returns before touching the
    storage and the stored value stays. *)
Lemma empty_snapshot_is_kept :
  let w := Scenario.loginPage (<[Script.STORAGE_KEY := ""]> ∅) in
  let w' := Script.initResumeDetection Scenario.parse w in
  Scenario.parse "" = None
  /\ Script.localStorage w' !! Script.STORAGE_KEY = Some ""
  /\ w' = w.
Proof. repeat split; reflexivity. Qed.

Lemma invalid_snapshot_is_discarded_witness :
  let w := Scenario.loginPage (<[Script.STORAGE_KEY := "blank-name"]> ∅) in
  let w' := Script.initResumeDetection Scenario.parse w in
  Script.state w' = Script.state w
  /\ Script.dom w' = Script.dom w
  /\ Script.localStorage w' = delete Script.STORAGE_KEY (Script.localStorage w)
  /\ Script.localStorage w' !! Script.STORAGE_KEY = None.
Proof.
  apply (invalid_snapshot_is_discarded Scenario.parse
           (Scenario.loginPage (<[Script.STORAGE_KEY := "blank-name"]> ∅))
           "blank-name").
  - reflexivity.
  - discriminate.
  - intros parsed H. injection H as <-. right. reflexivity.
Defined.

(** ** Delivering a result *)

Section Delivery.
Import JS Sheets.

Variable stringify : Result.t -> string.





End Delivery.


(** * Further properties of the monitor *)

Section Ledger.
Import JS Integrity.

(** What a step does to the state, by the recording rule. *)
Lemma step_state_cases ev w :
  (exists ty now stamp,
      Spec.records ty now w = true
      /\ violations (state (step ev w)) = violations (state w) + 1
      /\ violationLog (state (step ev w))
         = violationLog (state w) ++ [{| type := ty; timestamp := stamp |}]
      /\ lastViolationTime (state (step ev w)) = now
      /\ 1000 <= now - lastViolationTime (state w))
  \/ (violations (state (step ev w)) = violations (state w)
      /\ violationLog (state (step ev w)) = violationLog (state w)
      /\ lastViolationTime (state (step ev w)) = lastViolationTime (state w)).
Proof.
  destruct (step_ledger_cases ev w) as [(ty & now & stamp & _ & E)|H]; [|by right].
  rewrite E. destruct (Spec.records ty now w) eqn:Hrec.
  - left. exists ty, now, stamp. split; [done|]. by apply logViolation_records.
  - right. by rewrite (logViolation_skips ty now stamp w Hrec).
Qed.

Lemma init_state p w :
  state (init p w)
  = {| violations := 0; violationLog := []; isActive := true;
       lastViolationTime := 0; isReentering := false; isSubmitting := false |}.
Proof. reflexivity. Qed.

(** X1: in a session, from [init] on, the count is the length of the
    ledger. *)
Theorem count_is_ledger_length (p : ConfigPatch) (w0 : World) (evs : list Event) :
  let w := run evs (init p w0) in
  violations (state w) = Z.of_nat (length (violationLog (state w))).
Proof.
  cbn zeta.
  assert (H : forall w, violations (state w) = Z.of_nat (length (violationLog (state w))) ->
              violations (state (run evs w))
              = Z.of_nat (length (violationLog (state (run evs w))))).
  { induction evs as [|ev evs IH]; intros w Hw; simpl; [done|].
    apply IH.
    destruct (step_state_cases ev w) as [(ty & now & stamp & _ & -> & -> & _)|(-> & -> & _)];
      [|done].
    rewrite length_app. simpl. lia. }
  by apply H.
Qed.

(** A recording step takes its two readings from the signal. *)
Lemma step_stamp_cases ev w :
  (exists ty now stamp,
      signalTime ev = Some now /\ signalStamp ev = Some stamp
      /\ violationLog (state (step ev w))
         = violationLog (state w) ++ [{| type := ty; timestamp := stamp |}]
      /\ lastViolationTime (state (step ev w)) = now
      /\ 1000 <= now - lastViolationTime (state w))
  \/ (violationLog (state (step ev w)) = violationLog (state w)
      /\ lastViolationTime (state (step ev w)) = lastViolationTime (state w)).
Proof.
  assert (Hlog : forall ty now stamp,
    (violationLog (state (settle (_logViolation ty now stamp w)))
     = violationLog (state w) ++ [{| type := ty; timestamp := stamp |}]
     /\ lastViolationTime (state (settle (_logViolation ty now stamp w))) = now
     /\ 1000 <= now - lastViolationTime (state w))
    \/ (violationLog (state (settle (_logViolation ty now stamp w)))
        = violationLog (state w)
        /\ lastViolationTime (state (settle (_logViolation ty now stamp w)))
           = lastViolationTime (state w))).
  { intros ty now stamp. rewrite settle_state.
    destruct (Spec.records ty now w) eqn:Hrec.
    - left. by destruct (logViolation_records ty now stamp w Hrec) as (_ & ? & ? & ?).
    - right. by rewrite (logViolation_skips ty now stamp w Hrec). }
  destruct ev as [hidden now stamp|hidden now stamp|inFs now stamp|ty now stamp
                 | |ok|cb|cb|b| |]; simpl.
  - destruct (listening w); [|by right]. unfold visibilityChange.
    destruct (hidden && _); [|by right].
    destruct (Hlog tab_switch now stamp) as [H|H]; [left|by right].
    by exists tab_switch, now, stamp.
  - destruct (listening w); [|by right]. unfold blur.
    destruct (negb hidden && _); [|by right].
    destruct (Hlog window_blur now stamp) as [H|H]; [left|by right].
    by exists window_blur, now, stamp.
  - destruct (listening w); [|by right]. unfold fullscreenChange.
    destruct (negb inFs && _ && _ && _).
    + destruct (Hlog fullscreen_exit now stamp) as [H|H]; [left|by right].
      by exists fullscreen_exit, now, stamp.
    + right. by destruct (inFs && _).
  - unfold triggerViolation.
    destruct (Hlog ty now stamp) as [H|H]; [left|by right].
    by exists ty, now, stamp.
  - right. destruct (pendingTimeouts w); [done|]. unfold reentryTimeout; simpl.
    destruct (isActive (state w) && _); [|done].
    by destruct (containerElement (config w)).
  - right. by destruct (pendingRequests w).
  - by right.
  - by right.
  - by right.
  - by right.
  - right. unfold requestFullscreen. by destruct (containerElement (config w)).
Qed.

Lemma wellSpaced_snoc gap prev log entry :
  Spec.wellSpaced gap prev log ->
  Spec.lastTimeFrom prev log + gap <= timestamp entry ->
  Spec.wellSpaced gap prev (log ++ [entry]).
Proof.
  revert prev. induction log as [|e log IH]; intros prev; simpl.
  - intros _ H. done.
  - intros [H1 H2] H3. split; [done|]. by apply IH.
Qed.

Lemma lastTimeFrom_snoc prev log entry :
  Spec.lastTimeFrom prev (log ++ [entry]) = timestamp entry.
Proof. unfold Spec.lastTimeFrom. by rewrite fold_left_app. Qed.

Lemma wellSpaced_consecutive gap prev log i a b :
  Spec.wellSpaced gap prev log ->
  log !! i = Some a -> log !! S i = Some b ->
  timestamp a + gap <= timestamp b.
Proof.
  revert prev i. induction log as [|e log IH]; intros prev i; [done|].
  intros [H1 H2] Ha Hb. destruct i as [|i].
  - simpl in Ha. injection Ha as ->. destruct log as [|e' log']; [done|].
    simpl in Hb. injection Hb as ->. by destruct H2.
  - simpl in Ha, Hb. by eapply IH.
Qed.

Lemma wellSpaced_first gap prev log a :
  Spec.wellSpaced gap prev log -> log !! 0%nat = Some a ->
  prev + gap <= timestamp a.
Proof. destruct log as [|e log]; [done|]. simpl. by intros [H _] [= ->]. Qed.

(** The stamps trail the debounce readings by at most [delta], so they
    keep a distance of [1000 - delta]. *)
Lemma spacing_invariant delta evs : forall w,
  Forall (Spec.stampedWithin delta) evs ->
  Spec.wellSpaced (1000 - delta) delta (violationLog (state w)) ->
  Spec.lastTimeFrom delta (violationLog (state w))
  <= lastViolationTime (state w) + delta ->
  Spec.wellSpaced (1000 - delta) delta (violationLog (state (run evs w)))
  /\ Spec.lastTimeFrom delta (violationLog (state (run evs w)))
     <= lastViolationTime (state (run evs w)) + delta.
Proof.
  induction evs as [|ev evs IH]; intros w Hevs Hw Hl; simpl; [done|].
  apply Forall_cons in Hevs as [Hev Hevs].
  destruct (step_stamp_cases ev w)
    as [(ty & now & stamp & Hnow & Hstamp & El & Et & Hfar)|(El & Et)];
    apply IH; rewrite ?El, ?Et; try done.
  - unfold Spec.stampedWithin in Hev. rewrite Hnow, Hstamp in Hev.
    apply wellSpaced_snoc; [done|]. simpl. lia.
  - unfold Spec.stampedWithin in Hev. rewrite Hnow, Hstamp in Hev.
    rewrite lastTimeFrom_snoc. simpl. lia.
Qed.

(** X2: in a session, from [init] on, when every signal's stamp is read
    at or after the debounce reading of its call and at most [delta] ms
    later, the first entry of the ledger is stamped 1000 or later and
    every entry is stamped at least [1000 - delta] ms after the entry
    before it: 1000 ms when the two readings of each call agree. *)
Theorem ledger_entries_are_spaced (p : ConfigPatch) (w0 : World)
    (evs : list Event) (delta : Z) (i : nat) (a b : ViolationEntry) :
  Forall (Spec.stampedWithin delta) evs ->
  let log := violationLog (state (run evs (init p w0))) in
  (log !! 0%nat = Some a -> 1000 <= timestamp a)
  /\ (log !! i = Some a -> log !! S i = Some b ->
      timestamp a + (1000 - delta) <= timestamp b).
Proof.
  intros Hevs. cbn zeta.
  destruct (spacing_invariant delta evs (init p w0) Hevs) as [H _];
    [done|simpl; lia|].
  split.
  - intros Ha. pose proof (wellSpaced_first _ _ _ _ H Ha). lia.
  - by apply (wellSpaced_consecutive (1000 - delta) delta).
Qed.

Lemma ledger_entries_are_spaced_witness :
  let log := violationLog
               (state (run [VisibilityChange true 5000 5003; Blur false 5400 5401;
                            FullscreenChange false 6200 6202]
                         (Scenario.monitor 3))) in
  log = [ {| type := tab_switch; timestamp := 5003 |};
          {| type := fullscreen_exit; timestamp := 6202 |} ]
  /\ 5003 + (1000 - 5) <= 6202.
Proof.
  split; [reflexivity|].
  assert (Hevs : Forall (Spec.stampedWithin 5)
                   [VisibilityChange true 5000 5003; Blur false 5400 5401;
                    FullscreenChange false 6200 6202]).
  { repeat constructor; simpl; lia. }
  destruct (ledger_entries_are_spaced
              {| containerElement' := None; autoSubmitOnViolation' := Some true;
                 violationThreshold' := Some 3; enableWarnings' := Some false;
                 strictMode' := None |}
              loaded
              [VisibilityChange true 5000 5003; Blur false 5400 5401;
               FullscreenChange false 6200 6202]
              5 0 {| type := tab_switch; timestamp := 5003 |}
              {| type := fullscreen_exit; timestamp := 6202 |} Hevs) as [_ H].
  exact (H eq_refl eq_refl).
Defined.

(** X3: no step takes an entry out of the ledger or lowers the count:
    the ledger before any events is a prefix of the ledger after them. *)
Theorem ledger_is_append_only (w : World) (evs : list Event) :
  violationLog (state w) `prefix_of` violationLog (state (run evs w))
  /\ violations (state w) <= violations (state (run evs w)).
Proof.
  revert w. induction evs as [|ev evs IH]; intros w; simpl; [done|].
  destruct (IH (step ev w)) as [Hp Hv].
  destruct (step_state_cases ev w) as [(ty & now & stamp & _ & Ev & El & _)|(Ev & El & _)].
  - split; [|lia]. etransitivity; [|exact Hp]. rewrite El. by apply prefix_app_r.
  - split; [|lia]. by rewrite <- El.
Qed.

(** An inactive module stays inactive, and silent but for the page's own
    calls of [requestFullscreen()]. *)
Lemma inactive_step ev w :
  isActive (state w) = false ->
  isActive (state (step ev w)) = false
  /\ Spec.ledgerUnchanged w (step ev w)
  /\ effects (step ev w)
     = effects w ++ Spec.pageRequests (containerElement (config w)) [ev].
Proof.
  intros Ha. unfold Spec.ledgerUnchanged, Spec.pageRequests.
  assert (Hlog : forall ty now stamp, _logViolation ty now stamp w = (w, Returned))
    by (intros; unfold _logViolation; by rewrite Ha).
  destruct ev as [hidden now stamp|hidden now stamp|inFs now stamp|ty now stamp
                 | |ok|cb|cb|b| |]; simpl;
    destruct (containerElement (config w)) eqn:Hel; simpl; rewrite ?app_nil_r.
  all: try (destruct (listening w); [|done]).
  all: try (unfold visibilityChange; destruct (hidden && _);
            [by rewrite Hlog|done]).
  all: try (unfold blur; destruct (negb hidden && _); [by rewrite Hlog|done]).
  all: try (unfold fullscreenChange; rewrite Ha, andb_false_r; simpl;
            by destruct (inFs && _)).
  all: try (unfold triggerViolation; by rewrite Hlog).
  all: try (destruct (pendingTimeouts w); [done|]; unfold reentryTimeout; simpl;
            by rewrite Ha).
  all: try (by destruct (pendingRequests w)).
  all: try done.
  all: unfold requestFullscreen; rewrite Hel; done.
Qed.

Lemma inactive_run evs : forall w,
  isActive (state w) = false ->
  isActive (state (run evs w)) = false
  /\ Spec.ledgerUnchanged w (run evs w)
  /\ effects (run evs w)
     = effects w ++ Spec.pageRequests (containerElement (config w)) evs.
Proof.
  induction evs as [|ev evs IH]; intros w Ha; simpl.
  { unfold Spec.pageRequests. destruct (containerElement (config w)); simpl;
      by rewrite app_nil_r. }
  destruct (inactive_step ev w Ha) as (Ha1 & [Hv1 Hl1] & He1).
  destruct (IH _ Ha1) as (Ha2 & [Hv2 Hl2] & He2).
  unfold Spec.ledgerUnchanged.
  rewrite Hv2, Hl2, He2, He1, step_container, <- app_assoc.
  by rewrite <- pageRequests_cons.
Qed.

(** X4: [destroy] is idempotent, and after it no signal, timer, settled
    request or API call other than [init] records a violation or
    reactivates the module; the only thing still done to the outside is
    the fullscreen request of each call of [requestFullscreen()], which
    does not look at the state of the module: without such calls nothing
    is done at all. *)
Theorem destroyed_module_is_silent (w : World) (evs : list Event) :
  destroy (destroy w) = destroy w
  /\ Spec.ledgerUnchanged w (run evs (destroy w))
  /\ effects (run evs (destroy w))
     = effects w ++ Spec.pageRequests (containerElement (config w)) evs
  /\ (List.filter Spec.isFullscreenCall evs = [] ->
      effects (run evs (destroy w)) = effects w)
  /\ isActive (state (run evs (destroy w))) = false.
Proof.
  split; [reflexivity|].
  destruct (inactive_run evs (destroy w) eq_refl) as (Ha & Hl & He).
  split; [done|]. split; [done|]. split; [|done].
  intros Hnone. rewrite He. unfold Spec.pageRequests. rewrite Hnone.
  simpl. destruct (containerElement (config w)); by rewrite app_nil_r.
Qed.

Lemma destroyed_module_is_silent_witness :
  let w := Scenario.monitor 1 in
  let quiet := [VisibilityChange true 5000 5000; ReentryTimeout;
                TriggerViolation tab_switch 9000 9000] in
  effects (run quiet (destroy w)) = effects w
  /\ effects (run (quiet ++ [RequestFullscreenCall]) (destroy w))
     = effects w ++ [RequestFullscreen].
Proof.
  intros w quiet.
  destruct (destroyed_module_is_silent w quiet) as (_ & _ & _ & Hquiet & _).
  destruct (destroyed_module_is_silent w (quiet ++ [RequestFullscreenCall]))
    as (_ & _ & Hcall & _).
  split; [exact (Hquiet eq_refl)|exact Hcall].
Defined.

End Ledger.

Section RecordingStep.
Import JS Integrity.

(** The whole effect of a call of [_logViolation] that records. *)
Lemma logViolation_spec ty now stamp w :
  Spec.records ty now w = true ->
  let count := violations (state w) + 1 in
  let max := violationThreshold (config w) in
  let entry := {| type := ty; timestamp := stamp |} in
  let nv := notifyViolation (onViolation (callbacks w)) 0 entry count max in
  let returned := match nv.2 with Returned => true | Threw _ => false end in
  let reentry := returned && isFullscreenExit ty && negb (max <=? count) in
  let fired := returned && autoSubmitOnViolation (config w) && (max <=? count) in
  (_logViolation ty now stamp w).1
  = {| config := config w;
       state := {| violations := count;
                   violationLog := violationLog (state w) ++ [entry];
                   isActive := negb fired;
                   lastViolationTime := now;
                   isReentering := isReentering (state w) || reentry;
                   isSubmitting := fired |};
       callbacks := callbacks w;
       listening := listening w;
       pendingTimeouts := if reentry then S (pendingTimeouts w)
                          else pendingTimeouts w;
       pendingRequests := pendingRequests w;
       effects :=
         effects w
         ++ (if enableWarnings (config w)
             then [Alert (if max <=? count then Terminated ty
                          else Warning ty count (max - count))]
             else [])
         ++ nv.1
         ++ (if reentry then [SetTimeout 200] else [])
         ++ (if fired then notifyAutoSubmit (onAutoSubmit (callbacks w)) 0
             else []) |}
  /\ (_logViolation ty now stamp w).2 = nv.2.
Proof.
  intros Hrec. cbn zeta. unfold Spec.records in Hrec. unfold _logViolation.
  destruct (isActive (state w)) eqn:Ha, (isSubmitting (state w)) eqn:Hs;
    simpl in *; try done.
  destruct (isReentering (state w)) eqn:Hr, ty; simpl in *; try done;
    destruct (now - lastViolationTime (state w) <? 1000); simpl in *; try done;
    unfold _showWarning; simpl;
    destruct (enableWarnings (config w)); simpl;
    destruct (notifyViolation _ _ _ _ _) as [es [|err]]; simpl;
    unfold _enforceFullscreen, _triggerAutoSubmit; simpl;
    destruct (violationThreshold (config w) <=? violations (state w) + 1); simpl;
    destruct (autoSubmitOnViolation (config w)); simpl;
    rewrite ?Hr, ?Hs, ?Ha; simpl;
    unfold emit, withState; simpl;
    rewrite <- ?app_assoc, ?app_nil_r; simpl; done.
Qed.

End RecordingStep.

Section Warnings.
Import JS Integrity.

Lemma alertCount_app es1 es2 :
  Spec.alertCount (es1 ++ es2) = (Spec.alertCount es1 + Spec.alertCount es2)%nat.
Proof. unfold Spec.alertCount. by rewrite List.filter_app, length_app. Qed.

Lemma notifyViolation_no_alert cbs idx entry count max :
  Spec.alertCount (notifyViolation cbs idx entry count max).1 = 0%nat.
Proof.
  revert idx. induction cbs as [|cb cbs IH]; intros idx; simpl; [done|].
  destruct (cb entry count max); [|done].
  specialize (IH (S idx)).
  by destruct (notifyViolation cbs (S idx) entry count max).
Qed.

Lemma notifyAutoSubmit_no_alert cbs idx :
  Spec.alertCount (notifyAutoSubmit cbs idx) = 0%nat.
Proof.
  revert idx. induction cbs as [|cb cbs IH]; intros idx; simpl; [done|].
  specialize (IH (S idx)). by destruct cb.
Qed.

Lemma notifyAutoSubmit_no_alert_if (b : bool) cbs idx :
  Spec.alertCount (if b then notifyAutoSubmit cbs idx else []) = 0%nat.
Proof. destruct b; [apply notifyAutoSubmit_no_alert|done]. Qed.

(** Counting over a call of [_logViolation] made by a listener. *)
Lemma log_counts ty now stamp w :
  let w' := settle (_logViolation ty now stamp w) in
  config w' = config w
  /\ Z.of_nat (Spec.alertCount (effects w'))
     = Z.of_nat (Spec.alertCount (effects w))
       + (if enableWarnings (config w)
          then violations (state w') - violations (state w) else 0)
  /\ (autoSubmitOnViolation (config w) = false ->
      isSubmitting (state w') = isSubmitting (state w)
      /\ forall i, autoSubmitCalls i (effects w') = autoSubmitCalls i (effects w)).
Proof.
  cbn zeta. destruct (Spec.records ty now w) eqn:Hrec.
  2: { rewrite (logViolation_skips ty now stamp w Hrec). simpl.
       repeat split; try done. destruct (enableWarnings (config w)); lia. }
  destruct (logViolation_spec ty now stamp w Hrec) as [E Ec].
  assert (Hs : isSubmitting (state w) = false).
  { unfold Spec.records in Hrec. by destruct (isActive _), (isSubmitting _). }
  pose proof (notifyViolation_no_alert (onViolation (callbacks w)) 0
                {| type := ty; timestamp := stamp |} (violations (state w) + 1)
                (violationThreshold (config w))) as Hna.
  pose proof (fun i => notifyViolation_no_autosubmit (onViolation (callbacks w)) 0
                {| type := ty; timestamp := stamp |} (violations (state w) + 1)
                (violationThreshold (config w)) i) as Hnc.
  destruct (_logViolation ty now stamp w) as [w1 c]. simpl in E, Ec. subst w1 c.
  destruct (notifyViolation _ _ _ _ _) as [es [|err]]; simpl in *.
  - split; [done|]. split.
    + rewrite !alertCount_app, Hna, notifyAutoSubmit_no_alert_if.
      destruct (enableWarnings (config w)), (isFullscreenExit ty && _);
        unfold Spec.alertCount; simpl; lia.
    + intros Hauto. rewrite Hauto, Hs. simpl. split; [done|].
      intros i. rewrite !autoSubmitCalls_app, Hnc.
      destruct (enableWarnings (config w)), (isFullscreenExit ty && _);
        unfold autoSubmitCalls; simpl; lia.
  - split; [done|]. split.
    + rewrite !alertCount_app, Hna.
      destruct (enableWarnings (config w)); unfold Spec.alertCount; simpl; lia.
    + intros Hauto. rewrite Hs. split; [done|].
      intros i. rewrite !autoSubmitCalls_app, Hnc.
      destruct (enableWarnings (config w)); unfold autoSubmitCalls; simpl; lia.
Qed.

End Warnings.

Section WarningsAndOption.
Import JS Integrity.

Lemma step_counts ev w :
  enableWarnings (config (step ev w)) = enableWarnings (config w)
  /\ autoSubmitOnViolation (config (step ev w)) = autoSubmitOnViolation (config w)
  /\ Z.of_nat (Spec.alertCount (effects (step ev w)))
     = Z.of_nat (Spec.alertCount (effects w))
       + (if enableWarnings (config w)
          then violations (state (step ev w)) - violations (state w) else 0)
  /\ (autoSubmitOnViolation (config w) = false ->
      isSubmitting (state (step ev w)) = isSubmitting (state w)
      /\ forall i, autoSubmitCalls i (effects (step ev w))
                   = autoSubmitCalls i (effects w)).
Proof.
  assert (Hlog : forall ty now stamp,
    enableWarnings (config (settle (_logViolation ty now stamp w)))
    = enableWarnings (config w)
    /\ autoSubmitOnViolation (config (settle (_logViolation ty now stamp w)))
       = autoSubmitOnViolation (config w)
    /\ Z.of_nat (Spec.alertCount (effects (settle (_logViolation ty now stamp w))))
       = Z.of_nat (Spec.alertCount (effects w))
         + (if enableWarnings (config w)
            then violations (state (settle (_logViolation ty now stamp w)))
                 - violations (state w) else 0)
    /\ (autoSubmitOnViolation (config w) = false ->
        isSubmitting (state (settle (_logViolation ty now stamp w)))
        = isSubmitting (state w)
        /\ forall i, autoSubmitCalls i (effects (settle (_logViolation ty now stamp w)))
                     = autoSubmitCalls i (effects w))).
  { intros ty now stamp. destruct (log_counts ty now stamp w) as (-> & H2 & H3). done. }
  assert (Hquiet : forall b : bool,
            0 = if b then violations (state w) - violations (state w) else 0)
    by (intros []; lia).
  destruct ev as [hidden now stamp|hidden now stamp|inFs now stamp|ty now stamp| |ok|cb|cb|b| |]; simpl.
  - destruct (listening w); [|repeat split; try done; by rewrite <- Hquiet, Z.add_0_r].
    unfold visibilityChange. destruct (hidden && _); [apply Hlog|].
    repeat split; try done. by rewrite <- Hquiet, Z.add_0_r.
  - destruct (listening w); [|repeat split; try done; by rewrite <- Hquiet, Z.add_0_r].
    unfold blur. destruct (negb hidden && _); [apply Hlog|].
    repeat split; try done. by rewrite <- Hquiet, Z.add_0_r.
  - destruct (listening w); [|repeat split; try done; by rewrite <- Hquiet, Z.add_0_r].
    unfold fullscreenChange. destruct (negb inFs && _ && _ && _); [apply Hlog|].
    destruct (inFs && _); simpl; repeat split; try done;
      by rewrite <- Hquiet, Z.add_0_r.
  - apply Hlog.
  - destruct (pendingTimeouts w);
      [repeat split; try done; by rewrite <- Hquiet, Z.add_0_r|].
    unfold reentryTimeout; simpl.
    destruct (isActive (state w) && _); simpl;
      [destruct (containerElement (config w)); simpl|];
      repeat split; try done; rewrite <- ?Hquiet, ?Z.add_0_r; try done;
      try intros i; rewrite ?alertCount_app, ?autoSubmitCalls_app;
      unfold Spec.alertCount, autoSubmitCalls; simpl; lia.
  - destruct (pendingRequests w); simpl; repeat split; try done;
      by rewrite <- Hquiet, Z.add_0_r.
  - repeat split; try done. by rewrite <- Hquiet, Z.add_0_r.
  - repeat split; try done. by rewrite <- Hquiet, Z.add_0_r.
  - repeat split; try done. by rewrite <- Hquiet, Z.add_0_r.
  - repeat split; try done. by rewrite <- Hquiet, Z.add_0_r.
  - unfold requestFullscreen.
    destruct (containerElement (config w)); simpl;
      repeat split; try done; rewrite <- ?Hquiet, ?Z.add_0_r; try done;
      try intros i; rewrite ?alertCount_app, ?autoSubmitCalls_app;
      unfold Spec.alertCount, autoSubmitCalls; simpl; lia.
Qed.

(** X5: while warnings are enabled the monitor shows exactly one alert
    per recorded violation; while they are disabled it shows none. *)
Theorem one_alert_per_violation (w : World) (evs : list Event) :
  Z.of_nat (Spec.alertCount (effects (run evs w)))
  = Z.of_nat (Spec.alertCount (effects w))
    + (if enableWarnings (config w)
       then violations (state (run evs w)) - violations (state w) else 0).
Proof.
  revert w. induction evs as [|ev evs IH]; intros w; simpl.
  { destruct (enableWarnings (config w)); lia. }
  rewrite IH. destruct (step_counts ev w) as (-> & _ & -> & _).
  destruct (enableWarnings (config w)); lia.
Qed.

(** X6: with [autoSubmitOnViolation] off, no sequence of events brings
    the module into the submitting state or calls an auto-submit
    subscriber, however many violations are recorded. *)
Theorem no_autosubmit_when_option_is_off (w : World) (evs : list Event) :
  autoSubmitOnViolation (config w) = false ->
  isSubmitting (state w) = false ->
  isSubmitting (state (run evs w)) = false
  /\ forall i, autoSubmitCalls i (effects (run evs w))
               = autoSubmitCalls i (effects w).
Proof.
  revert w. induction evs as [|ev evs IH]; intros w Hoff Hs; simpl; [done|].
  destruct (step_counts ev w) as (_ & Hcfg & _ & H).
  destruct (H Hoff) as [Hs1 Hc1].
  destruct (IH (step ev w)) as [Hs2 Hc2]; [congruence|congruence|].
  split; [done|]. intros i. by rewrite Hc2, Hc1.
Qed.

Lemma no_autosubmit_when_option_is_off_witness :
  let w := run [OnAutoSubmit Returned]
             (init {| containerElement' := None;
                      autoSubmitOnViolation' := Some false;
                      violationThreshold' := Some 1;
                      enableWarnings' := Some false;
                      strictMode' := None |} loaded) in
  let w' := run [VisibilityChange true 5000 5000; Blur false 7000 7000] w in
  violations (state w') = 2
  /\ isSubmitting (state w') = false
  /\ autoSubmitCalls 0 (effects w') = 0%nat.
Proof.
  intros w w'. split; [reflexivity|].
  destruct (no_autosubmit_when_option_is_off w
              [VisibilityChange true 5000 5000; Blur false 7000 7000] eq_refl eq_refl)
    as [H1 H2].
  split; [exact H1|exact (H2 0%nat)].
Defined.

End WarningsAndOption.

(** * Further properties of the submitter *)

Section Retries.
Import JS Sheets.

Variable stringify : Result.t -> string.

Lemma fetchCount_app es1 es2 :
  Spec.fetchCount (es1 ++ es2) = (Spec.fetchCount es1 + Spec.fetchCount es2)%nat.
Proof. unfold Spec.fetchCount. by rewrite List.filter_app, length_app. Qed.

Lemma delayCount_app es1 es2 :
  Spec.delayCount (es1 ++ es2) = (Spec.delayCount es1 + Spec.delayCount es2)%nat.
Proof. unfold Spec.delayCount. by rewrite List.filter_app, length_app. Qed.

(** One request per iteration, at most one wait per request. *)
Lemma attempts_bounds n : forall attempt c resultData fetch lastError,
  let es := (attempts stringify n attempt c resultData fetch lastError).1 in
  (Spec.fetchCount es <= n)%nat /\ (Spec.delayCount es <= Spec.fetchCount es)%nat.
Proof.
  induction n as [|n IH]; intros attempt c resultData fetch lastError; cbn zeta.
  { simpl. done. }
  cbn [attempts]. destruct (fetch attempt) as [|m].
  { simpl. unfold Spec.fetchCount, Spec.delayCount. simpl. lia. }
  specialize (IH (attempt + 1) c resultData fetch (Some m)). cbn zeta in IH.
  destruct (attempts stringify n (attempt + 1) c resultData fetch (Some m))
    as [es r]. simpl in *.
  change (Fetch attempt (webhookUrl c) (stringify resultData)
          :: ConsoleWarn attempt
          :: (if attempt <? maxRetries c then [Delay (retryDelay c)] else []) ++ es)
    with ([Fetch attempt (webhookUrl c) (stringify resultData);
           ConsoleWarn attempt]
          ++ (if attempt <? maxRetries c then [Delay (retryDelay c)] else [])
          ++ es).
  rewrite !fetchCount_app, !delayCount_app.
  destruct (attempt <? maxRetries c); unfold Spec.fetchCount, Spec.delayCount in *;
    simpl; lia.
Qed.

(** The loop returns at the first fulfilled request, having waited once
    after each rejected one. *)
Lemma attempts_first_success n : forall attempt c resultData fetch lastError k,
  attempt <= k < attempt + Z.of_nat n ->
  k <= maxRetries c ->
  (forall a, attempt <= a < k -> exists m, fetch a = Rejected m) ->
  fetch k = Fulfilled ->
  exists es,
    attempts stringify n attempt c resultData fetch lastError = (es, inl tt)
    /\ Spec.fetchCount es = Z.to_nat (k - attempt + 1)
    /\ Spec.delayCount es = Z.to_nat (k - attempt)
    /\ (forall d, In (Delay d) es -> d = retryDelay c).
Proof.
  induction n as [|n IH]; intros attempt c resultData fetch lastError k Hk Hmax
    Hrej Hok; [lia|].
  cbn [attempts]. destruct (Z.eq_dec attempt k) as [->|Hne].
  - rewrite Hok. eexists. split; [reflexivity|].
    replace (k - k + 1) with 1 by lia. replace (k - k) with 0 by lia.
    repeat split. intros d [H|[]]. discriminate.
  - destruct (Hrej attempt ltac:(lia)) as [m Hm]. rewrite Hm.
    destruct (IH (attempt + 1) c resultData fetch (Some m) k
                ltac:(lia) Hmax ltac:(intros a Ha; apply Hrej; lia) Hok)
      as (es & -> & Hf & Hd & Hall).
    destruct (Z.ltb_spec attempt (maxRetries c)); [|lia].
    eexists. split; [reflexivity|]. simpl.
    unfold Spec.fetchCount, Spec.delayCount in *. simpl.
    rewrite Hf, Hd. repeat split; try lia.
    intros d [H'|[H'|[H'|H']]]; try discriminate; [by injection H' as <-|].
    by apply Hall.
Qed.

(** When every request is rejected and the loop ends at [maxRetries],
    it has waited after every request but the last. *)
Lemma attempts_exhausted_delays n : forall attempt c resultData fetch lastError,
  attempt + Z.of_nat n = maxRetries c + 1 ->
  (forall a, attempt <= a <= maxRetries c -> exists m, fetch a = Rejected m) ->
  let es := (attempts stringify n attempt c resultData fetch lastError).1 in
  Spec.delayCount es = pred n
  /\ (forall d, In (Delay d) es -> d = retryDelay c).
Proof.
  induction n as [|n IH]; intros attempt c resultData fetch lastError Hend Hrej;
    cbn zeta; [done|].
  cbn [attempts]. destruct (Hrej attempt ltac:(lia)) as [m Hm]. rewrite Hm.
  specialize (IH (attempt + 1) c resultData fetch (Some m) ltac:(lia)
                ltac:(intros a Ha; apply Hrej; lia)). cbn zeta in IH.
  destruct (attempts stringify n (attempt + 1) c resultData fetch (Some m))
    as [es r]. simpl in *. destruct IH as [Hd Hall].
  unfold Spec.delayCount in *. simpl.
  destruct (Z.ltb_spec attempt (maxRetries c)); simpl.
  - rewrite Hd. split; [destruct n; [lia|done]|].
    intros d [H'|[H'|[H'|H']]]; try discriminate; [by injection H' as <-|].
    by apply Hall.
  - assert (n = 0%nat) as -> by lia. split; [done|].
    intros d [H'|[H'|H']]; try discriminate. by apply Hall.
Qed.

(** X7: with a webhook configured, when the first [k - 1] requests are
    rejected and request [k] (within the retry bound) is fulfilled,
    [submit] resolves with success and no error after exactly [k] requests
    and [k - 1] waits, each of [retryDelay] ms. *)
Theorem delivery_stops_at_first_success (c : Config) (resultData : Result.t)
    (fetch : Z -> FetchOutcome) (now k : Z) :
  webhookUrl c <> "" ->
  1 <= k <= maxRetries c ->
  (forall a, 1 <= a < k -> exists m, fetch a = Rejected m) ->
  fetch k = Fulfilled ->
  let r := submit stringify c resultData fetch now in
  success r.2 = true
  /\ error r.2 = None
  /\ Spec.fetchCount r.1 = Z.to_nat k
  /\ Spec.delayCount r.1 = Z.to_nat (k - 1)
  /\ (forall d, In (Delay d) r.1 -> d = retryDelay c).
Proof.
  intros Hurl Hk Hrej Hok. cbn zeta. unfold submit.
  destruct (String.eqb_spec (webhookUrl c) ""); [done|].
  destruct (attempts_first_success (Z.to_nat (maxRetries c)) 1 c resultData
              fetch None k ltac:(lia) ltac:(lia) Hrej Hok)
    as (es & -> & Hf & Hd & Hall).
  simpl. replace (k - 1 + 1) with k in Hf by lia. done.
Qed.

(** X8: whatever the requests do, [submit] sends at most [maxRetries]
    requests and waits at most once per request; with no webhook
    configured, or with a retry bound of zero or less, it sends nothing
    and resolves without success. *)
Theorem delivery_is_bounded (c : Config) (resultData : Result.t)
    (fetch : Z -> FetchOutcome) (now : Z) :
  let r := submit stringify c resultData fetch now in
  (Spec.fetchCount r.1 <= Z.to_nat (maxRetries c))%nat
  /\ (Spec.delayCount r.1 <= Spec.fetchCount r.1)%nat
  /\ (webhookUrl c = "" ->
      r.1 = [] /\ success r.2 = false
      /\ error r.2 = Some "Webhook URL not configured. Results saved locally only.")
  /\ (webhookUrl c <> "" -> maxRetries c <= 0 ->
      r.1 = [] /\ success r.2 = false
      /\ error r.2 = Some ("Network error after " +:+ toString (maxRetries c)
                           +:+ " attempts: Unknown error")).
Proof.
  cbn zeta. unfold submit.
  pose proof (attempts_bounds (Z.to_nat (maxRetries c)) 1 c resultData fetch None)
    as Hb. cbn zeta in Hb.
  destruct (String.eqb_spec (webhookUrl c) "") as [Hurl|Hurl].
  { simpl. repeat split; try done. unfold Spec.fetchCount. simpl. lia. }
  destruct (attempts stringify (Z.to_nat (maxRetries c)) 1 c resultData fetch None)
    as [es [[]|lastError]] eqn:E; simpl in *.
  - split; [lia|]. split; [lia|]. split; [done|].
    intros _ Hzero. replace (Z.to_nat (maxRetries c)) with 0%nat in E by lia.
    simpl in E. discriminate.
  - split; [lia|]. split; [lia|]. split; [done|].
    intros _ Hzero. replace (Z.to_nat (maxRetries c)) with 0%nat in E by lia.
    simpl in E. by injection E as <- <-.
Qed.

(** X9: with a webhook configured and a retry bound of at least one,
    when every request is rejected [submit] waits [retryDelay] ms after
    each request except the last: [maxRetries - 1] waits. *)
Theorem exhausted_delivery_waits_between_attempts (c : Config)
    (resultData : Result.t) (fetch : Z -> FetchOutcome) (now : Z) :
  webhookUrl c <> "" ->
  1 <= maxRetries c ->
  (forall a, 1 <= a <= maxRetries c -> exists m, fetch a = Rejected m) ->
  let r := submit stringify c resultData fetch now in
  Spec.delayCount r.1 = Z.to_nat (maxRetries c - 1)
  /\ (forall d, In (Delay d) r.1 -> d = retryDelay c).
Proof.
  intros Hurl Hone Hrej. cbn zeta. unfold submit.
  destruct (String.eqb_spec (webhookUrl c) ""); [done|].
  pose proof (attempts_exhausted_delays (Z.to_nat (maxRetries c)) 1 c resultData
                fetch None ltac:(lia) Hrej) as H. cbn zeta in H.
  destruct (attempts stringify (Z.to_nat (maxRetries c)) 1 c resultData fetch None)
    as [es [[]|lastError]]; simpl in *; destruct H as [Hd Hall];
    (split; [lia|done]).
Qed.

End Retries.

Lemma delivery_stops_at_first_success_witness :
  let r := Sheets.submit Scenario.stringify Scenario.sheetsConfig Scenario.resultA
             Scenario.flaky 1793664003000 in
  Sheets.success r.2 = true
  /\ Sheets.error r.2 = None
  /\ Spec.fetchCount r.1 = 2%nat
  /\ Spec.delayCount r.1 = 1%nat
  /\ (forall d, In (Sheets.Delay d) r.1 -> d = 2000).
Proof.
  apply (delivery_stops_at_first_success Scenario.stringify Scenario.sheetsConfig
           Scenario.resultA Scenario.flaky 1793664003000 2).
  - discriminate.
  - simpl. lia.
  - intros a Ha. assert (a = 1) as -> by lia. eexists. reflexivity.
  - reflexivity.
Defined.

Lemma delivery_is_bounded_witness :
  let r := Sheets.submit Scenario.stringify Sheets.defaultConfig Scenario.resultA
             Scenario.offline 1793664003000 in
  r.1 = [] /\ Sheets.success r.2 = false
  /\ Sheets.error r.2
     = Some "Webhook URL not configured. Results saved locally only.".
Proof.
  destruct (delivery_is_bounded Scenario.stringify Sheets.defaultConfig
              Scenario.resultA Scenario.offline 1793664003000)
    as (_ & _ & H & _).
  exact (H eq_refl).
Defined.

Lemma exhausted_delivery_waits_between_attempts_witness :
  let r := Sheets.submit Scenario.stringify Scenario.sheetsConfig Scenario.resultA
             Scenario.offline 1793664003000 in
  Spec.delayCount r.1 = 2%nat
  /\ (forall d, In (Sheets.Delay d) r.1 -> d = 2000).
Proof.
  apply (exhausted_delivery_waits_between_attempts Scenario.stringify
           Scenario.sheetsConfig Scenario.resultA Scenario.offline 1793664003000).
  - discriminate.
  - simpl. lia.
  - intros a _. eexists. reflexivity.
Defined.

Section IdDate.
Import JS Sheets.

Lemma digitValue_digit d : 0 <= d <= 9 -> Spec.digitValue (Spec.digit d) = d.
Proof.
  intros Hd.
  assert (H : forallb (fun d => Spec.digitValue (Spec.digit d) =? d) (seqZ 0 10)
              = true) by (vm_compute; reflexivity).
  rewrite forallb_forall in H. apply Z.eqb_eq, H, list_elem_of_In, elem_of_seqZ.
  lia.
Qed.

Lemma four_digits_value y :
  0 <= y <= 9999 ->
  ((y / 1000 * 10 + y / 100 mod 10) * 10 + y / 10 mod 10) * 10 + y mod 10 = y.
Proof.
  intros Hy.
  assert (H : forallb (fun y => ((y / 1000 * 10 + y / 100 mod 10) * 10
                                 + y / 10 mod 10) * 10 + y mod 10 =? y)
                (seqZ 0 10000) = true) by (vm_compute; reflexivity).
  rewrite forallb_forall in H. apply Z.eqb_eq, H, list_elem_of_In, elem_of_seqZ.
  lia.
Qed.

Lemma readDecimal_yyyymmdd now :
  1000 <= fullYear now <= 9999 ->
  0 <= month now <= 11 ->
  1 <= date now <= 31 ->
  Spec.readDecimal (Spec.yyyymmdd now)
  = fullYear now * 10000 + (month now + 1) * 100 + date now.
Proof.
  intros Hy Hm Hd.
  unfold Spec.readDecimal, Spec.yyyymmdd, Spec.fourDigits, Spec.twoDigits.
  rewrite !append_cons, !append_nil. cbn [list_ascii_of_string fold_left].
  rewrite !digitValue_digit by (Z.div_mod_to_equations; lia).
  pose proof (four_digits_value (fullYear now) ltac:(lia)) as Hfour.
  pose proof (Z.div_mod (month now + 1) 10 ltac:(lia)) as Hmonth.
  pose proof (Z.div_mod (date now) 10 ltac:(lia)) as Hday.
  lia.
Qed.

(** X10: for a clock whose year has four digits, characters 4 to 11 of
    the submission id, read as a decimal number, give
    year x 10000 + (month + 1) x 100 + day: the date is recovered from
    the id, whatever the random draws. *)
Theorem submission_id_carries_the_date (now : Clock) (random : nat -> Q) :
  1000 <= fullYear now <= 9999 ->
  0 <= month now <= 11 ->
  1 <= date now <= 31 ->
  Spec.readDecimal (String.substring 4 8 (generateSubmissionId now random))
  = fullYear now * 10000 + (month now + 1) * 100 + date now.
Proof.
  intros Hy Hm Hd. rewrite <- (readDecimal_yyyymmdd now Hy Hm Hd).
  f_equal. unfold generateSubmissionId.
  rewrite (year_toString _ Hy), (small_toString (month now + 1)) by lia.
  rewrite (small_toString (date now)) by lia.
  unfold Spec.yyyymmdd, Spec.fourDigits, Spec.twoDigits.
  rewrite !append_cons, !append_nil. reflexivity.
Qed.

End IdDate.

Lemma submission_id_carries_the_date_witness :
  Spec.readDecimal
    (String.substring 4 8
       (Sheets.generateSubmissionId Scenario.clock Scenario.draws))
  = 20261103.
Proof.
  apply (submission_id_carries_the_date Scenario.clock Scenario.draws);
    simpl; lia.
Defined.

(** * Further properties of scoring and submission *)

Section ScoringInvariants.
Import JS Script.

Variable answers : gmap string OptionKey.

Lemma gradeAll_counts qs t :
  let t' := (gradeAll answers qs t).1 in
  correctCount t' + wrongCount t' + unansweredCount t'
  = correctCount t + wrongCount t + unansweredCount t + Z.of_nat (length qs)
  /\ correctCount t <= correctCount t'
  /\ wrongCount t <= wrongCount t'
  /\ unansweredCount t <= unansweredCount t'.
Proof.
  revert t. induction qs as [|q qs IH]; intros t; cbn zeta; [simpl; lia|].
  rewrite gradeAll_cons. cbn [fst snd length].
  specialize (IH (grade answers q t).1). cbn zeta in IH.
  destruct IH as (H1 & H2 & H3 & H4).
  assert (Hq : let t1 := (grade answers q t).1 in
               correctCount t1 + wrongCount t1 + unansweredCount t1
               = correctCount t + wrongCount t + unansweredCount t + 1
               /\ correctCount t <= correctCount t1
               /\ wrongCount t <= wrongCount t1
               /\ unansweredCount t <= unansweredCount t1).
  { unfold grade; simpl. repeat case_match; simpl; lia. }
  cbn zeta in Hq. lia.
Qed.

Lemma gradeAll_score_bounds qs t :
  Forall (fun q => forall m, Question.marks q = Some m -> 0 <= m) qs ->
  let t' := (gradeAll answers qs t).1 in
  score t <= score t'
  /\ score t' - score t <= totalObtainable t' - totalObtainable t.
Proof.
  revert t. induction qs as [|q qs IH]; intros t Hpos; cbn zeta; [simpl; lia|].
  rewrite gradeAll_cons. cbn [fst snd].
  apply Forall_cons in Hpos as [Hq Hqs].
  specialize (IH (grade answers q t).1 Hqs). cbn zeta in IH.
  assert (Hm : 0 <= marksOf q).
  { unfold marksOf, orDefault. destruct (Question.marks q) as [m|] eqn:E; [|lia].
    specialize (Hq m eq_refl). destruct (m =? 0); lia. }
  assert (H1 : let t1 := (grade answers q t).1 in
               score t <= score t1
               /\ score t1 - score t <= totalObtainable t1 - totalObtainable t).
  { unfold grade; simpl. repeat case_match; simpl; lia. }
  cbn zeta in H1. lia.
Qed.

End ScoringInvariants.

Section ScoringExtras.
Import JS Script.

(** X11: in every scoring summary the correct, wrong and unanswered
    counts are non-negative and add up to the number of questions, the
    attempted count is correct plus wrong, and the answers array lists
    the questions' ids in the exam's order. *)
Theorem scoring_counts_partition (e : Exam.t) (answers : gmap string OptionKey) :
  let arr := (computeScoring e answers).1 in
  let sc := (computeScoring e answers).2 in
  Result.correctAnswers sc + Result.wrongAnswers sc + Result.unansweredQuestions sc
  = Result.totalQuestions sc
  /\ Result.attemptedQuestions sc = Result.correctAnswers sc + Result.wrongAnswers sc
  /\ 0 <= Result.correctAnswers sc
  /\ 0 <= Result.wrongAnswers sc
  /\ 0 <= Result.unansweredQuestions sc
  /\ Result.totalQuestions sc = Z.of_nat (length (Exam.questions e))
  /\ Result.questionId <$> arr = Question.questionId <$> Exam.questions e.
Proof.
  cbn zeta. rewrite computeScoring_scoring, computeScoring_answers. cbn zeta.
  cbn [Result.correctAnswers Result.wrongAnswers Result.unansweredQuestions
       Result.totalQuestions Result.attemptedQuestions].
  pose proof (gradeAll_counts answers (Exam.questions e) noTally) as H.
  cbn zeta in H. simpl in H.
  repeat split; try lia.
  rewrite <- list_fmap_compose. by apply list_fmap_ext.
Qed.

(** X12: when no question of the exam carries negative marks, the
    obtained marks lie between 0 and the total marks. *)
Theorem obtained_marks_within_total (e : Exam.t) (answers : gmap string OptionKey) :
  Forall (fun q => forall m, Question.marks q = Some m -> 0 <= m)
    (Exam.questions e) ->
  let sc := (computeScoring e answers).2 in
  0 <= Result.obtainedMarks sc <= Result.totalMarks sc.
Proof.
  intros Hpos. cbn zeta. rewrite computeScoring_scoring. cbn zeta.
  cbn [Result.obtainedMarks Result.totalMarks].
  pose proof (gradeAll_score_bounds answers (Exam.questions e) noTally Hpos) as H.
  cbn zeta in H. simpl in H. lia.
Qed.

Lemma obtained_marks_within_total_witness :
  let sc := (computeScoring Scenario.examA Scenario.answersA).2 in
  0 <= Result.obtainedMarks sc <= Result.totalMarks sc.
Proof.
  apply (obtained_marks_within_total Scenario.examA Scenario.answersA).
  repeat constructor; intros m [= <-]; lia.
Defined.

(** What the assignment [obj[k] = v] does to the own properties. *)
Lemma objectSet_other {V : Type} (k k' : string) (v : V) (own : gmap string V) :
  k' <> k -> objectSet k v own !! k' = own !! k'.
Proof.
  intros Hne. unfold objectSet. destruct (String.eqb k "__proto__").
  - destruct (own !! k); [|done]. by rewrite lookup_insert_ne.
  - by rewrite lookup_insert_ne.
Qed.

Lemma objectSet_stored {V : Type} (k : string) (v : V) (own : gmap string V) :
  k <> "__proto__" \/ is_Some (own !! k) -> objectSet k v own !! k = Some v.
Proof.
  intros H. unfold objectSet. destruct (String.eqb_spec k "__proto__") as [E|E].
  - destruct H as [H|[x H]]; [done|]. rewrite H. apply lookup_insert_eq.
  - apply lookup_insert_eq.
Qed.

Lemma objectSet_ignored {V : Type} (k : string) (v : V) (own : gmap string V) :
  k = "__proto__" -> own !! k = None -> objectSet k v own = own.
Proof. intros -> H. unfold objectSet. simpl. by rewrite H. Qed.

(** X13: the assignment [state.answers[qId] = optKey] changes the
    outcome of the questions with that id only: every other outcome is
    the same, and a question with that id gets the stored option, correct
    exactly when it is the question's correct option.  The one id that
    cannot be answered is [__proto__] on an answers object that does not
    own such a property: the assignment stores nothing and every outcome
    stays as it was. *)
Theorem answer_change_is_local (e : Exam.t) (answers : gmap string OptionKey)
    (qId : string) (optKey : OptionKey) (i : nat) (q : Question.t) :
  Exam.questions e !! i = Some q ->
  let before := (computeScoring e answers).1 in
  let after := (computeScoring e (objectSet qId optKey answers)).1 in
  (Question.questionId q <> qId -> after !! i = before !! i)
  /\ (Question.questionId q = qId ->
      qId <> "__proto__" \/ is_Some (answers !! qId) ->
      exists a, after !! i = Some a
                /\ Result.selectedOption a = Chosen optKey
                /\ (Result.isCorrect a = true <-> optKey = Question.correctAnswer q)
                /\ Result.marksAwarded a
                   = if Result.isCorrect a then marksOf q else 0)
  /\ (qId = "__proto__" -> answers !! qId = None -> after = before).
Proof.
  intros Hq. cbn zeta. rewrite !computeScoring_answers, !list_lookup_fmap, Hq.
  simpl. split; [|split].
  - intros Hne. unfold grade, selectedFor. simpl. by rewrite objectSet_other.
  - intros <- Hstores. eexists. split; [reflexivity|].
    unfold grade, selectedFor. simpl. rewrite (objectSet_stored _ _ _ Hstores).
    repeat split.
    + intros H. apply isCorrectFor_true in H. by injection H.
    + intros ->. by apply isCorrectFor_true.
  - intros Hk Hnone. by rewrite (objectSet_ignored _ _ _ Hk Hnone).
Qed.

Lemma answer_change_is_local_witness :
  let before := (computeScoring Scenario.examA Scenario.answersA).1 in
  let after := (computeScoring Scenario.examA
                  (objectSet "Q2" C Scenario.answersA)).1 in
  after !! 0%nat = before !! 0%nat
  /\ (exists a, after !! 1%nat = Some a /\ Result.isCorrect a = true)
  /\ (computeScoring Scenario.examA (objectSet "__proto__" C Scenario.answersA)).1
     = before.
Proof.
  destruct (answer_change_is_local Scenario.examA Scenario.answersA "Q2" C 0
              (Scenario.question "Q1" B (Some 5)) eq_refl) as (H0 & _ & _).
  destruct (answer_change_is_local Scenario.examA Scenario.answersA "Q2" C 1
              (Scenario.question "Q2" C (Some 10)) eq_refl) as (_ & H1 & _).
  destruct (answer_change_is_local Scenario.examA Scenario.answersA "__proto__" C 0
              (Scenario.question "Q1" B (Some 5)) eq_refl) as (_ & _ & H2).
  assert (Hnone : Scenario.answersA !! "__proto__" = None)
    by (vm_compute; reflexivity).
  split; [apply H0; discriminate|]. split; [|exact (H2 eq_refl Hnone)].
  assert (Hq2 : "Q2" <> "__proto__" \/ is_Some (Scenario.answersA !! "Q2"))
    by (left; discriminate).
  destruct (H1 eq_refl Hq2) as (a & Ha & _ & Hc & _).
  exists a. split; [exact Ha|]. by apply Hc.
Defined.

End ScoringExtras.

Section SubmissionResult.
Import JS Script.

(** What a first call of [submitExam] on a loaded exam leaves behind. *)
Lemma submitExam_result now random isAuto submissionType w e :
  exam (state w) = Some e ->
  isSubmitted (state w) = false ->
  let w' := (submitExam now random isAuto submissionType w).1 in
  exists resultObject : Result.t,
    Session.builtResults w' = Session.builtResults w ++ [resultObject]
    /\ Result.answers resultObject = (computeScoring e (answers (state w))).1
    /\ Result.scoring_ resultObject = (computeScoring e (answers (state w))).2
    /\ Result.type (Result.submission_ resultObject)
       = finalSubmissionType isAuto submissionType
    /\ Result.integrity_ resultObject
       = match integrity w with
         | Some m => {| Result.violations := Integrity.violations (Integrity.state m);
                        Result.violationLog :=
                          Integrity.violationLog (Integrity.state m) |}
         | None => {| Result.violations := 0; Result.violationLog := [] |}
         end
    /\ Result.durationUsed (Result.timing_ resultObject)
       = ceilDiv (Timing.durationAllowed (timing (state w)) * 60
                  - timeLeft (state w)) 60
    /\ Result.durationAllowed (Result.timing_ resultObject)
       = Timing.durationAllowed (timing (state w))
    /\ isSubmitted (state w') = true
    /\ answers (state w') = answers (state w)
    /\ exam (state w') = Some e
    /\ ticking w' = false
    /\ localStorage w' = delete STORAGE_KEY (localStorage w)
    /\ integrity w' = Integrity.destroy <$> integrity w
    /\ sheets w' = sheets w
    /\ inFlight w' = inFlight w ++ match sheets w with
                                   | Some _ => [resultObject]
                                   | None => []
                                   end.
Proof.
  intros He Hs. cbn zeta. unfold submitExam. rewrite Hs, He.
  destruct (computeScoring e (answers (state w))) as [arr sc].
  cbn [fst snd]. eexists. split.
  { unfold Session.builtResults. simpl. rewrite omap_app.
    apply (f_equal (app _)). simpl. apply (f_equal (cons _)).
    by destruct (sheets w). }
  simpl. repeat split.
Qed.

(** A first call on a loaded exam calls the submitter once when the
    module is present, and not otherwise. *)
Lemma submitExam_effects now random isAuto submissionType w e :
  exam (state w) = Some e ->
  isSubmitted (state w) = false ->
  sinkCalls (submitExam now random isAuto submissionType w).1
  = match sheets w with
    | Some _ => S (sinkCalls w)
    | None => sinkCalls w
    end.
Proof.
  intros He Hs. unfold submitExam. rewrite Hs, He.
  destruct (computeScoring e (answers (state w))) as [arr sc].
  unfold sinkCalls. simpl. rewrite List.filter_app, length_app.
  destruct (sheets w); simpl; lia.
Qed.

(** X14: when the countdown lies between 0 and the allowed duration, the
    result built by [submitExam] reports a used duration between 0 and
    the allowed duration, in whole minutes rounded up. *)
Theorem duration_used_within_allowed (now : Clock) (random : nat -> Q)
    (isAuto : bool) (submissionType : string) (w : World) (e : Exam.t) :
  exam (state w) = Some e ->
  isSubmitted (state w) = false ->
  0 <= timeLeft (state w) <= Timing.durationAllowed (timing (state w)) * 60 ->
  let w' := (submitExam now random isAuto submissionType w).1 in
  exists resultObject : Result.t,
    Session.builtResults w' = Session.builtResults w ++ [resultObject]
    /\ 0 <= Result.durationUsed (Result.timing_ resultObject)
       <= Result.durationAllowed (Result.timing_ resultObject)
    /\ Timing.durationAllowed (timing (state w)) * 60 - timeLeft (state w)
       <= 60 * Result.durationUsed (Result.timing_ resultObject)
       < Timing.durationAllowed (timing (state w)) * 60 - timeLeft (state w) + 60.
Proof.
  intros He Hs Ht. cbn zeta.
  destruct (submitExam_result now random isAuto submissionType w e He Hs)
    as (r & Hb & _ & _ & _ & _ & Hu & Ha & _).
  exists r. split; [exact Hb|]. rewrite Hu, Ha. unfold ceilDiv.
  Z.div_mod_to_equations. lia.
Qed.

Lemma duration_used_within_allowed_witness :
  let w' := (submitExam Scenario.clock Scenario.draws false "manual"
               Scenario.session).1 in
  exists resultObject : Result.t,
    Session.builtResults w' = [resultObject]
    /\ 0 <= Result.durationUsed (Result.timing_ resultObject) <= 30.
Proof.
  destruct (duration_used_within_allowed Scenario.clock Scenario.draws false
              "manual" Scenario.session Scenario.examA eq_refl eq_refl
              ltac:(simpl; lia)) as (r & Hb & Hu & _).
  exists r. split; [exact Hb|].
  assert (Ha : Result.durationAllowed (Result.timing_ r) = 30).
  { vm_compute in Hb. injection Hb as <-. reflexivity. }
  by rewrite <- Ha.
Defined.

(** X15: the result built by [submitExam] carries the monitor's count and
    ledger as they stand at the call; the call destroys the monitor, and
    nothing that reaches the monitor afterwards, short of a new [init],
    changes its ledger or makes it act; a call of [requestFullscreen()],
    which the page makes at login only, would still issue its request and
    nothing else. *)
Theorem result_carries_the_ledger (now : Clock) (random : nat -> Q)
    (isAuto : bool) (submissionType : string) (w : World) (e : Exam.t)
    (m : Integrity.World) (later : list Integrity.Event) :
  exam (state w) = Some e ->
  isSubmitted (state w) = false ->
  integrity w = Some m ->
  let w' := (submitExam now random isAuto submissionType w).1 in
  exists (resultObject : Result.t) (m' : Integrity.World),
    Session.builtResults w' = Session.builtResults w ++ [resultObject]
    /\ Result.violations (Result.integrity_ resultObject)
       = Integrity.violations (Integrity.state m)
    /\ Result.violationLog (Result.integrity_ resultObject)
       = Integrity.violationLog (Integrity.state m)
    /\ integrity w' = Some m'
    /\ Integrity.listening m' = false
    /\ Integrity.callbacks m' = Integrity.Build_Callbacks [] []
    /\ Spec.ledgerUnchanged m (Integrity.run later m')
    /\ (List.filter Spec.isFullscreenCall later = [] ->
        Integrity.effects (Integrity.run later m') = Integrity.effects m)
    /\ Integrity.effects (Integrity.run later m')
       = Integrity.effects m
         ++ Spec.pageRequests
              (Integrity.containerElement (Integrity.config m)) later.
Proof.
  intros He Hs Hm. cbn zeta.
  destruct (submitExam_result now random isAuto submissionType w e He Hs)
    as (r & Hb & _ & _ & _ & Hi & _ & _ & _ & _ & _ & _ & _ & Hd & _).
  rewrite Hm in Hi, Hd. exists r, (Integrity.destroy m).
  rewrite Hi. simpl.
  destruct (inactive_run later (Integrity.destroy m) eq_refl) as (_ & Hl & Heff).
  repeat split; try done; try apply Hl.
  intros Hnone. rewrite Heff. unfold Spec.pageRequests. rewrite Hnone. simpl.
  destruct (Integrity.containerElement (Integrity.config m)); by rewrite app_nil_r.
Qed.

Lemma result_carries_the_ledger_witness :
  let w := Session.withIntegrity
             (Some (Integrity.run [Integrity.VisibilityChange true 5000 5000]
                      (Scenario.monitor 3))) Scenario.session in
  let w' := (submitExam Scenario.clock Scenario.draws false "manual" w).1 in
  exists (resultObject : Result.t) (m' : Integrity.World),
    Session.builtResults w' = [resultObject]
    /\ Result.violations (Result.integrity_ resultObject) = 1
    /\ integrity w' = Some m'
    /\ Integrity.violations
         (Integrity.state
            (Integrity.run [Integrity.Blur false 9000 9000;
                            Integrity.TriggerViolation Integrity.tab_switch 9500 9500] m'))
       = 1.
Proof.
  intros w w'.
  destruct (result_carries_the_ledger Scenario.clock Scenario.draws false "manual"
              w Scenario.examA
              (Integrity.run [Integrity.VisibilityChange true 5000 5000]
                 (Scenario.monitor 3))
              [Integrity.Blur false 9000 9000;
               Integrity.TriggerViolation Integrity.tab_switch 9500 9500]
              eq_refl eq_refl eq_refl)
    as (r & m' & Hb & Hv & _ & Hm & _ & _ & [Hl _] & _).
  exists r, m'. split; [exact Hb|]. split; [exact Hv|]. split; [exact Hm|].
  exact Hl.
Defined.

End SubmissionResult.

(** * Properties of the running session *)

Section SessionBasics.
Import JS Script Session.

Variable stringify : Snapshot.t -> string.
Variable stringifyResult : Result.t -> string.

(** [saveActiveState] writes the storage and nothing else. *)
Lemma saveActiveState_frame w :
  state (saveActiveState stringify w) = state w
  /\ ticking (saveActiveState stringify w) = ticking w
  /\ integrity (saveActiveState stringify w) = integrity w
  /\ sheets (saveActiveState stringify w) = sheets w
  /\ dom (saveActiveState stringify w) = dom w
  /\ inFlight (saveActiveState stringify w) = inFlight w
  /\ effects (saveActiveState stringify w) = effects w.
Proof.
  unfold saveActiveState. destruct (exam (state w)); [|done].
  by destruct (isSubmitted (state w)).
Qed.

Lemma saveActiveState_state w : state (saveActiveState stringify w) = state w.
Proof. apply saveActiveState_frame. Qed.

Lemma saveActiveState_saves w e :
  exam (state w) = Some e -> isSubmitted (state w) = false ->
  localStorage (saveActiveState stringify w) !! STORAGE_KEY
  = Some (stringify (dataToSave (state w) e)).
Proof.
  intros He Hs. unfold saveActiveState. rewrite He, Hs. simpl.
  apply lookup_insert_eq.
Qed.

Lemma saveActiveState_submitted w :
  isSubmitted (state w) = true -> saveActiveState stringify w = w.
Proof.
  intros Hs. unfold saveActiveState. rewrite Hs. by destruct (exam (state w)).
Qed.

Lemma result_key_is_not_the_snapshot_key id :
  "exam_result_" +:+ id <> STORAGE_KEY.
Proof. rewrite append_cons. discriminate. Qed.

(** A tick of a running session with more than one second left. *)
Lemma tick_running now random w e :
  exam (state w) = Some e -> isSubmitted (state w) = false ->
  ticking w = true -> 1 < timeLeft (state w) ->
  let w' := (tick stringify now random w).1 in
  state w' = withTimeLeft (timeLeft (state w) - 1) (state w)
  /\ ticking w' = true
  /\ effects w' = effects w
  /\ integrity w' = integrity w /\ sheets w' = sheets w
  /\ inFlight w' = inFlight w /\ dom w' = dom w.
Proof.
  intros He Hs Ht Hleft. cbn zeta. unfold tick. rewrite Ht. simpl.
  set (w1 := withState _ w).
  assert (Hw2 : forall w2, w2 = (if Z.rem (timeLeft (state w) - 1) 5 =? 0
                                 then saveActiveState stringify w1 else w1) ->
                state w2 = state w1 /\ ticking w2 = true
                /\ effects w2 = effects w /\ integrity w2 = integrity w
                /\ sheets w2 = sheets w /\ inFlight w2 = inFlight w
                /\ dom w2 = dom w).
  { intros w2 ->. destruct (_ =? 0); [|done].
    destruct (saveActiveState_frame w1) as (-> & -> & -> & -> & -> & -> & ->).
    done. }
  destruct (Hw2 _ eq_refl) as (Hst & Hrest).
  rewrite Hst. simpl.
  destruct (Z.leb_spec (timeLeft (state w) - 1) 0); [lia|]. simpl.
  by rewrite Hst.
Qed.

(** The tick that brings the countdown to zero or below submits. *)
Lemma tick_last now random w e :
  exam (state w) = Some e -> isSubmitted (state w) = false ->
  ticking w = true -> timeLeft (state w) <= 1 ->
  let w' := (tick stringify now random w).1 in
  isSubmitted (state w') = true
  /\ ticking w' = false
  /\ localStorage w' !! STORAGE_KEY = None
  /\ exists resultObject,
       builtResults w' = builtResults w ++ [resultObject]
       /\ Result.type (Result.submission_ resultObject) = "auto-timeout"
       /\ Result.scoring_ resultObject = (computeScoring e (answers (state w))).2
       /\ Result.durationUsed (Result.timing_ resultObject)
          = ceilDiv (Timing.durationAllowed (timing (state w)) * 60
                     - (timeLeft (state w) - 1)) 60.
Proof.
  intros He Hs Ht Hleft. cbn zeta. unfold tick. rewrite Ht. simpl.
  set (w1 := withState _ w).
  set (w2 := if _ =? 0 then saveActiveState stringify w1 else w1).
  assert (Hst : state w2 = state w1).
  { subst w2. destruct (_ =? 0); [apply saveActiveState_state|done]. }
  assert (Heff : effects w2 = effects w).
  { subst w2. destruct (_ =? 0); [|done].
    by destruct (saveActiveState_frame w1) as (_ & _ & _ & _ & _ & _ & ->). }
  rewrite Hst. simpl.
  destruct (Z.leb_spec (timeLeft (state w) - 1) 0); [|lia].
  destruct (submitExam_result now random true "manual" (withTicking false w2) e)
    as (r & Hb & _ & Hsc & Hty & _ & Hdur & _ & Hsub & _ & _ & Htick & Hsto & _);
    [by simpl; rewrite Hst|by simpl; rewrite Hst|].
  repeat split; try done.
  - rewrite Hsto. unfold clearActiveState. apply lookup_delete_eq.
  - exists r. split; [|split; [done|split]].
    + rewrite Hb. unfold builtResults. simpl. by rewrite Heff.
    + rewrite Hsc. simpl. by rewrite Hst.
    + rewrite Hdur. simpl. by rewrite Hst.
Qed.

(** A tick of a stopped timer does nothing. *)
Lemma tick_stopped now random w :
  ticking w = false -> tick stringify now random w = (w, Returned).
Proof. intros H. unfold tick. by rewrite H. Qed.

End SessionBasics.

Section SessionRuns.
Import JS Script Session.

Variable stringify : Snapshot.t -> string.
Variable stringifyResult : Result.t -> string.

Local Abbreviation act := (Session.act stringify stringifyResult).
Local Abbreviation acts := (Session.acts stringify stringifyResult).

Lemma acts_snoc l a w : acts (l ++ [a]) w = act a (acts l w).
Proof. unfold Session.acts. by rewrite fold_left_app. Qed.

Lemma acts_cons a l w : acts (a :: l) w = acts l (act a w).
Proof. done. Qed.

(** [loadQuestion] either leaves the session alone or moves to an index
    of the exam and saves. *)
Lemma loadQuestion_cases index w :
  (loadQuestion stringify index w).1 = w
  \/ exists e,
       exam (state w) = Some e
       /\ 0 <= index < Z.of_nat (length (Exam.questions e))
       /\ (loadQuestion stringify index w).1
          = saveActiveState stringify
              (withState (withCurrentQIndex index (state w)) w).
Proof.
  unfold loadQuestion. destruct (Z.ltb_spec index 0); [by left|].
  destruct (exam (state w)) as [e|] eqn:He; [|by left].
  destruct (Z.leb_spec (Z.of_nat (length (Exam.questions e))) index); [by left|].
  right. exists e. split; [done|]. split; [lia|done].
Qed.

Lemma loadQuestion_returns index w e :
  exam (state w) = Some e -> (loadQuestion stringify index w).2 = Returned.
Proof.
  intros He. unfold loadQuestion. destruct (index <? 0); [done|].
  rewrite He. by destruct (_ <=? _).
Qed.

(** The world of [selectOption] on a running session: the answer is
    stored and the state saved. *)
Lemma selectOption_running qId optKey w e :
  exam (state w) = Some e -> isSubmitted (state w) = false ->
  exists w2,
    selectOption stringify qId optKey w = (saveActiveState stringify w2, Returned)
    /\ state w2
       = withAnswers (objectSet qId optKey (answers (state w))) (state w)
    /\ ticking w2 = ticking w /\ integrity w2 = integrity w
    /\ sheets w2 = sheets w /\ inFlight w2 = inFlight w
    /\ effects w2 = effects w.
Proof.
  intros He Hs. unfold selectOption. rewrite Hs. cbn zeta.
  set (w1 := withState _ w).
  assert (He1 : exam (state w1) = Some e) by done.
  rewrite He1.
  pose proof (loadQuestion_returns (currentQIndex (state w1)) w1 e He1) as Hr.
  destruct (loadQuestion_cases (currentQIndex (state w1)) w1)
    as [Hw|(e' & _ & _ & Hw)];
    destruct (loadQuestion stringify (currentQIndex (state w1)) w1) as [w2 c];
    simpl in Hr, Hw; subst c w2.
  - by exists w1.
  - eexists. split; [done|].
    match goal with
    | |- state (saveActiveState _ ?x) = _ /\ _ =>
        destruct (saveActiveState_frame stringify x)
          as (-> & -> & -> & -> & _ & -> & ->)
    end.
    done.
Qed.

(** Effects outside [submitExam] and the delivery are none. *)
Lemma submissionSettles_frame fetch now w :
  let w' := submissionSettles stringifyResult fetch now w in
  state w' = state w
  /\ ticking w' = ticking w
  /\ integrity w' = integrity w
  /\ builtResults w' = builtResults w
  /\ sinkCalls w' = sinkCalls w
  /\ localStorage w' !! STORAGE_KEY = localStorage w !! STORAGE_KEY.
Proof.
  cbn zeta. unfold submissionSettles.
  destruct (inFlight w) as [|r rest]; [done|].
  destruct (sheets w) as [c|]; [|done].
  destruct (Sheets.submit stringifyResult c r fetch now) as [es response].
  assert (Hb : forall es0 : list Sheets.Effect,
             omap (fun e => match e with
                            | BuildResult resultObject => Some resultObject
                            | _ => None
                            end) (Network <$> es0) = []).
  { induction es0; [done|]. by simpl. }
  assert (Hk : forall es0 : list Sheets.Effect,
             List.filter isSheetsSubmit (Network <$> es0) = []).
  { induction es0; [done|]. by simpl. }
  unfold onSubmitResolved. destruct (negb (Sheets.success response)); simpl;
    unfold builtResults, sinkCalls; simpl;
    rewrite ?omap_app, ?List.filter_app, ?Hb, ?Hk, ?app_nil_r;
    repeat split; try done.
  apply lookup_insert_ne. apply result_key_is_not_the_snapshot_key.
Qed.

(** Once the session is submitted, no action changes the answers, builds
    a result, calls the submitter or touches the stored snapshot. *)
Lemma submitted_act a w :
  isSubmitted (state w) = true ->
  isSubmitted (state (act a w)) = true
  /\ answers (state (act a w)) = answers (state w)
  /\ exam (state (act a w)) = exam (state w)
  /\ builtResults (act a w) = builtResults w
  /\ sinkCalls (act a w) = sinkCalls w
  /\ localStorage (act a w) !! STORAGE_KEY = localStorage w !! STORAGE_KEY.
Proof.
  intros Hs.
  assert (Hload : forall index,
             let w' := (loadQuestion stringify index w).1 in
             isSubmitted (state w') = true
             /\ answers (state w') = answers (state w)
             /\ exam (state w') = exam (state w)
             /\ builtResults w' = builtResults w
             /\ sinkCalls w' = sinkCalls w
             /\ localStorage w' !! STORAGE_KEY = localStorage w !! STORAGE_KEY).
  { intros index. cbn zeta.
    destruct (loadQuestion_cases index w) as [->|(e & _ & _ & ->)]; [done|].
    by rewrite saveActiveState_submitted. }
  destruct a as [now random|qId optKey|index| | | | |now random|ev now random|fetch now];
    simpl.
  - unfold tick. destruct (ticking w); simpl; [|done].
    set (w1 := withState _ w).
    assert (Hs1 : isSubmitted (state w1) = true) by done.
    rewrite (saveActiveState_submitted stringify w1 Hs1).
    destruct (_ =? 0); destruct (_ <=? 0);
      rewrite ?submitExam_submitted by done; done.
  - unfold selectOption. by rewrite Hs.
  - apply Hload.
  - apply Hload.
  - apply Hload.
  - unfold promptSubmit. by destruct (exam (state w)) eqn:He.
  - done.
  - by rewrite submitExam_submitted.
  - unfold signal. destruct (integrity w) as [m|]; [|done].
    destruct (_ <? _)%nat; [|done].
    by rewrite submitExam_submitted.
  - destruct (submissionSettles_frame fetch now w) as (-> & _ & _ & -> & -> & ->).
    done.
Qed.

(** X16: once a session is submitted, whatever happens next (ticks,
    clicks on options, navigation, dialog buttons, monitor events,
    deliveries ending) leaves the submitted flag set, the answers as
    they were, builds no further result, makes no further call of the
    submitter and does not write the stored snapshot. *)
Theorem submitted_session_is_frozen (w : World) (l : list Action) :
  isSubmitted (state w) = true ->
  let w' := acts l w in
  isSubmitted (state w') = true
  /\ answers (state w') = answers (state w)
  /\ builtResults w' = builtResults w
  /\ sinkCalls w' = sinkCalls w
  /\ localStorage w' !! STORAGE_KEY = localStorage w !! STORAGE_KEY.
Proof.
  intros Hs. cbn zeta. induction l as [|a l IH] using rev_ind; [done|].
  rewrite acts_snoc. destruct IH as (Hs' & Ha & Hb & Hk & Hl).
  destruct (submitted_act a (acts l w) Hs') as (Hs1 & Ha1 & _ & Hb1 & Hk1 & Hl1).
  rewrite Ha1, Hb1, Hk1, Hl1. done.
Qed.

(** ** The stored snapshot *)

Lemma submitExam_sets_flag now random isAuto submissionType w e :
  exam (state w) = Some e -> isSubmitted (state w) = false ->
  isSubmitted (state (submitExam now random isAuto submissionType w).1) = true.
Proof.
  intros He Hs.
  destruct (submitExam_result now random isAuto submissionType w e He Hs)
    as (r & _ & _ & _ & _ & _ & _ & _ & H & _).
  exact H.
Qed.

Lemma saved_is_persisted w e :
  exam (state w) = Some e -> isSubmitted (state w) = false ->
  0 < timeLeft (state w) ->
  Spec.persisted stringify (saveActiveState stringify w).
Proof.
  intros He Hs Ht. exists e, 0.
  rewrite saveActiveState_state. split; [done|]. split; [done|]. split; [done|].
  split.
  - unfold Spec.lagOk. pose proof (Z.mod_pos_bound (timeLeft (state w)) 5). lia.
  - rewrite (saveActiveState_saves stringify w e He Hs).
    unfold dataToSave, withTimeLeft. simpl. by rewrite Z.add_0_r.
Qed.

Lemma persisted_frame w w' :
  state w' = state w ->
  localStorage w' !! STORAGE_KEY = localStorage w !! STORAGE_KEY ->
  Spec.persisted stringify w -> Spec.persisted stringify w'.
Proof. intros Hs Hl (e & d & H). exists e, d. by rewrite Hs, Hl. Qed.

(** Every action keeps the snapshot in step with the session, or ends
    the session. *)
Lemma persisted_act a w :
  Spec.persisted stringify w ->
  Spec.persisted stringify (act a w) \/ isSubmitted (state (act a w)) = true.
Proof.
  intros Hp. pose proof Hp as (e & d & He & Hs & Ht & Hlag & Hsto).
  assert (Hload : forall index,
             Spec.persisted stringify (loadQuestion stringify index w).1).
  { intros index.
    destruct (loadQuestion_cases index w) as [->|(e' & _ & _ & ->)]; [done|].
    by apply (saved_is_persisted _ e). }
  destruct a as [now random|qId optKey|index| | | | |now random|ev now random|fetch now];
    simpl.
  - unfold tick. destruct (ticking w) eqn:Htick; simpl; [|by left].
    set (w1 := withState _ w).
    destruct (Z.eqb_spec (Z.rem (timeLeft (state w) - 1) 5) 0) as [Hrem|Hrem].
    + rewrite saveActiveState_state. simpl.
      destruct (Z.leb_spec (timeLeft (state w) - 1) 0).
      * right. apply (submitExam_sets_flag _ _ _ _ _ e); simpl;
          by rewrite saveActiveState_state.
      * left. by apply (saved_is_persisted w1 e).
    + simpl. destruct (Z.leb_spec (timeLeft (state w) - 1) 0).
      * right. by apply (submitExam_sets_flag _ _ _ _ _ e).
      * left. exists e, (d + 1). simpl.
        split; [done|]. split; [done|]. split; [lia|]. split.
        -- rewrite Z.rem_mod_nonneg in Hrem by lia.
           unfold Spec.lagOk in *. Z.div_mod_to_equations. lia.
        -- rewrite Hsto. do 2 f_equal. unfold dataToSave, withTimeLeft. simpl.
           f_equal. lia.
  - destruct (selectOption_running qId optKey w e He Hs) as (w2 & -> & Hst & _).
    simpl. left. apply (saved_is_persisted w2 e); by rewrite Hst.
  - left. apply Hload.
  - left. apply Hload.
  - left. apply Hload.
  - unfold promptSubmit. rewrite He. simpl. left. by apply (persisted_frame w).
  - left. by apply (persisted_frame w).
  - right. by apply (submitExam_sets_flag _ _ _ _ _ e).
  - unfold signal. destruct (integrity w) as [m|]; [|by left]. cbn zeta.
    set (w1 := withIntegrity _ w). destruct (_ <? _)%nat.
    + right.
      pose proof (submitExam_returns now random true "auto-violation" w1 e He) as Hr.
      pose proof (submitExam_sets_flag now random true "auto-violation" w1 e He Hs)
        as Hf.
      destruct (submitExam now random true "auto-violation" w1) as [w2 c].
      simpl in Hr, Hf. by subst c.
    + left. by apply (persisted_frame w).
  - left. destruct (submissionSettles_frame fetch now w) as (H1 & _ & _ & _ & _ & H2).
    by apply (persisted_frame w).
Qed.

(** X17: from a running session whose stored snapshot is in step with
    it, after any sequence of actions either the session is submitted,
    or the storage holds a snapshot with the session's present student,
    exam, question index, answers and timing, and a countdown at most 4
    seconds ahead of the session's. *)
Theorem stored_snapshot_tracks_session (w : World) (l : list Action) :
  Spec.persisted stringify w ->
  let w' := acts l w in
  isSubmitted (state w') = true
  \/ exists (e : Exam.t) (d : Z),
       exam (state w') = Some e
       /\ 0 <= d <= 4
       /\ localStorage w' !! STORAGE_KEY
          = Some (stringify
                    {| Snapshot.student := student (state w');
                       Snapshot.exam := e;
                       Snapshot.currentQIndex := currentQIndex (state w');
                       Snapshot.answers := answers (state w');
                       Snapshot.timeLeft := timeLeft (state w') + d;
                       Snapshot.timing := timing (state w') |}).
Proof.
  intros Hp. cbn zeta.
  assert (Hinv : Spec.persisted stringify (acts l w)
                 \/ isSubmitted (state (acts l w)) = true).
  { induction l as [|a l IH] using rev_ind; [by left|].
    rewrite acts_snoc. destruct IH as [IH|IH].
    - by apply persisted_act.
    - right. by apply submitted_act. }
  destruct Hinv as [(e & d & He & _ & _ & Hlag & Hsto)|Hs]; [|by left].
  right. exists e, d. split; [done|]. split; [|exact Hsto].
  unfold Spec.lagOk in Hlag.
  pose proof (Z.mod_pos_bound (timeLeft (state (acts l w))) 5).
  destruct (Z.eq_dec (timeLeft (state (acts l w)) mod 5) 0); lia.
Qed.

(** ** The countdown *)

Lemma ticks_snoc cs c :
  Spec.ticks (cs ++ [c]) = Spec.ticks cs ++ [Tick c.1 c.2].
Proof. unfold Spec.ticks. by rewrite fmap_app. Qed.

(** While more seconds are left than ticks arrive, the ticks only count
    down. *)
Lemma countdown cs : forall w e,
  exam (state w) = Some e -> isSubmitted (state w) = false ->
  ticking w = true -> Z.of_nat (length cs) < timeLeft (state w) ->
  let wk := acts (Spec.ticks cs) w in
  state wk = withTimeLeft (timeLeft (state w) - Z.of_nat (length cs)) (state w)
  /\ ticking wk = true
  /\ effects wk = effects w
  /\ integrity wk = integrity w /\ sheets wk = sheets w
  /\ inFlight wk = inFlight w.
Proof.
  induction cs as [|c cs IH] using rev_ind; intros w e He Hs Ht Hlen; cbn zeta.
  - simpl. rewrite Z.sub_0_r. by destruct w as [[] ? ? ? ? ? ? ?].
  - rewrite length_app in Hlen. simpl in Hlen.
    destruct (IH w e He Hs Ht ltac:(lia)) as (Hst & Htk & Heff & Hi & Hsh & Hin).
    rewrite ticks_snoc, acts_snoc. simpl.
    destruct (tick_running stringify c.1 c.2 (acts (Spec.ticks cs) w) e)
      as (Hst' & Htk' & Heff' & Hi' & Hsh' & Hin' & _);
      [by rewrite Hst|by rewrite Hst|done|rewrite Hst; simpl; lia|].
    rewrite Hst', Htk', Heff', Hi', Hsh', Hin', Hst.
    repeat split; try done.
    rewrite length_app. simpl. unfold withTimeLeft. simpl. f_equal. lia.
Qed.

(** X18: a running session with [n + 1] seconds left stays open for [n]
    ticks, counting down and building no result; the next tick submits
    it with type [auto-timeout], scores the answers as they stand,
    removes the stored snapshot and stops the timer. *)
Theorem countdown_ends_in_timeout (w : World) (e : Exam.t)
    (cs : list (Clock * (nat -> Q))) (c : Clock * (nat -> Q)) :
  exam (state w) = Some e ->
  isSubmitted (state w) = false ->
  ticking w = true ->
  timeLeft (state w) = Z.of_nat (length cs) + 1 ->
  (forall k : nat, (k <= length cs)%nat ->
     let wk := acts (Spec.ticks (take k cs)) w in
     isSubmitted (state wk) = false
     /\ timeLeft (state wk) = timeLeft (state w) - Z.of_nat k
     /\ builtResults wk = builtResults w)
  /\ let w' := acts (Spec.ticks (cs ++ [c])) w in
     isSubmitted (state w') = true
     /\ ticking w' = false
     /\ localStorage w' !! STORAGE_KEY = None
     /\ exists resultObject : Result.t,
          builtResults w' = builtResults w ++ [resultObject]
          /\ Result.type (Result.submission_ resultObject) = "auto-timeout"
          /\ Result.scoring_ resultObject
             = (computeScoring e (answers (state w))).2
          /\ Result.durationUsed (Result.timing_ resultObject)
             = Timing.durationAllowed (timing (state w)).
Proof.
  intros He Hs Ht Hleft. split.
  - intros k Hk. cbn zeta.
    destruct (countdown (take k cs) w e He Hs Ht) as (Hst & _ & Heff & _).
    { rewrite length_take. lia. }
    rewrite length_take in Hst. replace (k `min` length cs)%nat with k in Hst by lia.
    rewrite Hst. unfold builtResults. rewrite Heff. done.
  - cbn zeta.
    destruct (countdown cs w e He Hs Ht ltac:(lia)) as (Hst & Htk & Heff & _).
    rewrite ticks_snoc, acts_snoc. simpl.
    destruct (tick_last stringify c.1 c.2 (acts (Spec.ticks cs) w) e)
      as (Hsub & Htk' & Hsto & r & Hb & Hty & Hsc & Hdur);
      [by rewrite Hst|by rewrite Hst|done|rewrite Hst; simpl; lia|].
    split; [done|]. split; [done|]. split; [done|].
    exists r. split; [|split; [done|split]].
    + rewrite Hb. unfold builtResults. by rewrite Heff.
    + rewrite Hsc. by rewrite Hst.
    + rewrite Hdur, Hst. simpl.
      replace (_ - _) with (Timing.durationAllowed (timing (state w)) * 60) by lia.
      unfold ceilDiv. rewrite <- Z.mul_opp_l, Z.div_mul by lia. lia.
Qed.

(** ** Navigation *)

Lemma submitExam_keeps_position now random isAuto submissionType w :
  exam (state (submitExam now random isAuto submissionType w).1) = exam (state w)
  /\ currentQIndex (state (submitExam now random isAuto submissionType w).1)
     = currentQIndex (state w).
Proof.
  unfold submitExam. destruct (isSubmitted (state w)); [done|].
  destruct (exam (state w)) as [e|] eqn:He; [|done].
  by destruct (computeScoring e (answers (state w))).
Qed.

Lemma act_position a w e :
  exam (state w) = Some e ->
  exam (state (act a w)) = Some e
  /\ (currentQIndex (state (act a w)) = currentQIndex (state w)
      \/ 0 <= currentQIndex (state (act a w)) < Z.of_nat (length (Exam.questions e))).
Proof.
  intros He.
  assert (Hload : forall index,
             exam (state (loadQuestion stringify index w).1) = Some e
             /\ (currentQIndex (state (loadQuestion stringify index w).1)
                 = currentQIndex (state w)
                 \/ 0 <= currentQIndex (state (loadQuestion stringify index w).1)
                    < Z.of_nat (length (Exam.questions e)))).
  { intros index.
    destruct (loadQuestion_cases index w) as [->|(e' & He' & Hr & ->)];
      [by split; [|left]|].
    rewrite saveActiveState_state. simpl. split; [done|]. right.
    rewrite He in He'. by injection He' as <-. }
  destruct a as [now random|qId optKey|index| | | | |now random|ev now random|fetch now];
    simpl.
  - unfold tick. destruct (ticking w); simpl; [|by split; [|left]].
    set (w1 := withState _ w).
    set (w2 := if _ =? 0 then saveActiveState stringify w1 else w1).
    assert (Hst : state w2 = state w1).
    { subst w2. destruct (_ =? 0); [apply saveActiveState_state|done]. }
    destruct (_ <=? 0).
    + destruct (submitExam_keeps_position now random true "manual"
                  (withTicking false w2)) as (-> & ->).
      simpl. rewrite Hst. by split; [|left].
    + simpl. rewrite Hst. by split; [|left].
  - destruct (isSubmitted (state w)) eqn:Hs.
    + unfold selectOption. rewrite Hs. by split; [|left].
    + destruct (selectOption_running qId optKey w e He Hs) as (w2 & -> & Hst & _).
      simpl. rewrite saveActiveState_state, Hst. by split; [|left].
  - apply Hload.
  - apply Hload.
  - apply Hload.
  - unfold promptSubmit. rewrite He. by split; [|left].
  - by split; [|left].
  - destruct (submitExam_keeps_position now random false "manual" w) as (-> & ->).
    by split; [|left].
  - unfold signal. destruct (integrity w) as [m|]; [|by split; [|left]]. cbn zeta.
    set (w1 := withIntegrity _ w). destruct (_ <? _)%nat; [|by split; [|left]].
    destruct (submitExam_keeps_position now random true "auto-violation" w1)
      as (Hx & Hi).
    destruct (submitExam now random true "auto-violation" w1) as [w2 [|err]];
      simpl in *; rewrite Hx, Hi; by split; [|left].
  - destruct (submissionSettles_frame fetch now w) as (-> & _). by split; [|left].
Qed.

(** X19: the current question index, once inside the exam, stays inside
    it whatever happens; [Previous] on the first question and [Next] or
    [Skip] on the last one change nothing. *)
Theorem navigation_stays_in_range (w : World) (l : list Action) :
  Spec.indexInRange w ->
  let w' := acts l w in
  Spec.indexInRange w'
  /\ (currentQIndex (state w') = 0 -> act Prev w' = w')
  /\ (forall e, exam (state w') = Some e ->
        currentQIndex (state w') = Z.of_nat (length (Exam.questions e)) - 1 ->
        act Next w' = w').
Proof.
  intros Hin. cbn zeta. split; [|split].
  - induction l as [|a l IH] using rev_ind; [done|].
    rewrite acts_snoc. destruct IH as (e & He & Hr).
    destruct (act_position a (acts l w) e He) as (He' & [Hi|Hi]);
      exists e; split; try done. by rewrite Hi.
  - intros H0. simpl. unfold loadQuestion. rewrite H0. done.
  - intros e He Hlast. simpl. unfold loadQuestion. rewrite He, Hlast.
    destruct (Z.ltb_spec (Z.of_nat (length (Exam.questions e)) - 1 + 1) 0); [done|].
    destruct (Z.leb_spec (Z.of_nat (length (Exam.questions e)))
                (Z.of_nat (length (Exam.questions e)) - 1 + 1)); [done|lia].
Qed.

End SessionRuns.

(** ** The count shown in the submit dialog *)

Section DialogCount.
Import JS Script Session.

(** With distinct question ids and answers given to questions of the
    exam only, the questions split into the answered ones, as many as
    the answers object has keys, the unanswered ones, and those without
    an answer whose id names a member of [Object.prototype]. *)
Lemma questions_split qs : forall answers : gmap string OptionKey,
  NoDup (Question.questionId <$> qs) ->
  (forall k, is_Some (answers !! k) -> k ∈ Question.questionId <$> qs) ->
  length qs
  = (size answers + length (List.filter (Spec.unanswered answers) qs)
     + length (List.filter (Spec.inheritedOnly answers) qs))%nat.
Proof.
  induction qs as [|q qs IH]; intros answers Hnd Hdom.
  - assert (answers = ∅) as ->.
    { apply map_empty. intros k. destruct (answers !! k) eqn:E; [|done].
      assert (Hk : is_Some (answers !! k)) by (by rewrite E).
      apply Hdom in Hk. by apply elem_of_nil in Hk. }
    by rewrite map_size_empty.
  - rewrite fmap_cons in Hnd. apply NoDup_cons in Hnd as [Hnotin Hnd].
    cbn [List.filter]. unfold Spec.unanswered at 1, Spec.inheritedOnly at 1.
    destruct (answers !! Question.questionId q) as [o|] eqn:E.
    + assert (Hother : forall q', In q' qs ->
                delete (Question.questionId q) answers !! Question.questionId q'
                = answers !! Question.questionId q').
      { intros q' Hq'. rewrite lookup_delete_ne; [done|].
        intros Heq. apply Hnotin. rewrite Heq.
        apply list_elem_of_fmap_2. by apply list_elem_of_In. }
      assert (Hsame : List.filter (Spec.unanswered answers) qs
                      = List.filter
                          (Spec.unanswered (delete (Question.questionId q) answers))
                          qs).
      { apply List.filter_ext_in. intros q' Hq'. unfold Spec.unanswered.
        by rewrite Hother. }
      assert (Hsame' : List.filter (Spec.inheritedOnly answers) qs
                       = List.filter
                           (Spec.inheritedOnly
                              (delete (Question.questionId q) answers)) qs).
      { apply List.filter_ext_in. intros q' Hq'. unfold Spec.inheritedOnly.
        by rewrite Hother. }
      rewrite Hsame, Hsame'.
      pose proof (map_size_delete (Question.questionId q) answers) as Hsz.
      rewrite E in Hsz. simpl in Hsz.
      assert (size answers <> 0%nat)
        by (by apply (map_size_ne_0_lookup_2 _ (Question.questionId q))).
      cbn [length]. rewrite (IH (delete (Question.questionId q) answers) Hnd).
      * simpl. lia.
      * intros k Hk. apply lookup_delete_is_Some in Hk as [Hne Hk].
        specialize (Hdom k Hk). rewrite fmap_cons in Hdom.
        apply elem_of_cons in Hdom as [->|]; done.
    + cbn [length]. rewrite (IH answers Hnd).
      * destruct (inherits (Question.questionId q)); simpl; lia.
      * intros k Hk. specialize (Hdom k Hk). rewrite fmap_cons in Hdom.
        apply elem_of_cons in Hdom as [->|]; [|done].
        rewrite E in Hk. by destruct Hk.
Qed.

Lemma no_inherited_ids answers qs :
  Forall (fun q => inherits (Question.questionId q) = false) qs ->
  List.filter (Spec.inheritedOnly answers) qs = [].
Proof.
  induction 1 as [|q qs Hq Hqs IH]; [done|]. simpl.
  unfold Spec.inheritedOnly at 1. rewrite Hq.
  by destruct (answers !! Question.questionId q).
Qed.

(** The questions without an answer that count as wrong. *)
Lemma gradeAll_inherited answers qs : forall t,
  wrongCount t
  + Z.of_nat (length (List.filter (Spec.inheritedOnly answers) qs))
  <= wrongCount (gradeAll answers qs t).1.
Proof.
  induction qs as [|q qs IH]; intros t; [simpl; lia|].
  rewrite gradeAll_cons. cbn [fst snd List.filter].
  specialize (IH (grade answers q t).1).
  assert (Hq : wrongCount t
               + (if Spec.inheritedOnly answers q then 1 else 0)
               <= wrongCount (grade answers q t).1).
  { unfold grade, selectedFor, Spec.inheritedOnly. simpl.
    destruct (answers !! Question.questionId q) as [o|]; simpl.
    - destruct (OptionKey_eqb o (Question.correctAnswer q)); simpl; lia.
    - destruct (inherits (Question.questionId q)); simpl; lia. }
  destruct (Spec.inheritedOnly answers q); simpl in *; lia.
Qed.

(** X20: when the question ids of the exam are distinct and every
    answer belongs to a question of the exam, the number of unanswered
    questions computed by [promptSubmit] and [updateStats] (questions
    minus keys of the answers object) is the [unansweredQuestions] of
    the result [submitExam] builds plus the number of questions without
    an answer whose id names a member of [Object.prototype]; these are
    shown as unanswered but scored as attempted and wrong.  When no
    question id is such a name, the two counts of unanswered questions
    agree, and so do the two counts of answered ones. *)
Theorem dialog_count_matches_result (s : State) (e : Exam.t) :
  NoDup (Question.questionId <$> Exam.questions e) ->
  (forall k, is_Some (answers s !! k) ->
     k ∈ Question.questionId <$> Exam.questions e) ->
  let sc := (computeScoring e (answers s)).2 in
  let shadowed :=
    Z.of_nat (length (List.filter (Spec.inheritedOnly (answers s))
                        (Exam.questions e))) in
  unansweredShown s e = Result.unansweredQuestions sc + shadowed
  /\ Z.of_nat (size (answers s)) + shadowed = Result.attemptedQuestions sc
  /\ shadowed <= Result.wrongAnswers sc
  /\ (Forall (fun q => inherits (Question.questionId q) = false)
        (Exam.questions e) ->
      unansweredShown s e = Result.unansweredQuestions sc
      /\ Z.of_nat (size (answers s)) = Result.attemptedQuestions sc).
Proof.
  intros Hnd Hdom. cbn zeta. rewrite computeScoring_scoring. cbn zeta. simpl.
  rewrite gradeAll_unanswered. unfold unansweredShown. simpl.
  pose proof (questions_split (Exam.questions e) (answers s) Hnd Hdom) as Hsplit.
  pose proof (gradeAll_inherited (answers s) (Exam.questions e) noTally) as Hwrong.
  simpl in Hwrong.
  split; [lia|]. split; [lia|]. split; [lia|].
  intros Hplain.
  rewrite (no_inherited_ids _ _ Hplain) in Hsplit. simpl in Hsplit. lia.
Qed.

End DialogCount.

Lemma dialog_count_matches_result_witness :
  let s := Session.withAnswers ∅ (Script.state Scenario.session) in
  let e := Scenario.examOf [Scenario.question "Q1" A None;
                            Scenario.question "constructor" B None] None in
  Session.unansweredShown s e = 2
  /\ Result.unansweredQuestions (Script.computeScoring e ∅).2 = 1
  /\ Session.unansweredShown s e
     = Result.unansweredQuestions (Script.computeScoring e ∅).2 + 1.
Proof.
  intros s e. split; [reflexivity|]. split; [reflexivity|].
  assert (Hnd : NoDup (Question.questionId <$> Exam.questions e)).
  { simpl. apply NoDup_cons. split; [|apply NoDup_singleton].
    intros Hin. apply list_elem_of_singleton in Hin. discriminate. }
  assert (Hdom : forall k, is_Some (Script.answers s !! k) ->
                   k ∈ Question.questionId <$> Exam.questions e).
  { intros k [o Hk]. simpl in Hk. by rewrite lookup_empty in Hk. }
  destruct (dialog_count_matches_result s e Hnd Hdom) as (H & _).
  exact H.
Defined.

(** ** The monitor inside the session *)

Section SessionMonitor.
Import JS Script Session.

(** X21: in a running session whose monitor has auto-submission on, a
    subscriber registered and violation subscribers that return, the
    monitor event that brings the count of violations to the threshold
    submits the session: one result is built, of type [auto-violation],
    reporting as many violations as the threshold and the monitor's
    ledger including the last entry; the stored snapshot is removed, the
    timer stopped and the monitor destroyed. *)
Theorem violation_threshold_submits_the_session (w : World) (e : Exam.t)
    (m : Integrity.World) (ev : Integrity.Event) (now : Clock)
    (random : nat -> Q) :
  exam (state w) = Some e ->
  isSubmitted (state w) = false ->
  integrity w = Some m ->
  Integrity.autoSubmitOnViolation (Integrity.config m) = true ->
  Spec.subscribersReturn (Integrity.onViolation (Integrity.callbacks m)) ->
  Integrity.onAutoSubmit (Integrity.callbacks m) <> [] ->
  Integrity.violations (Integrity.state m)
  < Integrity.violationThreshold (Integrity.config m) ->
  Integrity.violationThreshold (Integrity.config m)
  <= Integrity.violations (Integrity.state (Integrity.step ev m)) ->
  let r := signal ev now random w in
  r.2 = Returned
  /\ isSubmitted (state r.1) = true
  /\ ticking r.1 = false
  /\ localStorage r.1 !! STORAGE_KEY = None
  /\ integrity r.1 = Some (Integrity.destroy (Integrity.step ev m))
  /\ exists resultObject : Result.t,
       builtResults r.1 = builtResults w ++ [resultObject]
       /\ Result.type (Result.submission_ resultObject) = "auto-violation"
       /\ Result.violations (Result.integrity_ resultObject)
          = Integrity.violationThreshold (Integrity.config m)
       /\ Result.violationLog (Result.integrity_ resultObject)
          = Integrity.violationLog (Integrity.state (Integrity.step ev m))
       /\ Z.of_nat (length (Result.violationLog (Result.integrity_ resultObject)))
          = Z.of_nat (length (Integrity.violationLog (Integrity.state m))) + 1.
Proof.
  intros He Hs Hm Hauto Hret Hsub Hbelow Hreach. cbn zeta.
  destruct (threshold_crossing_submits m ev Hauto Hret Hbelow Hreach)
    as (_ & _ & Hcalls).
  assert (Hfired : (Integrity.autoSubmitCalls 0 (Integrity.effects m)
                    <? Integrity.autoSubmitCalls 0
                         (Integrity.effects (Integrity.step ev m)))%nat = true).
  { apply Nat.ltb_lt. rewrite Hcalls; [lia|].
    destruct (Integrity.onAutoSubmit (Integrity.callbacks m)); [done|simpl; lia]. }
  assert (Hone : Integrity.violations (Integrity.state (Integrity.step ev m))
                 = Integrity.violationThreshold (Integrity.config m)
                 /\ Z.of_nat (length (Integrity.violationLog
                                        (Integrity.state (Integrity.step ev m))))
                    = Z.of_nat (length (Integrity.violationLog (Integrity.state m)))
                      + 1).
  { destruct (step_state_cases ev m)
      as [(ty & t & stamp & _ & Hv & Hl & _)|(Hv & _)];
      [|lia].
    rewrite Hl, length_app. simpl. lia. }
  destruct Hone as [Hcount Hlen].
  unfold signal. rewrite Hm. cbn zeta. rewrite Hfired.
  set (w1 := withIntegrity (Some (Integrity.step ev m)) w).
  pose proof (submitExam_returns now random true "auto-violation" w1 e He) as Hr.
  destruct (submitExam_result now random true "auto-violation" w1 e He Hs)
    as (r & Hb & _ & _ & Hty & Hint & _ & _ & Hflag & _ & _ & Htick & Hsto & Hmon & _).
  destruct (submitExam now random true "auto-violation" w1) as [w2 c].
  simpl in *. subst c. simpl.
  split; [done|]. split; [done|]. split; [done|].
  split; [rewrite Hsto; apply lookup_delete_eq|]. split; [done|].
  exists r. rewrite Hint. simpl. by rewrite Hcount.
Qed.

End SessionMonitor.

Lemma violation_threshold_submits_the_session_witness :
  let m := Integrity.registerAutoSubmit Session.autoSubmitSubscriber
             (Scenario.monitor 1) in
  let w := Session.withIntegrity (Some m) Scenario.session in
  let r := Session.signal (Integrity.VisibilityChange true 5000 5000)
             Scenario.clock Scenario.draws w in
  Script.isSubmitted (Script.state r.1) = true
  /\ exists resultObject : Result.t,
       Session.builtResults r.1 = Session.builtResults w ++ [resultObject]
       /\ Result.type (Result.submission_ resultObject) = "auto-violation"
       /\ Result.violations (Result.integrity_ resultObject) = 1.
Proof.
  intros m w r.
  destruct (violation_threshold_submits_the_session w Scenario.examA m
              (Integrity.VisibilityChange true 5000 5000) Scenario.clock
              Scenario.draws eq_refl eq_refl eq_refl eq_refl)
    as (_ & Hflag & _ & _ & _ & resultObject & Hb & Hty & Hv & _).
  - intros cb Hcb. simpl in Hcb. destruct Hcb.
  - simpl. discriminate.
  - simpl. lia.
  - vm_compute. discriminate.
  - split; [exact Hflag|]. exists resultObject.
    split; [exact Hb|]. split; [exact Hty|]. exact Hv.
Defined.

(** ** Starting and resuming *)

Section Starting.
Import JS Script Session.

Variable stringify : Snapshot.t -> string.
Variable stringifyResult : Result.t -> string.

Local Abbreviation acts := (Session.acts stringify stringifyResult).

(** What [startExam] leaves behind on a page that has not submitted. *)
Lemma startExam_spec examData handle now w :
  isSubmitted (state w) = false ->
  let duration := orDefault (Settings.duration (Exam.settings examData)) 30 in
  let r := startExam stringify examData handle now w in
  r.2 = Returned
  /\ state r.1
     = {| student :=
            {| Student.name := Student.name (student (state w));
               Student.seatNumber := Student.seatNumber (student (state w));
               Student.class := Student.class (student (state w));
               Student.subject := Metadata.subject (Exam.metadata examData) |};
          exam := Some examData; currentQIndex := 0; answers := ∅;
          timeLeft := duration * 60; timerId := Some handle;
          isSubmitted := false;
          timing := {| Timing.startedAt := Some (epochMs now);
                       Timing.submittedAt := Timing.submittedAt (timing (state w));
                       Timing.durationAllowed := duration |} |}
  /\ localStorage r.1 !! STORAGE_KEY
     = Some (stringify (dataToSave (state r.1) examData))
  /\ ticking r.1 = true
  /\ effects r.1 = effects w
  /\ inFlight r.1 = inFlight w
  /\ integrity r.1
     = (fun m => Integrity.registerAutoSubmit autoSubmitSubscriber
                   (Integrity.init (integrityPatch (Exam.settings examData)) m))
       <$> integrity w
  /\ sheets r.1
     = match sheets w, Settings.webhookUrl (Exam.settings examData) with
       | Some c, Some url => Some (Sheets.configure (Some url) None c)
       | other, _ => other
       end.
Proof.
  intros Hs. cbn zeta. unfold startExam. cbn zeta.
  set (s1 := {| student := _; exam := Some examData |}).
  set (w1 := armIntegrity _ _).
  set (w2 := match sheets w1 with Some _ => _ | None => _ end).
  assert (H2 : state w2 = s1 /\ effects w2 = effects w /\ inFlight w2 = inFlight w
               /\ integrity w2 = integrity w1
               /\ sheets w2
                  = match sheets w, Settings.webhookUrl (Exam.settings examData) with
                    | Some c, Some url => Some (Sheets.configure (Some url) None c)
                    | other, _ => other
                    end).
  { subst w2. simpl. destruct (sheets w) as [c|] eqn:Hsh; [|done].
    destruct (Settings.webhookUrl (Exam.settings examData)) as [url|]; [|done].
    destruct (String.eqb_spec url "") as [->|]; [|done].
    simpl. rewrite Hsh. repeat split; try done. by destruct c. }
  destruct H2 as (Hst2 & Heff2 & Hin2 & Hint2 & Hsh2).
  assert (He2 : exam (state w2) = Some examData) by (by rewrite Hst2).
  pose proof (loadQuestion_returns stringify 0 w2 examData He2) as Hr.
  assert (H3 : state (loadQuestion stringify 0 w2).1 = s1
               /\ effects (loadQuestion stringify 0 w2).1 = effects w
               /\ inFlight (loadQuestion stringify 0 w2).1 = inFlight w
               /\ integrity (loadQuestion stringify 0 w2).1 = integrity w1
               /\ sheets (loadQuestion stringify 0 w2).1 = sheets w2).
  { destruct (loadQuestion_cases stringify 0 w2) as [->|(e' & _ & _ & ->)]; [done|].
    destruct (saveActiveState_frame stringify
                (withState (withCurrentQIndex 0 (state w2)) w2))
      as (-> & _ & -> & -> & _ & -> & ->).
    simpl. by rewrite Hst2. }
  destruct (loadQuestion stringify 0 w2) as [w3 c]. simpl in Hr, H3. subst c.
  destruct H3 as (Hst3 & Heff3 & Hin3 & Hint3 & Hsh3). simpl.
  set (w4 := showExamScreen (startTimer handle w3)).
  assert (Hst4 : state w4 = withTimerId handle s1) by (by simpl; rewrite Hst3).
  destruct (saveActiveState_frame stringify w4) as (-> & -> & -> & -> & _ & -> & ->).
  split; [done|]. split; [rewrite Hst4; unfold s1, withTimerId; simpl; by rewrite Hs|].
  split.
  { rewrite (saveActiveState_saves stringify w4 examData); [done|..];
      by rewrite Hst4; simpl. }
  simpl. by rewrite Heff3, Hin3, Hint3, Hsh3, Hsh2.
Qed.

(** With no answer given no mark is obtained; a question counts as
    unanswered, or as wrong when its id names a member of
    [Object.prototype]. *)
Lemma gradeAll_blank qs : forall t,
  (gradeAll ∅ qs t).1
  = {| score := score t;
       totalObtainable := totalObtainable t + Spec.sumZ (marksOf <$> qs);
       correctCount := correctCount t;
       wrongCount :=
         wrongCount t
         + Z.of_nat (length (List.filter (Spec.inheritedOnly ∅) qs));
       unansweredCount :=
         unansweredCount t
         + Z.of_nat (length (List.filter (Spec.unanswered ∅) qs)) |}.
Proof.
  induction qs as [|q qs IH]; intros t.
  - simpl. destruct t. simpl. f_equal; lia.
  - rewrite gradeAll_cons, fmap_cons, sumZ_cons. cbn [fst List.filter].
    rewrite IH.
    unfold grade, selectedFor, Spec.inheritedOnly, Spec.unanswered.
    rewrite lookup_empty. simpl.
    destruct (inherits (Question.questionId q)); simpl; f_equal; lia.
Qed.

Lemma blank_split qs :
  length qs
  = (length (List.filter (Spec.unanswered ∅) qs)
     + length (List.filter (Spec.inheritedOnly ∅) qs))%nat.
Proof.
  induction qs as [|q qs IH]; [done|]. cbn [List.filter length].
  unfold Spec.inheritedOnly at 1, Spec.unanswered at 1. rewrite lookup_empty.
  destruct (inherits (Question.questionId q)); simpl; lia.
Qed.

(** X22: [startExam] on a page that has not submitted, with the monitor
    loaded and a positive duration, returns with a running timer, a
    stored snapshot equal to the session, and a monitor restarted from
    nothing: its count is 0 and its ledger empty whatever they were, the
    subscribers registered before are gone and the only one is the
    session's own, and the threshold is never 0. *)
Theorem started_session_is_saved_and_armed (examData : Exam.t) (handle : Z)
    (now : Clock) (w : World) (m : Integrity.World) :
  isSubmitted (state w) = false ->
  integrity w = Some m ->
  0 < orDefault (Settings.duration (Exam.settings examData)) 30 ->
  let r := startExam stringify examData handle now w in
  r.2 = Returned
  /\ ticking r.1 = true
  /\ answers (state r.1) = ∅
  /\ timeLeft (state r.1)
     = orDefault (Settings.duration (Exam.settings examData)) 30 * 60
  /\ localStorage r.1 !! STORAGE_KEY
     = Some (stringify (dataToSave (state r.1) examData))
  /\ Spec.persisted stringify r.1
  /\ exists m' : Integrity.World,
       integrity r.1 = Some m'
       /\ Integrity.violations (Integrity.state m') = 0
       /\ Integrity.violationLog (Integrity.state m') = []
       /\ Integrity.isActive (Integrity.state m') = true
       /\ Integrity.onViolation (Integrity.callbacks m') = []
       /\ Integrity.onAutoSubmit (Integrity.callbacks m') = [autoSubmitSubscriber]
       /\ Integrity.violationThreshold (Integrity.config m') <> 0
       /\ Integrity.autoSubmitOnViolation (Integrity.config m')
          = orFalse (Settings.autoSubmitOnViolation (Exam.settings examData)).
Proof.
  intros Hs Hm Hdur. cbn zeta.
  destruct (startExam_spec examData handle now w Hs)
    as (Hr & Hst & Hsto & Htk & _ & _ & Hint & _).
  split; [done|]. split; [done|]. split; [by rewrite Hst|].
  split; [by rewrite Hst|]. split; [done|]. split.
  - exists examData, 0. rewrite Hsto, Hst. simpl.
    split; [done|]. split; [done|]. split; [lia|]. split.
    + unfold Spec.lagOk.
      pose proof (Z.mod_pos_bound
                    (orDefault (Settings.duration (Exam.settings examData)) 30 * 60) 5).
      lia.
    + unfold dataToSave, withTimeLeft. simpl. by rewrite Z.add_0_r.
  - rewrite Hint, Hm. simpl. eexists. split; [done|]. simpl.
    repeat split; try done.
    unfold orDefault. destruct (Settings.violationThreshold _) as [[| |]|]; done.
Qed.

(** X23: a session started and then left alone is open after every tick
    but the last of its duration, and the last tick submits it with type
    [auto-timeout]: the result reports the whole allowed duration as
    used, no mark obtained and no question answered correctly; the
    questions count as unanswered, except those whose id names a member of
    [Object.prototype], which are counted as attempted and wrong.  With
    no such id in the exam, every question is unanswered and none
    attempted. *)
Theorem untouched_session_times_out (examData : Exam.t) (handle : Z)
    (now : Clock) (w : World) (cs : list (Clock * (nat -> Q)))
    (c : Clock * (nat -> Q)) :
  isSubmitted (state w) = false ->
  orDefault (Settings.duration (Exam.settings examData)) 30 * 60
  = Z.of_nat (length cs) + 1 ->
  let w0 := (startExam stringify examData handle now w).1 in
  let w' := acts (Spec.ticks (cs ++ [c])) w0 in
  isSubmitted (state (acts (Spec.ticks cs) w0)) = false
  /\ isSubmitted (state w') = true
  /\ exists resultObject : Result.t,
       builtResults w' = builtResults w ++ [resultObject]
       /\ Result.type (Result.submission_ resultObject) = "auto-timeout"
       /\ Result.durationUsed (Result.timing_ resultObject)
          = orDefault (Settings.duration (Exam.settings examData)) 30
       /\ Result.obtainedMarks (Result.scoring_ resultObject) = 0
       /\ Result.correctAnswers (Result.scoring_ resultObject) = 0
       /\ Result.unansweredQuestions (Result.scoring_ resultObject)
          = Z.of_nat (length (List.filter (Spec.unanswered ∅)
                                (Exam.questions examData)))
       /\ Result.attemptedQuestions (Result.scoring_ resultObject)
          = Z.of_nat (length (List.filter (Spec.inheritedOnly ∅)
                                (Exam.questions examData)))
       /\ Result.wrongAnswers (Result.scoring_ resultObject)
          = Result.attemptedQuestions (Result.scoring_ resultObject)
       /\ (Forall (fun q => inherits (Question.questionId q) = false)
             (Exam.questions examData) ->
           Result.unansweredQuestions (Result.scoring_ resultObject)
           = Z.of_nat (length (Exam.questions examData))
           /\ Result.attemptedQuestions (Result.scoring_ resultObject) = 0).
Proof.
  intros Hs Hdur. cbn zeta.
  destruct (startExam_spec examData handle now w Hs)
    as (_ & Hst & _ & Htk & Heff & _).
  set (w0 := (startExam stringify examData handle now w).1) in *.
  assert (He0 : exam (state w0) = Some examData) by (by rewrite Hst).
  assert (Hs0 : isSubmitted (state w0) = false) by (by rewrite Hst).
  assert (Ht0 : timeLeft (state w0) = Z.of_nat (length cs) + 1)
    by (by rewrite Hst).
  destruct (countdown stringify stringifyResult cs w0 examData He0 Hs0 Htk
              ltac:(lia)) as (Hstk & Htkk & Heffk & _).
  split; [by rewrite Hstk|].
  rewrite ticks_snoc, acts_snoc. simpl.
  destruct (tick_last stringify c.1 c.2 (acts (Spec.ticks cs) w0) examData)
    as (Hsub & _ & _ & r & Hb & Hty & Hsc & Hused);
    [by rewrite Hstk|by rewrite Hstk|done|rewrite Hstk; simpl; lia|].
  split; [done|]. exists r.
  split; [rewrite Hb; unfold builtResults; by rewrite Heffk, Heff|].
  split; [done|].
  rewrite Hsc, Hused, Hstk, Hst. simpl.
  rewrite computeScoring_scoring. cbn zeta. simpl.
  rewrite gradeAll_blank. simpl.
  pose proof (blank_split (Exam.questions examData)) as Hsplit.
  split.
  { replace (_ - _) with
      (orDefault (Settings.duration (Exam.settings examData)) 30 * 60) by lia.
    unfold ceilDiv. rewrite <- Z.mul_opp_l, Z.div_mul by lia. lia. }
  split; [done|]. split; [done|]. split; [done|]. split; [lia|].
  split; [lia|].
  intros Hplain. rewrite (no_inherited_ids _ _ Hplain) in Hsplit.
  simpl in Hsplit. lia.
Qed.

(** What [resumeExam] leaves behind on a page that has not submitted. *)
Lemma resumeExam_spec savedState handle w :
  let r := resumeExam stringify savedState handle w in
  r.2 = Returned
  /\ state r.1
     = {| student := Snapshot.student savedState;
          exam := Some (Snapshot.exam savedState);
          currentQIndex := Snapshot.currentQIndex savedState;
          answers := Snapshot.answers savedState;
          timeLeft := Snapshot.timeLeft savedState; timerId := Some handle;
          isSubmitted := isSubmitted (state w);
          timing := Snapshot.timing savedState |}
  /\ ticking r.1 = true
  /\ effects r.1 = effects w
  /\ inFlight r.1 = inFlight w
  /\ sheets r.1 = sheets w
  /\ integrity r.1
     = (fun m => Integrity.registerAutoSubmit autoSubmitSubscriber
                   (Integrity.init
                      (integrityPatch (Exam.settings (Snapshot.exam savedState))) m))
       <$> integrity w.
Proof.
  cbn zeta. unfold resumeExam. cbn zeta.
  set (s1 := {| student := Snapshot.student savedState |}).
  set (w1 := Session.withState s1 w).
  assert (He1 : exam (state w1) = Some (Snapshot.exam savedState)) by done.
  pose proof (loadQuestion_returns stringify (currentQIndex s1) w1 _ He1) as Hr.
  assert (H3 : state (loadQuestion stringify (currentQIndex s1) w1).1 = s1
               /\ effects (loadQuestion stringify (currentQIndex s1) w1).1 = effects w
               /\ inFlight (loadQuestion stringify (currentQIndex s1) w1).1 = inFlight w
               /\ integrity (loadQuestion stringify (currentQIndex s1) w1).1
                  = integrity w
               /\ sheets (loadQuestion stringify (currentQIndex s1) w1).1 = sheets w).
  { destruct (loadQuestion_cases stringify (currentQIndex s1) w1)
      as [->|(e' & _ & _ & ->)]; [done|].
    destruct (saveActiveState_frame stringify
                (withState (withCurrentQIndex (currentQIndex s1) (state w1)) w1))
      as (-> & _ & -> & -> & _ & -> & ->).
    done. }
  destruct (loadQuestion stringify (currentQIndex s1) w1) as [w2 c].
  simpl in Hr, H3. subst c. destruct H3 as (Hst & Heff & Hin & Hint & Hsh).
  simpl. rewrite Hst, Heff, Hin, Hint, Hsh. done.
Qed.

(** X24: on a page whose submitter still has its initial, empty webhook
    address, a session brought back by [resumeExam] and then submitted
    is not sent anywhere: the pending delivery ends without a single
    request, and the result is written to the storage under
    [exam_result_] followed by its submission id. *)
Theorem resumed_session_is_not_delivered (savedState : Snapshot.t) (handle : Z)
    (w : World) (c : Sheets.Config) (now : Clock) (random : nat -> Q)
    (isAuto : bool) (submissionType : string)
    (fetch : Z -> Sheets.FetchOutcome) (t : Z) :
  isSubmitted (state w) = false ->
  sheets w = Some c ->
  Sheets.webhookUrl c = "" ->
  inFlight w = [] ->
  let w1 := (resumeExam stringify savedState handle w).1 in
  let w2 := (submitExam now random isAuto submissionType w1).1 in
  let w3 := submissionSettles stringifyResult fetch t w2 in
  sheets w1 = Some c
  /\ effects w3 = effects w2
  /\ inFlight w3 = []
  /\ exists resultObject : Result.t,
       builtResults w3 = builtResults w ++ [resultObject]
       /\ sinkCalls w3 = S (sinkCalls w)
       /\ localStorage w3 !! ("exam_result_" +:+ Result.submissionId resultObject)
          = Some (stringifyResult resultObject).
Proof.
  intros Hs Hsh Hurl Hin. cbn zeta.
  destruct (resumeExam_spec savedState handle w)
    as (_ & Hst & _ & Heff & Hin1 & Hsh1 & _).
  set (w1 := (resumeExam stringify savedState handle w).1) in *.
  assert (He1 : exam (state w1) = Some (Snapshot.exam savedState))
    by (by rewrite Hst).
  assert (Hs1 : isSubmitted (state w1) = false) by (by rewrite Hst).
  destruct (submitExam_result now random isAuto submissionType w1 _ He1 Hs1)
    as (r & Hb & _ & _ & _ & _ & _ & _ & _ & _ & _ & _ & _ & _ & Hsh2 & Hin2).
  pose proof (submitExam_effects now random isAuto submissionType w1 _ He1 Hs1)
    as Hk.
  set (w2 := (submitExam now random isAuto submissionType w1).1) in *.
  rewrite Hsh1, Hsh in Hsh2. rewrite Hin1, Hin, Hsh1, Hsh in Hin2. simpl in Hin2.
  split; [by rewrite Hsh1|].
  unfold submissionSettles. rewrite Hin2, Hsh2.
  unfold Sheets.submit. rewrite Hurl. simpl.
  rewrite app_nil_r. split; [done|]. split; [done|].
  exists r. split; [|split].
  - unfold builtResults in *. simpl. rewrite ?app_nil_r, Hb. by rewrite Heff.
  - unfold sinkCalls in *. simpl. rewrite ?app_nil_r, Hk, Hsh1, Hsh.
    by rewrite Heff.
  - apply lookup_insert_eq.
Qed.

End Starting.

(** ** Reloading the page during a session *)

Section Reload.
Import JS Script Session.

Variable stringify : Snapshot.t -> string.
Variable parse : string -> option Json.

(** On a payload that carries the name and the exam id of a snapshot,
    the validity test comes down to both being non-empty. *)
Lemma carries_valid j snap :
  Spec.carries j snap ->
  isValidSession j
  = negb (String.eqb (Exam.examId (Snapshot.exam snap)) "")
    && (0 <? String.length (trim (Student.name (Snapshot.student snap))))%nat.
Proof.
  intros [Hname Hid]. unfold isValidSession.
  destruct j as [| | | | |fields]; try discriminate. simpl in *.
  destruct (assoc "exam" fields) as [ex|]; [|discriminate]. simpl in Hid.
  destruct ex as [| | | | |exFields]; try discriminate. simpl in *.
  rewrite Hid. simpl.
  destruct (String.eqb (Exam.examId (Snapshot.exam snap)) ""); simpl; [done|].
  destruct (assoc "student" fields) as [st|]; [|discriminate]. simpl in Hname.
  destruct st as [| | | | |stFields]; try discriminate. simpl in *.
  by rewrite Hname.
Qed.

(** X25: a snapshot written by [saveActiveState] and read back by
    [initResumeDetection] after a reload, where parsing the stored text
    gives back the student name and the exam id: when both are
    non-empty (the name after trimming) the snapshot stays stored and is
    offered for resumption; otherwise it is removed and nothing is
    offered.  The session state of the reloaded page is not touched
    either way. *)
Theorem saved_session_is_offered_on_reload (w page : World) (e : Exam.t)
    (j : Json) :
  exam (state w) = Some e ->
  isSubmitted (state w) = false ->
  stringify (dataToSave (state w) e) <> "" ->
  parse (stringify (dataToSave (state w) e)) = Some j ->
  Spec.carries j (dataToSave (state w) e) ->
  localStorage page = localStorage (saveActiveState stringify w) ->
  resumeDom (dom page) = true ->
  let page' := initResumeDetection parse page in
  state page' = state page
  /\ if negb (String.eqb (Exam.examId e) "")
        && (0 <? String.length (trim (Student.name (student (state w)))))%nat
     then localStorage page' = localStorage page
          /\ resumeAlertHidden (dom page') = false
          /\ resumeClick (dom page') = Some j
     else localStorage page' !! STORAGE_KEY = None
          /\ dom page' = dom page.
Proof.
  intros He Hs Hne Hparse Hcarries Hsto Hdom. cbn zeta.
  pose proof (carries_valid j _ Hcarries) as Hvalid. simpl in Hvalid.
  unfold initResumeDetection.
  rewrite Hsto, (saveActiveState_saves stringify w e He Hs).
  destruct (String.eqb_spec (stringify (dataToSave (state w) e)) ""); [done|].
  rewrite Hparse, Hvalid, Hdom.
  destruct (negb _ && _); simpl; [done|].
  split; [done|]. split; [|done].
  unfold clearActiveState. apply lookup_delete_eq.
Qed.

End Reload.

Lemma saved_session_is_offered_on_reload_witness :
  let stringify := fun _ : Snapshot.t => "complete" in
  let page := Scenario.loginPage
                (Script.localStorage
                   (Session.saveActiveState stringify Scenario.session)) in
  let page' := Script.initResumeDetection Scenario.parse page in
  Script.localStorage page' !! Script.STORAGE_KEY = Some "complete"
  /\ Script.resumeAlertHidden (Script.dom page') = false
  /\ Script.resumeClick (Script.dom page') = Some Scenario.complete.
Proof.
  intros stringify page page'.
  assert (H : "complete" <> "") by discriminate.
  destruct (saved_session_is_offered_on_reload stringify Scenario.parse
              Scenario.session page Scenario.examA Scenario.complete
              eq_refl eq_refl H eq_refl (conj eq_refl eq_refl) eq_refl eq_refl)
    as (_ & Hsto & Hhidden & Hclick).
  split; [|split; [exact Hhidden|exact Hclick]].
  unfold page'. simpl in Hsto. rewrite Hsto. reflexivity.
Defined.

(** ** Subscribers and [init] *)

Section Subscribers.
Import JS Integrity.

Lemma violationCalls_app i es1 es2 :
  violationCalls i (es1 ++ es2)
  = (violationCalls i es1 + violationCalls i es2)%nat.
Proof. unfold violationCalls. by rewrite List.filter_app, length_app. Qed.

(** Without subscribers, a step that registers none calls none. *)
Lemma step_without_subscribers ev w :
  callbacks w = {| onViolation := []; onAutoSubmit := [] |} ->
  Spec.isRegistration ev = false ->
  callbacks (step ev w) = {| onViolation := []; onAutoSubmit := [] |}
  /\ forall i,
       autoSubmitCalls i (effects (step ev w)) = autoSubmitCalls i (effects w)
       /\ violationCalls i (effects (step ev w)) = violationCalls i (effects w).
Proof.
  intros Hcb Hreg.
  assert (Hlog : forall ty now stamp,
    callbacks (settle (_logViolation ty now stamp w))
    = {| onViolation := []; onAutoSubmit := [] |}
    /\ forall i,
         autoSubmitCalls i (effects (settle (_logViolation ty now stamp w)))
         = autoSubmitCalls i (effects w)
         /\ violationCalls i (effects (settle (_logViolation ty now stamp w)))
            = violationCalls i (effects w)).
  { intros ty now stamp. destruct (Spec.records ty now w) eqn:Hrec.
    2: { by rewrite (logViolation_skips ty now stamp w Hrec). }
    destruct (logViolation_spec ty now stamp w Hrec) as [E Ec].
    destruct (_logViolation ty now stamp w) as [w1 c]. simpl in E, Ec. subst w1 c.
    rewrite Hcb. simpl. split; [done|]. intros i.
    rewrite !autoSubmitCalls_app, !violationCalls_app.
    destruct (enableWarnings (config w)), (isFullscreenExit ty && _),
      (autoSubmitOnViolation (config w) && _);
      unfold autoSubmitCalls, violationCalls; simpl; lia. }
  destruct ev as [hidden now stamp|hidden now stamp|inFs now stamp|ty now stamp| |ok|cb|cb|b| |];
    simpl in *; try discriminate.
  - destruct (listening w); [|done]. unfold visibilityChange.
    destruct (hidden && _); [apply Hlog|done].
  - destruct (listening w); [|done]. unfold blur.
    destruct (negb hidden && _); [apply Hlog|done].
  - destruct (listening w); [|done]. unfold fullscreenChange.
    destruct (negb inFs && _ && _ && _); [apply Hlog|].
    by destruct (inFs && _).
  - apply Hlog.
  - destruct (pendingTimeouts w); [done|]. unfold reentryTimeout; simpl.
    destruct (isActive (state w) && _); simpl;
      [destruct (containerElement (config w)); simpl|];
      (split; [done|]); intros i;
      rewrite ?autoSubmitCalls_app, ?violationCalls_app;
      unfold autoSubmitCalls, violationCalls; simpl; lia.
  - by destruct (pendingRequests w).
  - done.
  - done.
  - unfold requestFullscreen.
    destruct (containerElement (config w)); simpl; (split; [done|]); intros i;
      rewrite ?autoSubmitCalls_app, ?violationCalls_app;
      unfold autoSubmitCalls, violationCalls; simpl; lia.
Qed.

(** X26: [init] forgets the subscribers registered before it: until a
    new subscriber is registered, no event makes the module call a
    violation subscriber or an auto-submit subscriber. *)
Theorem init_forgets_earlier_subscribers (p : ConfigPatch) (w : World)
    (evs : list Event) :
  Forall (fun ev => Spec.isRegistration ev = false) evs ->
  callbacks (run evs (init p w)) = {| onViolation := []; onAutoSubmit := [] |}
  /\ forall i,
       autoSubmitCalls i (effects (run evs (init p w)))
       = autoSubmitCalls i (effects w)
       /\ violationCalls i (effects (run evs (init p w)))
          = violationCalls i (effects w).
Proof.
  intros Hevs.
  assert (Hgen : forall w0,
             callbacks w0 = {| onViolation := []; onAutoSubmit := [] |} ->
             callbacks (run evs w0) = {| onViolation := []; onAutoSubmit := [] |}
             /\ forall i,
                  autoSubmitCalls i (effects (run evs w0))
                  = autoSubmitCalls i (effects w0)
                  /\ violationCalls i (effects (run evs w0))
                     = violationCalls i (effects w0)).
  { induction Hevs as [|ev evs Hev Hevs IH]; intros w0 Hcb; [done|]. simpl.
    destruct (step_without_subscribers ev w0 Hcb Hev) as [Hcb1 Hc1].
    destruct (IH (step ev w0) Hcb1) as [Hcb2 Hc2].
    split; [done|]. intros i. destruct (Hc1 i) as [<- <-]. apply Hc2. }
  apply (Hgen (init p w)). done.
Qed.

End Subscribers.

Lemma init_forgets_earlier_subscribers_witness :
  let w := Integrity.registerAutoSubmit JS.Returned
             (Integrity.registerViolation Scenario.throwing Integrity.loaded) in
  let w' := Integrity.run [Integrity.VisibilityChange true 5000 5000;
                           Integrity.Blur false 9000 9000]
              (Integrity.init
                 {| Integrity.containerElement' := None;
                    Integrity.autoSubmitOnViolation' := Some true;
                    Integrity.violationThreshold' := Some 1;
                    Integrity.enableWarnings' := None;
                    Integrity.strictMode' := None |} w) in
  Integrity.violations (Integrity.state w') = 1
  /\ Integrity.autoSubmitCalls 0 (Integrity.effects w') = 0%nat
  /\ Integrity.violationCalls 0 (Integrity.effects w') = 0%nat.
Proof.
  intros w w'. split; [reflexivity|].
  apply (init_forgets_earlier_subscribers _ w
           [Integrity.VisibilityChange true 5000 5000; Integrity.Blur false 9000 9000]).
  repeat constructor.
Defined.

(** ** The properties of the running session on concrete sessions *)

Lemma submitted_session_is_frozen_witness :
  let w := (Script.submitExam Scenario.clock Scenario.draws false "manual"
              Scenario.session).1 in
  let w' := Session.acts Scenario.stringifySnapshot Scenario.stringify
              [Session.Select "Q2" C;
               Session.Tick Scenario.clock Scenario.draws;
               Session.Next;
               Session.Confirm Scenario.clock Scenario.draws;
               Session.Signal (Integrity.VisibilityChange true 5000 5000)
                 Scenario.clock Scenario.draws;
               Session.Settle Scenario.offline 1793664009000] w in
  Script.isSubmitted (Script.state w') = true
  /\ Script.answers (Script.state w') = Script.answers (Script.state w)
  /\ Session.builtResults w' = Session.builtResults w
  /\ Script.sinkCalls w' = Script.sinkCalls w
  /\ Script.localStorage w' !! Script.STORAGE_KEY
     = Script.localStorage w !! Script.STORAGE_KEY.
Proof.
  intros w w'.
  apply (submitted_session_is_frozen Scenario.stringifySnapshot Scenario.stringify w).
  reflexivity.
Defined.

Lemma stored_snapshot_tracks_session_witness :
  let w := Session.saveActiveState Scenario.stringifySnapshot Scenario.session in
  let w' := Session.acts Scenario.stringifySnapshot Scenario.stringify
              [Session.Tick Scenario.clock Scenario.draws;
               Session.Select "Q2" C;
               Session.Tick Scenario.clock Scenario.draws;
               Session.Tick Scenario.clock Scenario.draws] w in
  Script.isSubmitted (Script.state w') = true
  \/ exists (e : Exam.t) (d : Z),
       Script.exam (Script.state w') = Some e
       /\ 0 <= d <= 4
       /\ Script.localStorage w' !! Script.STORAGE_KEY
          = Some (Scenario.stringifySnapshot
                    {| Snapshot.student := Script.student (Script.state w');
                       Snapshot.exam := e;
                       Snapshot.currentQIndex :=
                         Script.currentQIndex (Script.state w');
                       Snapshot.answers := Script.answers (Script.state w');
                       Snapshot.timeLeft := Script.timeLeft (Script.state w') + d;
                       Snapshot.timing := Script.timing (Script.state w') |}).
Proof.
  intros w w'.
  apply (stored_snapshot_tracks_session Scenario.stringifySnapshot
           Scenario.stringify w).
  exists Scenario.examA, 0.
  split; [reflexivity|]. split; [reflexivity|]. split; [reflexivity|].
  split; [|reflexivity].
  vm_compute. split; [discriminate|]. split; [discriminate|]. intros _. reflexivity.
Defined.

Lemma countdown_ends_in_timeout_witness :
  let w := Session.withState
             (Session.withTimeLeft 3 (Script.state Scenario.session))
             Scenario.session in
  let tick := (Scenario.clock, Scenario.draws) in
  let w' := Session.acts Scenario.stringifySnapshot Scenario.stringify
              (Spec.ticks ([tick; tick] ++ [tick])) w in
  Script.isSubmitted (Script.state w') = true
  /\ Script.ticking w' = false
  /\ exists resultObject : Result.t,
       Session.builtResults w' = Session.builtResults w ++ [resultObject]
       /\ Result.type (Result.submission_ resultObject) = "auto-timeout"
       /\ Result.durationUsed (Result.timing_ resultObject) = 30.
Proof.
  intros w tick w'.
  destruct (countdown_ends_in_timeout Scenario.stringifySnapshot
              Scenario.stringify w Scenario.examA [tick; tick] tick
              eq_refl eq_refl eq_refl eq_refl)
    as (_ & Hs & Ht & _ & resultObject & Hb & Hty & _ & Hd).
  split; [exact Hs|]. split; [exact Ht|]. exists resultObject.
  split; [exact Hb|]. split; [exact Hty|]. exact Hd.
Defined.

Lemma navigation_stays_in_range_witness :
  let w' := Session.acts Scenario.stringifySnapshot Scenario.stringify
              [Session.Next; Session.Next; Session.Prev; Session.Prev;
               Session.Load 7; Session.Load (-1)] Scenario.session in
  Spec.indexInRange w'.
Proof.
  intros w'.
  apply (navigation_stays_in_range Scenario.stringifySnapshot Scenario.stringify
           Scenario.session).
  exists Scenario.examA. split; [reflexivity|]. simpl. lia.
Defined.

Lemma started_session_is_saved_and_armed_witness :
  let r := Session.startExam Scenario.stringifySnapshot Scenario.examA 1
             Scenario.clock (Scenario.loginPage ∅) in
  r.2 = JS.Returned
  /\ Script.ticking r.1 = true
  /\ Script.timeLeft (Script.state r.1) = 1800
  /\ exists m' : Integrity.World,
       Script.integrity r.1 = Some m'
       /\ Integrity.violations (Integrity.state m') = 0
       /\ Integrity.onAutoSubmit (Integrity.callbacks m')
          = [Session.autoSubmitSubscriber].
Proof.
  intros r.
  destruct (started_session_is_saved_and_armed Scenario.stringifySnapshot
              Scenario.examA 1 Scenario.clock (Scenario.loginPage ∅)
              Integrity.loaded eq_refl eq_refl eq_refl)
    as (Hr & Htk & _ & Ht & _ & _ & m' & Hm & Hv & _ & _ & _ & Hsub & _).
  split; [exact Hr|]. split; [exact Htk|]. split; [exact Ht|].
  exists m'. split; [exact Hm|]. split; [exact Hv|]. exact Hsub.
Defined.

Lemma untouched_session_times_out_witness :
  let tick := (Scenario.clock, Scenario.draws) in
  let w0 := (Session.startExam Scenario.stringifySnapshot Scenario.examA 1
               Scenario.clock (Scenario.loginPage ∅)).1 in
  let w' := Session.acts Scenario.stringifySnapshot Scenario.stringify
              (Spec.ticks (replicate 1799 tick ++ [tick])) w0 in
  Script.isSubmitted (Script.state w') = true
  /\ exists resultObject : Result.t,
       Session.builtResults w' = [resultObject]
       /\ Result.type (Result.submission_ resultObject) = "auto-timeout"
       /\ Result.durationUsed (Result.timing_ resultObject) = 30
       /\ Result.unansweredQuestions (Result.scoring_ resultObject) = 2.
Proof.
  intros tick w0 w'.
  destruct (untouched_session_times_out Scenario.stringifySnapshot
              Scenario.stringify Scenario.examA 1 Scenario.clock
              (Scenario.loginPage ∅) (replicate 1799 tick) tick
              eq_refl eq_refl)
    as (_ & Hs & resultObject & Hb & Hty & Hd & _ & _ & _ & _ & _ & Hplain).
  split; [exact Hs|]. exists resultObject.
  split; [exact Hb|]. split; [exact Hty|]. split; [exact Hd|].
  apply Hplain. repeat constructor.
Defined.

Lemma resumed_session_is_not_delivered_witness :
  let saved := Session.dataToSave (Script.state Scenario.session) Scenario.examA in
  let w1 := (Session.resumeExam Scenario.stringifySnapshot saved 1
               (Scenario.loginPage ∅)).1 in
  let w2 := (Script.submitExam Scenario.clock Scenario.draws false "manual" w1).1 in
  let w3 := Script.submissionSettles Scenario.stringify Scenario.offline
              1793664009000 w2 in
  Script.effects w3 = Script.effects w2
  /\ exists resultObject : Result.t,
       Session.builtResults w3 = [resultObject]
       /\ Script.localStorage w3
          !! ("exam_result_" +:+ Result.submissionId resultObject)
          = Some (Scenario.stringify resultObject).
Proof.
  intros saved w1 w2 w3.
  destruct (resumed_session_is_not_delivered Scenario.stringifySnapshot
              Scenario.stringify saved 1 (Scenario.loginPage ∅)
              Sheets.defaultConfig Scenario.clock Scenario.draws false "manual"
              Scenario.offline 1793664009000 eq_refl eq_refl eq_refl eq_refl)
    as (_ & Heff & _ & resultObject & Hb & _ & Hsto).
  split; [exact Heff|]. exists resultObject. split; [exact Hb|]. exact Hsto.
Defined.

(** ** The timer text *)

Section TimerText.
Import JS Session.

Lemma timerText_below_100_minutes :
  forallb (fun t => Spec.readsBackAs (timerText t) t) (seqZ 0 6000) = true.
Proof. vm_compute. reflexivity. Qed.

(** X27: for a countdown below 100 minutes the timer shows five
    characters, minutes and seconds separated by a colon, which read
    back as the seconds left; from 100 minutes up to 200 the minutes
    take three characters and the text has six. *)
Theorem timer_text_reads_back (timeLeft : Z) :
  0 <= timeLeft < 6000 ->
  Spec.readsBackAs (timerText timeLeft) timeLeft = true
  /\ String.length (timerText (timeLeft + 6000)) = 6%nat.
Proof.
  intros Hrange. split.
  - pose proof timerText_below_100_minutes as H.
    rewrite forallb_forall in H. apply H.
    apply list_elem_of_In, elem_of_seqZ. lia.
  - assert (H : forallb (fun t => (String.length (timerText (t + 6000)) =? 6)%nat)
                  (seqZ 0 6000) = true) by (vm_compute; reflexivity).
    rewrite forallb_forall in H. apply Nat.eqb_eq. apply H.
    apply list_elem_of_In, elem_of_seqZ. lia.
Qed.

End TimerText.

Lemma timer_text_reads_back_witness :
  Spec.readsBackAs (Session.timerText 754) 754 = true
  /\ String.length (Session.timerText 6754) = 6%nat.
Proof. apply (timer_text_reads_back 754). lia. Defined.
